(** * LEVEL UP backend (server.js): a shallow embedding and its properties

    The server keeps two in-memory arrays, [users] and [mockTests], and
    serves them through Express routes.  JavaScript numbers are IEEE 754
    binary64 values; they are modelled with the Standard Library's
    bit-level specification of floating-point arithmetic ([SpecFloat]),
    instantiated at precision 53 and maximal exponent 1024, so that
    [NaN], signed zeros, infinities and rounding behave as in the
    runtime.  Request bodies are JSON trees; time is a millisecond
    timestamp handed to each handler. *)

From Stdlib Require Import ZArith List String Ascii Bool Lia.
From Stdlib Require Import DecimalString Sorting.Sorted Sorting.Permutation.
From Stdlib Require Import Floats.SpecFloat.
Import ListNotations.

#[global] Set Warnings "-register-all".

Local Open Scope Z_scope.

(** ** JavaScript numbers *)

Module Num.

Definition prec : Z := 53.
Definition emax : Z := 1024.

Definition Number : Type := spec_float.

Definition NaN : Number := S754_nan.
Definition posZero : Number := S754_zero false.
Definition negZero : Number := S754_zero true.

(** The double nearest to an integer (ties to even). *)
Definition ofZ (z : Z) : Number := binary_normalize prec emax z 0 false.
Definition ofNat (n : nat) : Number := ofZ (Z.of_nat n).

Definition add : Number -> Number -> Number := SFadd prec emax.
Definition sub : Number -> Number -> Number := SFsub prec emax.
Definition mul : Number -> Number -> Number := SFmul prec emax.
Definition div : Number -> Number -> Number := SFdiv prec emax.
Definition sqrt : Number -> Number := SFsqrt prec emax.

(** [x < y], [x <= y] and [x > y] of the language: false when an operand
    is [NaN]. *)
Definition ltb : Number -> Number -> bool := SFltb.
Definition leb : Number -> Number -> bool := SFleb.
Definition gtb (x y : Number) : bool := SFltb y x.
Definition geb (x y : Number) : bool := SFleb y x.

Definition isNaN (x : Number) : bool :=
  match x with S754_nan => true | _ => false end.

Definition isZero (x : Number) : bool :=
  match x with S754_zero _ => true | _ => false end.

(** Well-formed binary64 values: canonical mantissa, exponent in range. *)
Definition valid (x : Number) : bool := valid_binary prec emax x.

(** [Math.round]: the nearest integer, ties towards plus infinity; the
    sign of a zero result is the sign of the argument. *)
Definition mathRound (x : Number) : Number :=
  match x with
  | S754_finite s m e =>
      if 0 <=? e then x
      else
        let k := - e in
        let q := Z.shiftr (Zpos m) k in
        let r := Zpos m - Z.shiftl q k in
        let half := Z.shiftl 1 (k - 1) in
        let n := if s then (if half <? r then q + 1 else q)
                 else (if half <=? r then q + 1 else q) in
        if n =? 0 then S754_zero s
        else binary_normalize prec emax (if s then - n else n) 0 false
  | _ => x
  end.

(** [Math.max] of two numbers: [NaN] when either is, and [+0] above
    [-0]. *)
Definition mathMax (x y : Number) : Number :=
  if isNaN x || isNaN y then NaN
  else if ltb x y then y
  else if ltb y x then x
  else match x with S754_zero true => y | _ => x end.

(** [Math.pow(x, 2)]: the runtime returns the correctly rounded square
    for the exponent 2. *)
Definition mathPow2 (x : Number) : Number := mul x x.

(** [n || d] on numbers: the default replaces the falsy numbers, which
    are [NaN], [+0] and [-0]. *)
Definition orDefault (n d : Number) : Number :=
  if isNaN n || isZero n then d else n.

(** [c * 2 ^ j] on mantissas, as the alignment of two operands builds
    it. *)
Definition shl (c : positive) (j : Z) : positive :=
  match j with Zpos n => Pos.iter xO c n | _ => c end.

(** A number that carries the sign [s] and is neither a zero nor
    [NaN]. *)
Definition signed (s : bool) (x : Number) : Prop :=
  match x with
  | S754_finite s' _ _ | S754_infinity s' => s' = s
  | _ => False
  end.

End Num.

(** ** JavaScript values and coercions

    The values a parsed JSON body can hold, plus [undefined] for an
    absent field.  Strings are sequences of code units below 256. *)

Module Js.
Import Num.

Local Open Scope string_scope.
Local Open Scope Z_scope.

Inductive JsValue : Type :=
| VUndefined
| VNull
| VBool (b : bool)
| VNum (n : Number)
| VStr (s : string)
| VArr (items : list JsValue)
| VObj (props : list (string * JsValue)).

Definition isUndefined (v : JsValue) : bool :=
  match v with VUndefined => true | _ => false end.

(** [ToBoolean]: what [!v] negates. *)
Definition truthy (v : JsValue) : bool :=
  match v with
  | VUndefined | VNull => false
  | VBool b => b
  | VNum n => negb (isNaN n || isZero n)
  | VStr s => negb (String.eqb s "")
  | VArr _ | VObj _ => true
  end.

(** *** Strings *)

Definition isWhite (c : ascii) : bool :=
  let n := Z.of_nat (nat_of_ascii c) in
  ((9 <=? n) && (n <=? 13)) || (n =? 32) || (n =? 160).

Fixpoint trimLeft (s : string) : string :=
  match s with
  | String c r => if isWhite c then trimLeft r else s
  | EmptyString => s
  end.

Fixpoint revOnto (s acc : string) : string :=
  match s with
  | String c r => revOnto r (String c acc)
  | EmptyString => acc
  end.

Definition trim (s : string) : string :=
  revOnto (trimLeft (revOnto (trimLeft s) "")) "".

Definition digitVal (c : ascii) : option Z :=
  let n := Z.of_nat (nat_of_ascii c) in
  if (48 <=? n) && (n <=? 57) then Some (n - 48)
  else if (97 <=? n) && (n <=? 122) then Some (n - 87)
  else if (65 <=? n) && (n <=? 90) then Some (n - 55)
  else None.

Definition digitIn (radix : Z) (c : ascii) : option Z :=
  match digitVal c with
  | Some d => if d <? radix then Some d else None
  | None => None
  end.

(** Reads the longest prefix of digits of the radix: the value
    accumulated, the number of digits read, and the rest. *)
Fixpoint readDigits (radix : Z) (s : string) (acc : Z) (cnt : nat)
  : Z * nat * string :=
  match s with
  | String c r =>
      match digitIn radix c with
      | Some d => readDigits radix r (acc * radix + d) (S cnt)
      | None => (acc, cnt, s)
      end
  | EmptyString => (acc, cnt, s)
  end.

Definition signedOfZ (neg : bool) (z : Z) : Number :=
  if z =? 0 then S754_zero neg else ofZ (if neg then - z else z).

Definition readSign (s : string) : bool * string :=
  match s with
  | String "-" r => (true, r)
  | String "+" r => (false, r)
  | _ => (false, s)
  end.

(** [parseInt(s)] with no radix argument. *)
Definition parseIntString (s : string) : Number :=
  let '(neg, s2) := readSign (trimLeft s) in
  let '(radix, s3) :=
    match s2 with
    | String "0" (String "x" r) => (16, r)
    | String "0" (String "X" r) => (16, r)
    | _ => (10, s2)
    end in
  let '(v, cnt, _) := readDigits radix s3 0 0 in
  match cnt with
  | O => NaN
  | S _ => signedOfZ neg v
  end.

(** The double nearest to [m * 10 ^ e10], for [m >= 0]. *)
Definition decimalToNumber (neg : bool) (m e10 : Z) : Number :=
  match m with
  | Zpos _ =>
      if 0 <=? e10 then signedOfZ neg (m * 10 ^ e10)
      else
        let '(q, e, l) := SFdiv_core_binary prec emax m 0 (10 ^ (- e10)) 0 in
        binary_round_aux prec emax neg q e l
  | _ => S754_zero neg
  end.

Definition radixPrefix (s : string) : option (Z * string) :=
  match s with
  | String "0" (String c r) =>
      if (Ascii.eqb c "x" || Ascii.eqb c "X")%bool then Some (16, r)
      else if (Ascii.eqb c "o" || Ascii.eqb c "O")%bool then Some (8, r)
      else if (Ascii.eqb c "b" || Ascii.eqb c "B")%bool then Some (2, r)
      else None
  | _ => None
  end.

(** The exponent part of a decimal literal, when the string is one (or
    empty). *)
Definition readExponent (s : string) : option Z :=
  match s with
  | EmptyString => Some 0
  | String c r =>
      if (Ascii.eqb c "e" || Ascii.eqb c "E")%bool then
        let '(neg, r1) := readSign r in
        match readDigits 10 r1 0 0 with
        | (_, O, _) => None
        | (v, S _, EmptyString) => Some (if neg then - v else v)
        | (_, S _, String _ _) => None
        end
      else None
  end.

Definition readDecimal (s : string) : Number :=
  let '(neg, s1) := readSign s in
  if String.eqb s1 "Infinity" then S754_infinity neg
  else
    let '(ip, ci, r1) := readDigits 10 s1 0 0 in
    let '(m, cf, r2) :=
      match r1 with
      | String "." r => readDigits 10 r ip 0
      | _ => (ip, O, r1)
      end in
    match (ci + cf)%nat with
    | O => NaN
    | S _ =>
        match readExponent r2 with
        | Some ex => decimalToNumber neg m (ex - Z.of_nat cf)
        | None => NaN
        end
    end.

(** [ToNumber] on a string. *)
Definition stringToNumber (s : string) : Number :=
  let t := trim s in
  match t with
  | EmptyString => posZero
  | String _ _ =>
      match radixPrefix t with
      | Some (radix, r) =>
          match readDigits radix r 0 0 with
          | (v, S _, EmptyString) => ofZ v
          | _ => NaN
          end
      | None => readDecimal t
      end
  end.

(** *** Number to string

    [Number::toString]: the shortest decimal that reads back as the same
    double, the closest to it when several are as short. *)

Definition decString (z : Z) : string := NilZero.string_of_int (Z.to_int z).

(** Compares [s * 10 ^ t] with [b * 2 ^ g]. *)
Definition cmpScaled (s t b g : Z) : comparison :=
  (s * 10 ^ Z.max t 0 * 2 ^ Z.max (- g) 0)
  ?= (b * 2 ^ Z.max g 0 * 10 ^ Z.max (- t) 0).

Fixpoint findMag (fuel : nat) (n v g : Z) : Z :=
  match fuel with
  | O => n
  | S f =>
      match cmpScaled 1 n v g with
      | Gt => n
      | _ => findMag f (n + 1) v g
      end
  end.

Definition insideInterval (lo hi g : Z) (incl : bool) (s t : Z) : bool :=
  match cmpScaled s t lo g, cmpScaled s t hi g with
  | Gt, Lt => true
  | Eq, Lt | Gt, Eq | Eq, Eq => incl
  | _, _ => false
  end.

Definition normDigits (k n0 s : Z) : Z * Z :=
  if s =? 10 ^ k then (10 ^ (k - 1), n0 + 1) else (s, n0).

Fixpoint searchDigits (fuel : nat) (k n0 : Z) (m : positive) (e : Z)
  (lo hi : Z) : Z * Z :=
  let t := n0 - k in
  let sl := (Zpos m * 2 ^ Z.max e 0 * 10 ^ Z.max (- t) 0)
            / (2 ^ Z.max (- e) 0 * 10 ^ Z.max t 0) in
  match fuel with
  | O => (sl, n0)
  | S f =>
      let sh := sl + 1 in
      let inside := insideInterval lo hi (e - 2) (Z.even (Zpos m)) in
      match inside sl t, inside sh t with
      | true, true =>
          match cmpScaled (2 * sl + 1) t (8 * Zpos m) (e - 2) with
          | Gt => (sl, n0)
          | Lt => normDigits k n0 sh
          | Eq => if Z.even sl then (sl, n0) else normDigits k n0 sh
          end
      | true, false => (sl, n0)
      | false, true => normDigits k n0 sh
      | false, false => searchDigits f (k + 1) n0 m e lo hi
      end
  end.

(** The digits [s] and the decimal exponent [n] of the shortest
    representation of [m * 2 ^ e]: the value printed is
    [0.s * 10 ^ n]. *)
Definition shortest (m : positive) (e : Z) : Z * Z :=
  let v := 4 * Zpos m in
  let hi := v + 2 in
  let lo := if (Zpos m =? 2 ^ 52) && (emin prec emax <? e)
            then v - 1 else v - 2 in
  let b := Zpos (digits2_pos m) + e in
  let n0 := findMag 8 ((b - 1) * 30103 / 100000 - 1) v (e - 2) in
  searchDigits 17 1 n0 m e lo hi.

Fixpoint zeros (n : nat) : string :=
  match n with
  | O => ""
  | S k => String "0" (zeros k)
  end.

Definition formatDigits (s n : Z) : string :=
  let d := decString s in
  let k := Z.of_nat (String.length d) in
  if (k <=? n) && (n <=? 21) then d ++ zeros (Z.to_nat (n - k))
  else if (0 <? n) && (n <=? 21) then
    substring 0 (Z.to_nat n) d ++ "." ++ substring (Z.to_nat n) (Z.to_nat (k - n)) d
  else if (-6 <? n) && (n <=? 0) then "0." ++ zeros (Z.to_nat (- n)) ++ d
  else
    let ex := n - 1 in
    let sg := if ex <? 0 then "-" else "+" in
    let mant := if k =? 1 then d
                else substring 0 1 d ++ "." ++ substring 1 (Z.to_nat (k - 1)) d in
    mant ++ "e" ++ sg ++ decString (Z.abs ex).

Definition numberToString (x : Number) : string :=
  match x with
  | S754_nan => "NaN"
  | S754_zero _ => "0"
  | S754_infinity s => if s then "-Infinity" else "Infinity"
  | S754_finite s m e =>
      let '(d, n) := shortest m e in
      (if s then "-" else "") ++ formatDigits d n
  end.

(** *** Coercions of values

    [None] stands for the [TypeError] thrown when an object cannot be
    converted to a primitive: a JSON object holds no function, so an own
    property named [toString] hides the inherited method and leaves
    nothing callable that returns a primitive. *)

Fixpoint hasKey {A : Type} (k : string) (props : list (string * A)) : bool :=
  match props with
  | [] => false
  | (k', _) :: r => String.eqb k' k || hasKey k r
  end.

Fixpoint toStringJs (v : JsValue) : option string :=
  match v with
  | VUndefined => Some "undefined"
  | VNull => Some "null"
  | VBool b => Some (if b then "true" else "false")
  | VNum n => Some (numberToString n)
  | VStr s => Some s
  | VArr items =>
      (fix join (l : list JsValue) (first : bool) : option string :=
         match l with
         | [] => Some ""
         | x :: r =>
             let piece := match x with
                          | VUndefined | VNull => Some ""
                          | _ => toStringJs x
                          end in
             match piece, join r false with
             | Some p, Some q => Some ((if first then "" else ",") ++ p ++ q)
             | _, _ => None
             end
         end) items true
  | VObj props => if hasKey "toString" props then None else Some "[object Object]"
  end.

(** [ToNumber]. *)
Definition toNumber (v : JsValue) : option Number :=
  match v with
  | VUndefined => Some NaN
  | VNull => Some posZero
  | VBool b => Some (if b then ofZ 1 else posZero)
  | VNum n => Some n
  | VStr s => Some (stringToNumber s)
  | VArr _ | VObj _ => option_map stringToNumber (toStringJs v)
  end.

(** [parseInt(v)]. *)
Definition parseInt (v : JsValue) : option Number :=
  option_map parseIntString (toStringJs v).

End Js.

(** ** Arrays *)

Module Arr.

(** [Array.prototype.slice(start, end)]: negative indices count from the
    end, and both are clamped to the array. *)
Definition slice {A : Type} (start : Z) (stop : option Z) (l : list A) : list A :=
  let len := Z.of_nat (List.length l) in
  let rel i := if i <? 0 then Z.max (len + i) 0 else Z.min i len in
  let k := rel start in
  let fin := match stop with None => len | Some e => rel e end in
  firstn (Z.to_nat (fin - k)) (skipn (Z.to_nat k) l).

(** [Array.prototype.map] with the index handed to the callback. *)
Fixpoint mapIndexFrom {A B : Type} (f : A -> Z -> B) (i : Z) (l : list A) : list B :=
  match l with
  | [] => []
  | x :: r => f x i :: mapIndexFrom f (i + 1) r
  end.

Definition mapIndex {A B : Type} (f : A -> Z -> B) (l : list A) : list B :=
  mapIndexFrom f 0 l.

(** [Array.prototype.sort(comparefn)].  The sort is stable, and a [NaN]
    from the comparator counts as [0].  For a consistent comparator the
    language fixes the result, and straight insertion computes it: [x]
    moves right past [y] only when [comparefn(x, y) > 0].  A comparator
    that answers [NaN] for some pairs need not be consistent; the order
    is then the runtime's choice, except where stability alone decides
    it, as for two elements that compare as equal. *)
Fixpoint insertSorted {A : Type} (comparefn : A -> A -> Num.Number) (x : A)
  (l : list A) : list A :=
  match l with
  | [] => [x]
  | y :: r =>
      if Num.gtb (comparefn x y) Num.posZero then y :: insertSorted comparefn x r
      else x :: l
  end.

Definition sort {A : Type} (comparefn : A -> A -> Num.Number) (l : list A) : list A :=
  fold_right (insertSorted comparefn) [] l.

(** Applies [f] to the first element that satisfies [p]: the element
    [Array.prototype.find] returns is updated in place. *)
Fixpoint updateFirst {A : Type} (p : A -> bool) (f : A -> A) (l : list A) : list A :=
  match l with
  | [] => []
  | x :: r => if p x then f x :: r else x :: updateFirst p f r
  end.

(** [Array.prototype.reduce(callback, initial)]. *)
Definition reduce {A B : Type} (callback : B -> A -> B) (initial : B) (l : list A) : B :=
  fold_left callback l initial.

(** [String.prototype.split(sep)] for a one-character separator. *)
Fixpoint split (sep : ascii) (s : string) : list string :=
  match s with
  | EmptyString => [EmptyString]
  | String c r =>
      if Ascii.eqb c sep then EmptyString :: split sep r
      else match split sep r with
           | h :: t => String c h :: t
           | [] => [String c EmptyString]
           end
  end.

End Arr.

(** ** The stored data *)

(** A recorded test (the [newTest] object). *)
Module MockTest.
Record t : Type := mk {
  id : string;
  testName : Js.JsValue;
  score : Num.Number;
  attempted : Num.Number;
  correct : Num.Number;
  incorrect : Num.Number;
  date : Z;
  accuracy : Num.Number
}.
End MockTest.

(** An entry of the global [mockTests] array: the test's own fields
    spread, then the owner's. *)
Module Entry.
Record t : Type := mk {
  test : MockTest.t;
  userId : string;
  userEmail : string;
  userName : string
}.
End Entry.

Module User.
Record t : Type := mk {
  id : string;
  googleId : string;
  email : string;
  name : string;
  avatar : string;
  role : string;
  mockTests : list MockTest.t;
  totalTests : Num.Number;
  averageScore : Num.Number;
  bestScore : Num.Number;
  joinedDate : Z;
  lastLogin : Z
}.
End User.

(** The profile the identity provider hands to the strategy callback:
    [emails] and [photos] hold the [value] of each entry. *)
Module Profile.
Record t : Type := mk {
  id : string;
  emails : list string;
  displayName : string;
  photos : list string
}.
End Profile.

(** The body of [POST /api/mock-test], destructured. *)
Module Submission.
Record t : Type := mk {
  testName : Js.JsValue;
  score : Js.JsValue;
  attempted : Js.JsValue;
  correct : Js.JsValue;
  incorrect : Js.JsValue
}.
End Submission.

(** What a bearer token carries. *)
Module Claims.
Record t : Type := mk {
  id : string;
  email : string;
  role : string;
  iat : Z;
  exp : option Z
}.
End Claims.

(** The two module-level arrays. *)
Record State : Type := mkState {
  users : list User.t;
  mockTests : list Entry.t
}.

Definition initialState : State := mkState [] [].

(** ** Responses *)

Inductive Field : Type :=
| FStr (s : string)
| FNum (n : Num.Number)
| FDate (ms : Z)
| FTests (tests : list MockTest.t).

Module Summary.
Record t : Type := mk {
  id : string;
  name : string;
  email : string;
  totalTests : Num.Number;
  averageScore : Num.Number;
  bestScore : Num.Number
}.
End Summary.

Module Progress.
Record t : Type := mk {
  date : Z;
  score : Num.Number;
  testName : Js.JsValue
}.
End Progress.

Module Analytics.
Record t : Type := mk {
  totalTests : Num.Number;
  averageScore : Num.Number;
  bestScore : Num.Number;
  recentTests : list MockTest.t;
  improvement : Num.Number;
  consistency : string;
  weeklyProgress : list Progress.t
}.
End Analytics.

Module Row.
Record t : Type := mk {
  rank : Z;
  name : string;
  email : string;
  score : Num.Number;
  tests : Num.Number;
  bestScore : Num.Number;
  lastActive : Z
}.
End Row.

Inductive Body : Type :=
| BError (error : string)
| BObject (props : list (string * Field))
| BSaved (user : Summary.t) (test : MockTest.t) (message : string)
| BAnalytics (analytics : Analytics.t)
| BLeaderboard (rows : list Row.t).

Record Response : Type := mkResponse {
  status : Z;
  body : Body
}.

(** [res.json(b)] and [res.status(c).json({ error: msg })]. *)
Definition json (b : Body) : Response := mkResponse 200 b.
Definition fail (code : Z) (msg : string) : Response := mkResponse code (BError msg).

(** ** Analytics helpers (server.js, lines 401-442) *)

Section Helpers.
Import Num.
Local Open Scope string_scope.
Local Open Scope Z_scope.

Definition calculateImprovement (tests : list MockTest.t) : Number :=
  if Z.of_nat (List.length tests) <? 2 then posZero
  else
    let recent := Arr.slice (-3) None tests in
    let earlier :=
      Arr.slice 0 (Some (Z.max 1 (Z.of_nat (List.length tests) - 3))) tests in
    if Z.of_nat (List.length earlier) =? 0 then posZero
    else
      let recentAvg :=
        div (Arr.reduce (fun sum t => add sum (MockTest.score t)) posZero recent)
            (ofNat (List.length recent)) in
      let earlierAvg :=
        div (Arr.reduce (fun sum t => add sum (MockTest.score t)) posZero earlier)
            (ofNat (List.length earlier)) in
      mathRound (sub recentAvg earlierAvg).

Definition calculateConsistency (tests : list MockTest.t) : string :=
  if Z.of_nat (List.length tests) <? 3 then "Insufficient Data"
  else
    let scores := map MockTest.score tests in
    let mean :=
      div (Arr.reduce (fun sum score => add sum score) posZero scores)
          (ofNat (List.length scores)) in
    let variance :=
      div (Arr.reduce (fun sum score => add sum (mathPow2 (sub score mean)))
             posZero scores)
          (ofNat (List.length scores)) in
    let standardDeviation := sqrt variance in
    if ltb standardDeviation (ofZ 5) then "Very Consistent"
    else if ltb standardDeviation (ofZ 10) then "Consistent"
    else if ltb standardDeviation (ofZ 15) then "Moderately Consistent"
    else "Needs Focus".

(** [new Date()] moved back seven calendar days by [setDate]; the
    server's clock runs on UTC, where that is seven times 24 hours. *)
Definition oneWeekAgo (now : Z) : Z := now - 7 * 86400000.

Definition calculateWeeklyProgress (now : Z) (tests : list MockTest.t)
  : list Progress.t :=
  if Z.of_nat (List.length tests) <? 2 then []
  else
    let recentTests :=
      filter (fun test => oneWeekAgo now <=? MockTest.date test) tests in
    map (fun test =>
           Progress.mk (MockTest.date test) (MockTest.score test)
             (MockTest.testName test))
        recentTests.

End Helpers.

(** ** The identity provider's callback (lines 51-85) *)

(** What the clock reads during one call of the callback, at each place
    that reads it: [Date.now()] for the id (line 59), [new Date()] for
    [joinedDate] (line 69), and [new Date()] for [lastLogin] (line 70
    for a new user, line 76 for a known one). *)
Module Clock.
Record t : Type := mk {
  dateNow : Z;
  joinedDate : Z;
  lastLogin : Z
}.
End Clock.

Section Strategy.
Local Open Scope string_scope.

Definition touchLogin (now : Z) (u : User.t) : User.t :=
  User.mk (User.id u) (User.googleId u) (User.email u) (User.name u)
    (User.avatar u) (User.role u) (User.mockTests u) (User.totalTests u)
    (User.averageScore u) (User.bestScore u) (User.joinedDate u) now.

(** The object literal of a new user; reading [emails[0].value] or
    [photos[0].value] of a profile without them throws.  The literal
    reads the clock three times, once for each of [id], [joinedDate]
    and [lastLogin]. *)
Definition newUser (clock : Clock.t) (profile : Profile.t) : option User.t :=
  match Profile.emails profile, Profile.photos profile with
  | email :: _, photo :: _ =>
      Some (User.mk (Js.decString (Clock.dateNow clock)) (Profile.id profile) email
              (Profile.displayName profile) photo "student" []
              Num.posZero Num.posZero Num.posZero
              (Clock.joinedDate clock) (Clock.lastLogin clock))
  | _, _ => None
  end.

(** The result is the state and what [done] receives: the user, or
    nothing with the error caught. *)
Definition googleStrategy (clock : Clock.t) (profile : Profile.t) (st : State)
  : State * option User.t :=
  let known u := String.eqb (User.googleId u) (Profile.id profile) in
  match find known (users st) with
  | Some user =>
      (mkState (Arr.updateFirst known (touchLogin (Clock.lastLogin clock)) (users st))
         (mockTests st),
       Some (touchLogin (Clock.lastLogin clock) user))
  | None =>
      match newUser clock profile with
      | Some user => (mkState (users st ++ [user])%list (mockTests st), Some user)
      | None => (st, None)
      end
  end.

(** The claims [jwt.sign] receives in the callback route, with the
    issue and expiry times the option [expiresIn: '7d'] adds, in
    seconds. *)
Definition tokenClaims (now : Z) (u : User.t) : Claims.t :=
  Claims.mk (User.id u) (User.email u) (User.role u)
    (now / 1000) (Some (now / 1000 + 7 * 86400)).

End Strategy.

(** ** Routes *)

Section Routes.
Import Num.
Local Open Scope string_scope.
Local Open Scope Z_scope.

(** The signing secret, read from the environment. *)
Variable JWT_SECRET : string.

(** The signature check of the jsonwebtoken package, which is not part
    of the repository: the claims of a token whose signature verifies
    under the secret, nothing for any other string. *)
Variable jwtDecode : string -> string -> option Claims.t.

(** Modelled from the spec: [jwt.verify] of the jsonwebtoken package
    (not under src/).  A token's validity is determined by its signature
    and its expiry at verification time, the clock being read in
    seconds. *)
Definition jwtVerify (token secret : string) (now : Z) : option Claims.t :=
  match jwtDecode secret token with
  | None => None
  | Some claims =>
      match Claims.exp claims with
      | Some e => if e <=? now / 1000 then None else Some claims
      | None => Some claims
      end
  end.

(** What a middleware does: it answers, or it calls [next] with
    [req.user] set. *)
Inductive Auth : Type :=
| Answered (res : Response)
| Next (user : Claims.t).

(** [authHeader && authHeader.split(' ')[1]]: [None] is [undefined]. *)
Definition bearerToken (authHeader : option string) : option string :=
  match authHeader with
  | None => None
  | Some h => if String.eqb h "" then Some h else nth_error (Arr.split " " h) 1
  end.

Definition authenticateToken (now : Z) (authHeader : option string) : Auth :=
  match bearerToken authHeader with
  | None => Answered (fail 401 "Access token required")
  | Some token =>
      if String.eqb token "" then Answered (fail 401 "Access token required")
      else
        match jwtVerify token JWT_SECRET now with
        | None => Answered (fail 403 "Invalid token")
        | Some user => Next user
        end
  end.

(** A route registered behind the middleware. *)
Definition protected {Req : Type}
  (handler : Claims.t -> Req -> State -> State * Response)
  (now : Z) (authHeader : option string) (req : Req) (st : State)
  : State * Response :=
  match authenticateToken now authHeader with
  | Answered res => (st, res)
  | Next user => handler user req st
  end.

(** *** User routes (lines 184-203) *)

(** The own properties of a user object, in creation order. *)
Definition userProps (u : User.t) : list (string * Field) :=
  [ ("id", FStr (User.id u));
    ("googleId", FStr (User.googleId u));
    ("email", FStr (User.email u));
    ("name", FStr (User.name u));
    ("avatar", FStr (User.avatar u));
    ("role", FStr (User.role u));
    ("mockTests", FTests (User.mockTests u));
    ("totalTests", FNum (User.totalTests u));
    ("averageScore", FNum (User.averageScore u));
    ("bestScore", FNum (User.bestScore u));
    ("joinedDate", FDate (User.joinedDate u));
    ("lastLogin", FDate (User.lastLogin u)) ]%list.

(** [const { key, ...rest } = obj]: the rest. *)
Definition omit (key : string) (props : list (string * Field))
  : list (string * Field) :=
  filter (fun kv => negb (String.eqb (fst kv) key)) props.

Definition getUser (reqUser : Claims.t) (_ : unit) (st : State) : State * Response :=
  match find (fun u => String.eqb (User.id u) (Claims.id reqUser)) (users st) with
  | None => (st, fail 404 "User not found")
  | Some user => (st, json (BObject (omit "googleId" (userProps user))))
  end.

Definition getUserByEmail (email : string) (st : State) : State * Response :=
  match find (fun u => String.eqb (User.email u) email) (users st) with
  | None => (st, fail 404 "User not found")
  | Some user => (st, json (BObject (omit "googleId" (userProps user))))
  end.

(** *** Submitting a test (lines 208-273) *)

(** [attempted > 0 ? Math.round((correct / attempted) * 100) : 0], on
    the values of the body. *)
Definition computeAccuracy (attempted correct : Js.JsValue) : option Number :=
  match Js.toNumber attempted with
  | None => None
  | Some a =>
      if gtb a posZero then
        match Js.toNumber correct with
        | None => None
        | Some c => Some (mathRound (mul (div c a) (ofZ 100)))
        end
      else Some posZero
  end.

(** The [newTest] object literal; [None] when a conversion throws. *)
Definition newTest (now : Z) (b : Submission.t) : option MockTest.t :=
  match Js.parseInt (Submission.score b),
        Js.parseInt (Submission.attempted b),
        Js.parseInt (Submission.correct b),
        Js.parseInt (Submission.incorrect b),
        computeAccuracy (Submission.attempted b) (Submission.correct b) with
  | Some score, Some attempted, Some correct, Some incorrect, Some accuracy =>
      Some (MockTest.mk (Js.decString now) (Submission.testName b) score
              (orDefault attempted (ofZ 120)) (orDefault correct posZero)
              (orDefault incorrect posZero) now accuracy)
  | _, _, _, _, _ => None
  end.

(** The user after [push], [totalTests += 1] and the two recomputed
    aggregates. *)
Definition addTest (t : MockTest.t) (user : User.t) : User.t :=
  let tests := (User.mockTests user ++ [t])%list in
  let total := add (User.totalTests user) (ofZ 1) in
  let totalScore :=
    Arr.reduce (fun sum test => add sum (MockTest.score test)) posZero tests in
  User.mk (User.id user) (User.googleId user) (User.email user) (User.name user)
    (User.avatar user) (User.role user) tests total
    (mathRound (div totalScore total))
    (mathMax (User.bestScore user) (MockTest.score t))
    (User.joinedDate user) (User.lastLogin user).

Definition summary (user : User.t) : Summary.t :=
  Summary.mk (User.id user) (User.name user) (User.email user)
    (User.totalTests user) (User.averageScore user) (User.bestScore user).

Definition ledgerEntry (t : MockTest.t) (user : User.t) : Entry.t :=
  Entry.mk t (User.id user) (User.email user) (User.name user).

Definition postMockTest (now : Z) (reqUser : Claims.t) (b : Submission.t)
  (st : State) : State * Response :=
  if negb (Js.truthy (Submission.testName b)) || Js.isUndefined (Submission.score b)
  then (st, fail 400 "Test name and score are required")
  else
    let mine u := String.eqb (User.id u) (Claims.id reqUser) in
    match find mine (users st) with
    | None => (st, fail 404 "User not found")
    | Some user =>
        match newTest now b with
        | None => (st, fail 500 "Failed to save test")
        | Some t =>
            let user' := addTest t user in
            (mkState (Arr.updateFirst mine (addTest t) (users st))
                     (mockTests st ++ [ledgerEntry t user'])%list,
             json (BSaved (summary user') t "Mock test saved successfully!"))
        end
    end.

(** *** Analytics (lines 278-325) *)

Definition analyticsOf (now : Z) (user : User.t) : Analytics.t :=
  Analytics.mk (User.totalTests user) (User.averageScore user)
    (User.bestScore user)
    (rev (Arr.slice (-5) None (User.mockTests user)))
    (calculateImprovement (User.mockTests user))
    (calculateConsistency (User.mockTests user))
    (calculateWeeklyProgress now (User.mockTests user)).

Definition getAnalyticsByEmail (now : Z) (email : string) (st : State)
  : State * Response :=
  match find (fun u => String.eqb (User.email u) email) (users st) with
  | None => (st, fail 404 "User not found")
  | Some user => (st, json (BAnalytics (analyticsOf now user)))
  end.

Definition getAnalytics (now : Z) (reqUser : Claims.t) (_ : unit) (st : State)
  : State * Response :=
  match find (fun u => String.eqb (User.id u) (Claims.id reqUser)) (users st) with
  | None => (st, fail 404 "User not found")
  | Some user => (st, json (BAnalytics (analyticsOf now user)))
  end.

(** *** Leaderboard (lines 330-351) *)

Definition leaderboard (us : list User.t) : list Row.t :=
  Arr.mapIndex
    (fun user index =>
       Row.mk (index + 1) (User.name user) (User.email user)
         (User.averageScore user) (User.totalTests user) (User.bestScore user)
         (User.lastLogin user))
    (Arr.slice 0 (Some 20)
       (Arr.sort (fun a b => sub (User.averageScore b) (User.averageScore a))
          (filter (fun u => gtb (User.totalTests u) posZero) us))).

Definition getLeaderboard (st : State) : State * Response :=
  (st, json (BLeaderboard (leaderboard (users st)))).

End Routes.

(** ** Runs of submissions *)

Section Runs.
Local Open Scope Z_scope.

(** The state after the submissions of one token holder, each made at
    its own time. *)
Definition submitAll (reqUser : Claims.t) (subs : list (Z * Submission.t))
  (st : State) : State :=
  fold_left (fun st s => fst (postMockTest (fst s) reqUser (snd s) st)) subs st.

(** Every submission of the run is answered with status 200. *)
Fixpoint allAccepted (reqUser : Claims.t) (subs : list (Z * Submission.t))
  (st : State) : bool :=
  match subs with
  | [] => true
  | s :: r =>
      (status (snd (postMockTest (fst s) reqUser (snd s) st)) =? 200)
      && allAccepted reqUser r (fst (postMockTest (fst s) reqUser (snd s) st))
  end.

Definition findById (id : string) (st : State) : option User.t :=
  find (fun u => String.eqb (User.id u) id) (users st).

End Runs.

(** ** The specification's wording

    Definitions that follow the words of the specification, to be
    compared with the code above. *)

Section Specification.
Import Num.
Local Open Scope string_scope.
Local Open Scope Z_scope.

(** The sum and the mean of scores, accumulated from the left as
    [reduce] does. *)
Definition sumOf (scores : list Number) : Number := fold_left add scores posZero.

Definition meanOf (scores : list Number) : Number :=
  div (sumOf scores) (ofNat (List.length scores)).

Definition scoresOf (tests : list MockTest.t) : list Number :=
  map MockTest.score tests.

(** "The rounded mean of all recorded scores". *)
Definition roundedMean (scores : list Number) : Number := mathRound (meanOf scores).

(** "The maximum of all recorded scores": [Math.max(...scores)] of a
    history that is not empty. *)
Definition maxScore (scores : list Number) : option Number :=
  match scores with
  | [] => None
  | s :: r => Some (fold_left mathMax r s)
  end.

(** The running maximum the code keeps, started at 0. *)
Definition runningMax (scores : list Number) : Number :=
  fold_left mathMax scores posZero.

(** The invariant of a user record, with the running maximum in the
    place of the maximum: [totalTests] is the length of the history,
    [bestScore] the running maximum of its scores and, once there is a
    test, [averageScore] their rounded mean. *)
Definition aggregatesAgree (user : User.t) : Prop :=
  let scores := scoresOf (User.mockTests user) in
  User.totalTests user = ofNat (List.length scores)
  /\ User.bestScore user = runningMax scores
  /\ (scores <> [] -> User.averageScore user = roundedMean scores).

(** "0 if fewer than 2 tests.  Else compare mean of the last 3 tests
    against mean of all tests before that window; return rounded
    difference (recent - earlier).  If the earlier window would be
    empty, return 0." *)
Definition specImprovement (tests : list MockTest.t) : Number :=
  let n := List.length tests in
  if (n <? 2)%nat then posZero
  else
    let recent := skipn (n - 3) tests in
    let earlier := firstn (n - 3) tests in
    match earlier with
    | [] => posZero
    | _ :: _ => mathRound (sub (meanOf (scoresOf recent)) (meanOf (scoresOf earlier)))
    end.

(** The projection of a test in the weekly progress. *)
Definition progressOf (test : MockTest.t) : Progress.t :=
  Progress.mk (MockTest.date test) (MockTest.score test) (MockTest.testName test).

(** "Filters tests with timestamp within the trailing 7 days, returns
    each as {date, score, testName} in original order." *)
Definition specWeeklyProgress (now : Z) (tests : list MockTest.t) : list Progress.t :=
  map progressOf (filter (fun t => now - 7 * 86400000 <=? MockTest.date t) tests).

(** The population standard deviation of scores. *)
Definition populationStdDev (scores : list Number) : Number :=
  let mean := meanOf scores in
  sqrt (div (sumOf (map (fun x => mathPow2 (sub x mean)) scores))
            (ofNat (List.length scores))).

(** "Absent or non-numeric": [parseInt] finds no number. *)
Definition nonNumeric (v : Js.JsValue) : bool :=
  match Js.parseInt v with
  | Some n => isNaN n
  | None => true
  end.

(** "Defaults to [d] exactly when the submitted value is absent or
    non-numeric". *)
Definition specDefaulted (v : Js.JsValue) (d : Number) : option Number :=
  if nonNumeric v then Some d else Js.parseInt v.

(** "testName is missing": absent, or another value [!testName] takes
    for nothing ([null], the empty string, [false], [0], [NaN]). *)
Definition missing (v : Js.JsValue) : bool := negb (Js.truthy v).

(** A leaderboard row of a user, at an index. *)
Definition rowOf (user : User.t) (index : Z) : Row.t :=
  Row.mk (index + 1) (User.name user) (User.email user)
    (User.averageScore user) (User.totalTests user) (User.bestScore user)
    (User.lastLogin user).

(** The users a leaderboard lists: those with a test. *)
Definition active (us : list User.t) : list User.t :=
  filter (fun u => gtb (User.totalTests u) posZero) us.

(** "Sorted descending": each score is at least every later one. *)
Definition descending (scores : list Number) : Prop :=
  StronglySorted (fun a b => geb a b = true) scores.

(** The fields of a user without the provider's identifier: the keys
    in creation order, [googleId] not among them, each with the value
    the stored record holds. *)
Definition sansGoogleId (user : User.t) (props : list (string * Field)) : Prop :=
  Js.hasKey "googleId" props = false
  /\ props
     = [ ("id", FStr (User.id user));
         ("email", FStr (User.email user));
         ("name", FStr (User.name user));
         ("avatar", FStr (User.avatar user));
         ("role", FStr (User.role user));
         ("mockTests", FTests (User.mockTests user));
         ("totalTests", FNum (User.totalTests user));
         ("averageScore", FNum (User.averageScore user));
         ("bestScore", FNum (User.bestScore user));
         ("joinedDate", FDate (User.joinedDate user));
         ("lastLogin", FDate (User.lastLogin user)) ]%list.

End Specification.

(** ** Sessions, administration and request streams

    The rest of server.js: the session hooks (lines 87-94), the
    administration routes (lines 356-398) and, for statements about
    every state the server can be in, the requests that change the
    state. *)

Section Administration.
Import Num.
Local Open Scope string_scope.
Local Open Scope Z_scope.

(** [passport.serializeUser] keeps the id; [passport.deserializeUser]
    looks the id up, and hands [undefined] on when no user has it. *)
Definition serializeUser (user : User.t) : string := User.id user.

Definition deserializeUser (id : string) (st : State) : option User.t :=
  find (fun u => String.eqb (User.id u) id) (users st).

(** [Math.max(...xs)]: from minus infinity, one argument after the
    other. *)
Definition mathMaxAll (xs : list Number) : Number :=
  fold_left mathMax xs (S754_infinity true).

End Administration.

Module Student.
Record t : Type := mk {
  id : string;
  name : string;
  email : string;
  totalTests : Num.Number;
  averageScore : Num.Number;
  bestScore : Num.Number;
  lastLogin : Z;
  joinedDate : Z
}.
End Student.

Module Stats.
Record t : Type := mk {
  totalUsers : Z;
  activeUsers : Z;
  totalTestsSubmitted : Z;
  averagePlatformScore : Num.Number;
  topScore : Num.Number;
  recentActivity : list Entry.t
}.
End Stats.

Section AdminRoutes.
Import Num.
Local Open Scope string_scope.
Local Open Scope Z_scope.

(** What [GET /api/students] answers. *)
Definition students (st : State) : list Student.t :=
  map (fun user =>
         Student.mk (User.id user) (User.name user) (User.email user)
           (User.totalTests user) (User.averageScore user) (User.bestScore user)
           (User.lastLogin user) (User.joinedDate user))
      (users st).

(** What [GET /api/stats] answers. *)
Definition platformStats (st : State) : Stats.t :=
  let activeUsers := filter (fun u => gtb (User.totalTests u) posZero) (users st) in
  let totalTestsSubmitted := Z.of_nat (List.length (mockTests st)) in
  let averagePlatformScore :=
    if 0 <? Z.of_nat (List.length activeUsers) then
      mathRound
        (div (Arr.reduce (fun sum u => add sum (User.averageScore u)) posZero activeUsers)
             (ofNat (List.length activeUsers)))
    else posZero in
  Stats.mk (Z.of_nat (List.length (users st)))
    (Z.of_nat (List.length activeUsers))
    totalTestsSubmitted
    averagePlatformScore
    (if 0 <? Z.of_nat (List.length (users st))
     then mathMaxAll (map User.bestScore (users st))
     else posZero)
    (rev (Arr.slice (-10) None (mockTests st))).

(** The log line of the submission route (line 254) converts the test
    name and the score to strings once more, after both arrays are
    written: the two strings, or [None] when a conversion throws. *)
Definition submissionLog (b : Submission.t) : option (string * string) :=
  match Js.toStringJs (Submission.testName b), Js.toStringJs (Submission.score b) with
  | Some name, Some score => Some (name, score)
  | _, _ => None
  end.

(** The submission route with its log line: what is thrown there is
    caught like any other error and answered with 500, the arrays
    staying as the handler has left them. *)
Definition postMockTestLogged (now : Z) (reqUser : Claims.t) (b : Submission.t)
  (st : State) : State * Response :=
  let out := postMockTest now reqUser b st in
  if status (snd out) =? 200 then
    match submissionLog b with
    | Some _ => out
    | None => (fst out, fail 500 "Failed to save test")
    end
  else out.

(** The requests that change the state: a completed sign-in, and a
    submission that has passed the middleware with the claims of its
    token. *)
Inductive Request : Type :=
| SignIn (clock : Clock.t) (profile : Profile.t)
| Submit (now : Z) (reqUser : Claims.t) (body : Submission.t).

Definition handle (st : State) (r : Request) : State :=
  match r with
  | SignIn clock profile => fst (googleStrategy clock profile st)
  | Submit now reqUser body => fst (postMockTestLogged now reqUser body st)
  end.

(** The state after a stream of requests, served one at a time. *)
Definition serve (requests : list Request) (st : State) : State :=
  fold_left handle requests st.

(** What a request does to the two arrays: nothing, a login, a new
    user, or a test added to the first user with an id. *)
Inductive Step (st : State) : State -> Prop :=
| StepSame : Step st st
| StepLogin now p :
    Step st (mkState (Arr.updateFirst p (touchLogin now) (users st)) (mockTests st))
| StepJoin clock profile user :
    find (fun u => String.eqb (User.googleId u) (Profile.id profile)) (users st) = None ->
    newUser clock profile = Some user ->
    Step st (mkState (users st ++ [user]) (mockTests st))
| StepTest id user t :
    find (fun u => String.eqb (User.id u) id) (users st) = Some user ->
    Step st (mkState (Arr.updateFirst (fun u => String.eqb (User.id u) id) (addTest t)
                        (users st))
               (mockTests st ++ [ledgerEntry t (addTest t user)])).

(** The number of tests in the users' histories, all together. *)
Definition historyTotal (us : list User.t) : nat :=
  list_sum (map (fun u => List.length (User.mockTests u)) us).

(** The history of the first user with an id, and the tests of the
    ledger entries that carry the id. *)
Definition historyOf (id : string) (st : State) : list MockTest.t :=
  match findById id st with
  | Some user => User.mockTests user
  | None => []
  end.

Definition ledgerOf (id : string) (st : State) : list MockTest.t :=
  map Entry.test (filter (fun e => String.eqb (Entry.userId e) id) (mockTests st)).

(** A ledger entry whose id is looked up to a user with the email and
    the name the entry carries. *)
Definition ownerKnown (st : State) (e : Entry.t) : Prop :=
  exists user, findById (Entry.userId e) st = Some user
               /\ Entry.userEmail e = User.email user
               /\ Entry.userName e = User.name user.

(** A user whose aggregates agree with the history, the average of an
    empty history being 0. *)
Definition settled (user : User.t) : Prop :=
  aggregatesAgree user
  /\ (User.mockTests user = [] -> User.averageScore user = posZero).

(** A user whose history holds a score that is no number. *)
Definition poisoned (user : User.t) : Prop :=
  Exists (fun t => isNaN (MockTest.score t) = true) (User.mockTests user).

(** A user with the role and an id of the object literal of line 58:
    the id is a reading of the clock in decimal digits. *)
Definition named (u : User.t) : Prop :=
  User.role u = "student" /\ exists time : Z, User.id u = Js.decString time.

(** [u.googleId === profile.id]. *)
Definition knownAs (profile : Profile.t) (u : User.t) : bool :=
  String.eqb (User.googleId u) (Profile.id profile).


(** A user with a test in the history. *)
Definition hasTests (u : User.t) : bool :=
  match User.mockTests u with
  | [] => false
  | _ :: _ => true
  end.

(** A later record of the same user: the identity is the same and the
    history has grown at its end. *)
Definition grows (u u' : User.t) : Prop :=
  User.id u' = User.id u /\ User.googleId u' = User.googleId u
  /\ User.email u' = User.email u /\ User.name u' = User.name u
  /\ User.avatar u' = User.avatar u /\ User.role u' = User.role u
  /\ User.joinedDate u' = User.joinedDate u
  /\ exists added, User.mockTests u' = (User.mockTests u ++ added)%list.

(** A later state: the users that were there are there, in their
    places, each grown, with newcomers after them; the ledger has grown
    at its end. *)
Definition extends (st st' : State) : Prop :=
  (exists kept joined,
     users st' = (kept ++ joined)%list /\ Forall2 grows (users st) kept)
  /\ exists entries, mockTests st' = (mockTests st ++ entries)%list.

(** A field of a submission that no conversion can read: [parseInt]
    and the template of the log line throw on it. *)
Definition unreadable (v : Js.JsValue) : bool :=
  match Js.toStringJs v with
  | Some _ => false
  | None => true
  end.

(** The double nearest to an integer. *)
Definition wholeNumber (x : Number) : Prop := exists z : Z, x = ofZ z.

(** No space in a string. *)
Fixpoint noSpace (s : string) : bool :=
  match s with
  | EmptyString => true
  | String c r => negb (Ascii.eqb c " ") && noSpace r
  end.

(** The same number: the same double, bit for bit. *)
Definition sameNumber (x y : Number) : bool :=
  match x, y with
  | S754_zero a, S754_zero b => Bool.eqb a b
  | S754_infinity a, S754_infinity b => Bool.eqb a b
  | S754_nan, S754_nan => true
  | S754_finite a m e, S754_finite b m' e' =>
      Bool.eqb a b && Pos.eqb m m' && Z.eqb e e'
  | _, _ => false
  end.

(** The comparator of the leaderboard, and the users whose average is
    a given number. *)
Definition averageComparator (a b : User.t) : Number :=
  sub (User.averageScore b) (User.averageScore a).

Definition tiedAt (k : Number) (u : User.t) : bool := sameNumber (User.averageScore u) k.

End AdminRoutes.

(** ** Sample data

    Concrete histories, users and requests, for the instances the
    properties below are checked on. *)

Section Samples.
Import Num.
Local Open Scope string_scope.
Local Open Scope Z_scope.

(** A test with the given score, taken at the given time. *)
Definition sampleTest (score date : Z) : MockTest.t :=
  MockTest.mk (Js.decString date) (Js.VStr "Mock") (ofZ score) (ofZ 120)
    posZero posZero date posZero.

(** A history with the given scores, one test a minute. *)
Definition sampleHistory (scores : list Z) : list MockTest.t :=
  Arr.mapIndex (fun score index => sampleTest score (1700000000000 + 60000 * index))
    scores.

Definition ann : Profile.t := Profile.mk "g-ann" ["ann@example.org"] "Ann" ["ann.png"].
Definition bob : Profile.t := Profile.mk "g-bob" ["bob@example.org"] "Bob" ["bob.png"].

(** A call during which the clock reads the same millisecond each
    time. *)
Definition sampleClock (time : Z) : Clock.t := Clock.mk time time time.

(** Ann registers, then Bob a second later. *)
Definition annRegistered : State :=
  fst (googleStrategy (sampleClock 1700000000000) ann initialState).
Definition bothRegistered : State :=
  fst (googleStrategy (sampleClock 1700000001000) bob annRegistered).

Definition annClaims : Claims.t :=
  Claims.mk "1700000000000" "ann@example.org" "student" 1700000000
    (Some (1700000000 + 7 * 86400)).
Definition bobClaims : Claims.t :=
  Claims.mk "1700000001000" "bob@example.org" "student" 1700000001
    (Some (1700000001 + 7 * 86400)).

(** A user with the given id and two of the aggregates, one test
    taken. *)
Definition sampleUser (id : string) (averageScore totalTests : Number) : User.t :=
  User.mk id ("g-" ++ id) (id ++ "@example.org") id "avatar.png" "student"
    [sampleTest 0 1700000000000] totalTests averageScore posZero
    1700000000000 1700000000000.

(** A body with a name and the given score, attempted and correct
    entries. *)
Definition sampleBody (score attempted correct : Js.JsValue) : Submission.t :=
  Submission.mk (Js.VStr "Mock 1") score attempted correct Js.VUndefined.

(** Ann submits a score that is no number, then Bob submits 5. *)
Definition annScoredNaN : State :=
  fst (postMockTest 1700000100000 annClaims
         (sampleBody (Js.VStr "abc") Js.VUndefined Js.VUndefined) bothRegistered).
Definition bobScoredFive : State :=
  fst (postMockTest 1700000200000 bobClaims
         (sampleBody (Js.VNum (ofZ 5)) Js.VUndefined Js.VUndefined) annScoredNaN).

(** Ann submits 70, then Bob submits 90. *)
Definition bothScored : State :=
  submitAll bobClaims
    [(1700000200000, sampleBody (Js.VNum (ofZ 90)) Js.VUndefined Js.VUndefined)]
    (submitAll annClaims
       [(1700000100000, sampleBody (Js.VNum (ofZ 70)) Js.VUndefined Js.VUndefined)]
       bothRegistered).

(** Ann and Bob register; Ann submits a score that is no number, then
    Bob submits 5. *)
Definition sampleRequests : list Request :=
  [SignIn (sampleClock 1700000000000) ann; SignIn (sampleClock 1700000001000) bob;
   Submit 1700000100000 annClaims
     (sampleBody (Js.VStr "abc") Js.VUndefined Js.VUndefined);
   Submit 1700000200000 bobClaims
     (sampleBody (Js.VNum (ofZ 5)) Js.VUndefined Js.VUndefined)].

(** A test whose score is no number. *)
Definition unscoredTest (date : Z) : MockTest.t :=
  MockTest.mk (Js.decString date) (Js.VStr "Mock") NaN (ofZ 120) posZero posZero
    date posZero.

(** A body whose test name is an object that hides [toString]. *)
Definition unnamedBody (score : Js.JsValue) : Submission.t :=
  Submission.mk (Js.VObj [("toString", Js.VNum (ofZ 1))]) score
    Js.VUndefined Js.VUndefined Js.VUndefined.

End Samples.

(** * Properties

    ** Facts about doubles

    Integers below [2 ^ 53] are doubles, and adding them is exact. *)

Module NumFacts.
Import Num.

Lemma digits2_bounds (m : positive) :
  2 ^ (Zpos (digits2_pos m) - 1) <= Zpos m < 2 ^ Zpos (digits2_pos m).
Proof.
  induction m as [m IH | m IH | ]; cbn [digits2_pos].
  - rewrite Pos2Z.inj_succ.
    replace (Z.succ (Zpos (digits2_pos m)) - 1) with (Z.succ (Zpos (digits2_pos m) - 1)) by lia.
    rewrite !Z.pow_succ_r by lia. lia.
  - rewrite Pos2Z.inj_succ.
    replace (Z.succ (Zpos (digits2_pos m)) - 1) with (Z.succ (Zpos (digits2_pos m) - 1)) by lia.
    rewrite !Z.pow_succ_r by lia. lia.
  - cbn. lia.
Qed.

Lemma shift_value (m n : positive) : Zpos (Pos.iter xO m n) = Zpos m * 2 ^ Zpos n.
Proof.
  revert m. induction n as [n IH | n IH | ]; intro m; cbn [Pos.iter].
  - rewrite Pos2Z.inj_xO, !IH.
    replace (Zpos n~1) with (Zpos n + Zpos n + 1) by lia.
    rewrite !Z.pow_add_r by lia. lia.
  - rewrite !IH. replace (Zpos n~0) with (Zpos n + Zpos n) by lia.
    rewrite Z.pow_add_r by lia. lia.
  - lia.
Qed.

Lemma shift_digits (m n : positive) :
  digits2_pos (Pos.iter xO m n) = (digits2_pos m + n)%positive.
Proof.
  revert m. induction n as [n IH | n IH | ]; intro m; cbn [Pos.iter].
  - cbn [digits2_pos]. rewrite !IH. lia.
  - rewrite !IH. lia.
  - cbn [digits2_pos]. lia.
Qed.

(** Shifting right drops the low bits. *)
Lemma shr_1_m r : 0 <= shr_m r -> shr_m (shr_1 r) = shr_m r / 2.
Proof.
  destruct r as [m b s]; cbn [shr_m]. intro H.
  destruct m as [ | [p | p | ] | p]; cbn [shr_1 shr_m]; try lia; try reflexivity.
  - rewrite Pos2Z.inj_xI. apply Z.div_unique with (r := 1); lia.
  - rewrite Pos2Z.inj_xO. apply Z.div_unique with (r := 0); lia.
Qed.

Lemma shr_iter_m (n : positive) : forall r,
  0 <= shr_m r -> shr_m (iter_pos shr_1 n r) = shr_m r / 2 ^ Zpos n.
Proof.
  assert (nonneg : forall a b, 0 <= a -> 0 < b -> 0 <= a / b)
    by (intros; apply Z.div_pos; lia).
  induction n as [n IH | n IH | ]; intros r H; cbn [iter_pos].
  - assert (H1 : 0 <= shr_m (shr_1 r)) by (rewrite shr_1_m by lia; apply nonneg; lia).
    assert (H2 : 0 <= shr_m (iter_pos shr_1 n (shr_1 r)))
      by (rewrite IH by lia; apply nonneg; [lia | apply Z.pow_pos_nonneg; lia]).
    rewrite IH, IH, shr_1_m by lia.
    rewrite !Z.div_div by (try apply Z.pow_pos_nonneg; lia).
    f_equal. replace (Zpos n~1) with (1 + Zpos n + Zpos n) by lia.
    rewrite !Z.pow_add_r by lia. lia.
  - assert (H2 : 0 <= shr_m (iter_pos shr_1 n r))
      by (rewrite IH by lia; apply nonneg; [lia | apply Z.pow_pos_nonneg; lia]).
    rewrite IH, IH by lia.
    rewrite !Z.div_div by (try apply Z.pow_pos_nonneg; lia).
    f_equal. replace (Zpos n~0) with (Zpos n + Zpos n) by lia.
    rewrite !Z.pow_add_r by lia. lia.
  - rewrite shr_1_m by lia. f_equal.
Qed.

(** Shifting right by as many zero bits as were shifted in is exact. *)
Lemma shr_iter_exact (n : positive) : forall m,
  iter_pos shr_1 n (Build_shr_record (Zpos (Pos.iter xO m n)) false false)
  = Build_shr_record (Zpos m) false false.
Proof.
  induction n as [n IH | n IH | ]; intro m; cbn [iter_pos Pos.iter].
  - cbn [shr_1 orb]. rewrite IH, IH. reflexivity.
  - rewrite IH, IH. reflexivity.
  - reflexivity.
Qed.


Lemma shl_value c j : 0 <= j -> Zpos (shl c j) = Zpos c * 2 ^ j.
Proof.
  destruct j as [ | n | n]; cbn [shl]; intro H; try lia.
  apply shift_value.
Qed.

Lemma shl_digits c j :
  0 <= j -> Zpos (digits2_pos (shl c j)) = Zpos (digits2_pos c) + j.
Proof.
  destruct j as [ | n | n]; cbn [shl]; intro H; try lia.
  rewrite shift_digits. lia.
Qed.

Lemma shl_align_value m e ez :
  ez <= e -> shl_align m e ez = (shl m (e - ez), ez) \/ (ez = e /\ shl_align m e ez = (m, e)).
Proof.
  intro H. unfold shl_align.
  destruct (ez - e) as [ | p | p] eqn:E; try lia.
  - right. split; [lia | reflexivity].
  - left. replace (e - ez) with (Zpos p) by lia. reflexivity.
Qed.

Lemma shl_align_fst m e ez :
  ez <= e -> Zpos (fst (shl_align m e ez)) = Zpos m * 2 ^ (e - ez).
Proof.
  intro H. destruct (shl_align_value m e ez H) as [-> | [-> ->]]; cbn [fst].
  - apply shl_value. lia.
  - rewrite Z.sub_diag. lia.
Qed.

Lemma fexp_53 d : 1 <= d <= 53 + 1074 + 53 -> -1021 <= d -> fexp prec emax d = d - 53.
Proof. unfold fexp, emin, prec, emax. lia. Qed.

(** A full mantissa is left alone by the rounding step. *)
Lemma shr_fexp_full (m : positive) e l :
  Zpos (digits2_pos m) = 53 -> -1074 <= e ->
  shr_fexp prec emax (Zpos m) e l = (shr_record_of_loc (Zpos m) l, e).
Proof.
  intros D E. unfold shr_fexp, Zdigits2. rewrite D.
  replace (fexp prec emax (53 + e) - e) with 0
    by (unfold fexp, emin, prec, emax; lia).
  reflexivity.
Qed.

Lemma shr_fexp_exact (m p : positive) e :
  Zpos (digits2_pos m) = 53 -> -1074 <= e + Zpos p ->
  shr_fexp prec emax (Zpos (Pos.iter xO m p)) e loc_Exact
  = (Build_shr_record (Zpos m) false false, e + Zpos p).
Proof.
  intros D E. unfold shr_fexp, Zdigits2. rewrite shift_digits, Pos2Z.inj_add, D.
  replace (fexp prec emax (53 + Zpos p + e) - e) with (Zpos p)
    by (unfold fexp, emin, prec, emax; lia).
  cbn [shr shr_record_of_loc]. rewrite shr_iter_exact. reflexivity.
Qed.

Lemma round_aux_full s (m : positive) e :
  Zpos (digits2_pos m) = 53 -> -1074 <= e <= 971 ->
  binary_round_aux prec emax s (Zpos m) e loc_Exact = S754_finite s m e.
Proof.
  intros D E. unfold binary_round_aux.
  rewrite shr_fexp_full by lia. cbn [shr_record_of_loc shr_m loc_of_shr_record round_nearest_even].
  rewrite shr_fexp_full by lia. cbn [shr_record_of_loc shr_m].
  replace (e <=? emax - prec) with true; [reflexivity | ].
  symmetry. apply Z.leb_le. unfold emax, prec. lia.
Qed.

(** Rounding an integer that fits the mantissa is exact, whatever the
    exponent it is presented at. *)
Lemma binary_round_exact s (c : positive) (j : Z) :
  let d := Zpos (digits2_pos c) in
  d <= 53 -> 0 <= j <= 1021 ->
  binary_round prec emax s (shl c j) (- j) = S754_finite s (shl c (53 - d)) (d - 53).
Proof.
  intros d D J. subst d.
  pose proof (Pos2Z.is_pos (digits2_pos c)) as Dpos.
  set (d := Zpos (digits2_pos c)) in *.
  assert (DM : Zpos (digits2_pos (shl c (53 - d))) = 53)
    by (rewrite shl_digits by lia; fold d; lia).
  unfold binary_round. rewrite shl_digits by lia. fold d.
  replace (fexp prec emax (d + j + - j)) with (d - 53)
    by (unfold fexp, emin, prec, emax; lia).
  unfold shl_align.
  destruct (d - 53 - - j) as [ | p | p] eqn:E.
  - replace (shl c j) with (shl c (53 - d)) by (f_equal; lia).
    replace (- j) with (d - 53) by lia.
    apply round_aux_full; lia.
  - (* the integer arrives with more than 53 bits: the low ones are zero *)
    assert (S : shl c j = Pos.iter xO (shl c (53 - d)) p).
    { apply Pos2Z.inj. rewrite shift_value, !shl_value by lia.
      rewrite <- Z.mul_assoc, <- Z.pow_add_r by lia. do 2 f_equal. lia. }
    unfold binary_round_aux. rewrite S, shr_fexp_exact by lia.
    cbn [shr_m loc_of_shr_record round_nearest_even].
    replace (- j + Zpos p) with (d - 53) by lia.
    rewrite shr_fexp_full by lia. cbn [shr_record_of_loc shr_m].
    replace (d - 53 <=? emax - prec) with true; [reflexivity | ].
    symmetry. apply Z.leb_le. unfold emax, prec. lia.
  - assert (S : Pos.iter xO (shl c j) p = shl c (53 - d)).
    { apply Pos2Z.inj. rewrite shift_value, !shl_value by lia.
      rewrite <- Z.mul_assoc, <- Z.pow_add_r by lia. do 2 f_equal. lia. }
    rewrite S. apply round_aux_full; lia.
Qed.

(** The double of a positive integer below [2 ^ 53]. *)
Lemma ofZ_pos (c : positive) :
  Zpos c < 2 ^ 53 ->
  ofZ (Zpos c) = S754_finite false (shl c (53 - Zpos (digits2_pos c)))
                   (Zpos (digits2_pos c) - 53).
Proof.
  intro H. unfold ofZ, binary_normalize.
  assert (D : Zpos (digits2_pos c) <= 53).
  { pose proof (digits2_bounds c) as B.
    destruct (Z_le_gt_dec (Zpos (digits2_pos c)) 53) as [ | G]; [assumption | exfalso].
    assert (2 ^ 53 <= 2 ^ (Zpos (digits2_pos c) - 1)) by (apply Z.pow_le_mono_r; lia).
    lia. }
  exact (binary_round_exact false c 0 D ltac:(lia)).
Qed.

(** Adding two positive integers is exact while the sum stays below
    [2 ^ 53]. *)
Lemma add_ofZ_pos (a b : positive) :
  Zpos a + Zpos b < 2 ^ 53 ->
  add (ofZ (Zpos a)) (ofZ (Zpos b)) = ofZ (Zpos (a + b)).
Proof.
  intro H.
  pose proof (digits2_bounds a) as Ba. pose proof (digits2_bounds b) as Bb.
  pose proof (digits2_bounds (a + b)) as Bc.
  assert (Dle : forall c, Zpos c < 2 ^ 53 -> Zpos (digits2_pos c) <= 53).
  { intros c Hc. pose proof (digits2_bounds c) as B.
    destruct (Z_le_gt_dec (Zpos (digits2_pos c)) 53) as [ | G]; [assumption | exfalso].
    assert (2 ^ 53 <= 2 ^ (Zpos (digits2_pos c) - 1)) by (apply Z.pow_le_mono_r; lia).
    lia. }
  pose proof (Dle a ltac:(lia)) as Da. pose proof (Dle b ltac:(lia)) as Db.
  pose proof (Dle (a + b)%positive ltac:(lia)) as Dc.
  rewrite (ofZ_pos a), (ofZ_pos b), (ofZ_pos (a + b)) by lia.
  set (da := Zpos (digits2_pos a)) in *. set (db := Zpos (digits2_pos b)) in *.
  set (dc := Zpos (digits2_pos (a + b))) in *.
  assert (0 < da) by (subst da; lia). assert (0 < db) by (subst db; lia).
  unfold add, SFadd. cbn [cond_Zopp].
  set (ez := Z.min (da - 53) (db - 53)).
  assert (V : Zpos (fst (shl_align (shl a (53 - da)) (da - 53) ez))
              + Zpos (fst (shl_align (shl b (53 - db)) (db - 53) ez))
              = Zpos (shl (a + b) (- ez))).
  { rewrite !shl_align_fst, !shl_value by lia.
    rewrite <- !Z.mul_assoc, <- !Z.pow_add_r by lia.
    replace (53 - da + (da - 53 - ez)) with (- ez) by lia.
    replace (53 - db + (db - 53 - ez)) with (- ez) by lia. lia. }
  rewrite V. cbn [binary_normalize].
  replace ez with (- (- ez)) at 2 by lia.
  apply (binary_round_exact false (a + b) (- ez)); [exact Dc | lia].
Qed.

Lemma add_ofZ_one (n : Z) :
  0 <= n < 2 ^ 53 - 1 -> add (ofZ n) (ofZ 1) = ofZ (n + 1).
Proof.
  intro H. destruct n as [ | p | p]; try lia.
  - reflexivity.
  - replace (Zpos p + 1) with (Zpos (p + 1)) by lia.
    apply add_ofZ_pos. lia.
Qed.

End NumFacts.

(** The order of doubles that are not [NaN]. *)

Module OrderFacts.
Import Num.

Ltac cmp_cases :=
  repeat match goal with
  | |- context [Z.compare ?a ?b] => destruct (Z.compare_spec a b); subst
  | H : context [Z.compare ?a ?b] |- _ => destruct (Z.compare_spec a b); subst
  | |- context [Pos.compare_cont Eq ?a ?b] =>
      change (Pos.compare_cont Eq a b) with (Pos.compare a b);
      destruct (Pos.compare_spec a b); subst
  | H : context [Pos.compare_cont Eq ?a ?b] |- _ =>
      change (Pos.compare_cont Eq a b) with (Pos.compare a b) in H;
      destruct (Pos.compare_spec a b); subst
  end.

Lemma compare_refl x : isNaN x = false -> SFcompare x x = Some Eq.
Proof.
  destruct x as [s | s | | s m e]; cbn; intro H; try discriminate;
    try (destruct s; reflexivity).
  rewrite Z.compare_refl.
  change (Pos.compare_cont Eq m m) with (Pos.compare m m).
  rewrite Pos.compare_refl. destruct s; reflexivity.
Qed.

Lemma compare_antisym x y :
  SFcompare y x = option_map CompOpp (SFcompare x y).
Proof.
  destruct x as [s | s | | s m e], y as [s' | s' | | s' m' e']; cbn;
    try reflexivity; try (destruct s; reflexivity); try (destruct s'; reflexivity);
    try (destruct s, s'; reflexivity).
  change (Pos.compare_cont Eq m m') with (Pos.compare m m').
  change (Pos.compare_cont Eq m' m) with (Pos.compare m' m).
  rewrite (Z.compare_antisym e e'), (Pos.compare_antisym m m').
  destruct s, s', (e ?= e'), (m ?= m')%positive; reflexivity.
Qed.

Lemma compare_some x y :
  isNaN x = false -> isNaN y = false -> exists c, SFcompare x y = Some c.
Proof.
  destruct x, y; cbn; intros Hx Hy; try discriminate; eauto.
Qed.

Lemma ltb_false_leb x y :
  isNaN x = false -> isNaN y = false -> ltb x y = false -> leb y x = true.
Proof.
  unfold ltb, leb, SFltb, SFleb. intros Hx Hy. rewrite (compare_antisym x y).
  destruct (compare_some x y Hx Hy) as [c ->]. destruct c; cbn; easy.
Qed.

Lemma ltb_leb x y : ltb x y = true -> leb x y = true.
Proof.
  unfold ltb, leb, SFltb, SFleb. destruct (SFcompare x y) as [[ | | ] | ]; easy.
Qed.

Lemma leb_refl x : isNaN x = false -> leb x x = true.
Proof. intro H. unfold leb, SFleb. now rewrite compare_refl. Qed.

Lemma leb_trans x y z : leb x y = true -> leb y z = true -> leb x z = true.
Proof.
  unfold leb, SFleb.
  destruct x as [s1 | s1 | | s1 m1 e1], y as [s2 | s2 | | s2 m2 e2],
    z as [s3 | s3 | | s3 m3 e3]; cbn; try discriminate; try reflexivity;
    try (destruct s1; try discriminate; try reflexivity);
    try (destruct s2; try discriminate; try reflexivity);
    try (destruct s3; try discriminate; try reflexivity);
    intros H1 H2; cmp_cases; try discriminate; try reflexivity; try lia.
Qed.

End OrderFacts.

(** The sign of a difference. *)

Module SignFacts.
Import Num NumFacts OrderFacts.

Lemma shr_m_of_loc m l : shr_m (shr_record_of_loc m l) = m.
Proof. destruct l as [ | [ | | ]]; reflexivity. Qed.

Lemma shr_fexp_pos (m : positive) e l :
  -1074 <= e ->
  0 < shr_m (fst (shr_fexp prec emax (Zpos m) e l))
  /\ -1074 <= snd (shr_fexp prec emax (Zpos m) e l).
Proof.
  intro E. unfold shr_fexp, Zdigits2.
  pose proof (digits2_bounds m) as B.
  set (d := Zpos (digits2_pos m)) in *.
  assert (0 < d) by (subst d; lia).
  destruct (fexp prec emax (d + e) - e) as [ | p | p] eqn:N; cbn [shr fst snd];
    rewrite ?shr_m_of_loc; try lia.
  rewrite shr_iter_m by (rewrite shr_m_of_loc; lia).
  rewrite shr_m_of_loc. split; [ | lia].
  assert (P : Zpos p = d - 53) by (unfold fexp, emin, prec, emax in N; lia).
  apply Z.div_str_pos. split; [apply Z.pow_pos_nonneg; lia | ].
  apply Z.le_trans with (2 ^ (d - 1)); [ | lia].
  apply Z.pow_le_mono_r; lia.
Qed.

Lemma round_nearest_even_pos m l : 0 < m -> 0 < round_nearest_even m l.
Proof.
  intro H. destruct l as [ | [ | | ]]; cbn [round_nearest_even]; try lia.
  destruct (Z.even m); lia.
Qed.

Lemma binary_round_aux_signed s (m : positive) e l :
  -1074 <= e -> signed s (binary_round_aux prec emax s (Zpos m) e l).
Proof.
  intro E. unfold binary_round_aux.
  pose proof (shr_fexp_pos m e l E) as [P1 E1].
  destruct (shr_fexp prec emax (Zpos m) e l) as [r1 e1]. cbn [fst snd] in *.
  pose proof (round_nearest_even_pos (shr_m r1) (loc_of_shr_record r1) P1) as P2.
  destruct (round_nearest_even (shr_m r1) (loc_of_shr_record r1)) as [ | m2 | m2];
    try lia.
  pose proof (shr_fexp_pos m2 e1 loc_Exact E1) as [P3 E3].
  destruct (shr_fexp prec emax (Zpos m2) e1 loc_Exact) as [r3 e3]. cbn [fst snd] in *.
  destruct (shr_m r3) as [ | m3 | m3]; try lia.
  destruct (e3 <=? emax - prec); reflexivity.
Qed.

Lemma binary_round_signed s (m : positive) e :
  -1074 <= e -> signed s (binary_round prec emax s m e).
Proof.
  intro E. unfold binary_round, shl_align.
  destruct (fexp prec emax (Zpos (digits2_pos m) + e) - e) as [ | p | p] eqn:N;
    apply binary_round_aux_signed; try lia.
  unfold fexp, emin, prec, emax in *. lia.
Qed.

(** The sign test of a rounded integer is the sign test of the integer. *)
Lemma normalize_gt0 (D : Z) e :
  -1074 <= e -> gtb (binary_normalize prec emax D e false) posZero = (0 <? D).
Proof.
  intro E. destruct D as [ | p | p]; cbn [binary_normalize].
  - reflexivity.
  - pose proof (binary_round_signed false p e E) as S.
    destruct (binary_round prec emax false p e); cbn in S; try contradiction;
      subst; reflexivity.
  - pose proof (binary_round_signed true p e E) as S.
    destruct (binary_round prec emax true p e); cbn in S; try contradiction;
      subst; reflexivity.
Qed.

Lemma valid_finite s m e :
  valid (S754_finite s m e) = true ->
  -1074 <= e /\ Zpos (digits2_pos m) <= 53 /\ (-1074 < e -> Zpos (digits2_pos m) = 53).
Proof.
  unfold valid, valid_binary, bounded, canonical_mantissa, fexp, emin, prec, emax.
  intro H. apply andb_prop in H as [H _]. apply Z.eqb_eq in H. lia.
Qed.

(** Aligned mantissas of two doubles compare as the doubles'
    magnitudes do: by exponent, then by mantissa. *)
Lemma aligned_compare s1 m1 e1 s2 m2 e2 :
  valid (S754_finite s1 m1 e1) = true -> valid (S754_finite s2 m2 e2) = true ->
  (Zpos (fst (shl_align m1 e1 (Z.min e1 e2))) ?= Zpos (fst (shl_align m2 e2 (Z.min e1 e2))))
  = match e1 ?= e2 with
    | Lt => Lt
    | Gt => Gt
    | Eq => Pos.compare_cont Eq m1 m2
    end.
Proof.
  intros V1 V2.
  apply valid_finite in V1 as (E1 & D1 & F1). apply valid_finite in V2 as (E2 & D2 & F2).
  pose proof (digits2_bounds m1) as B1. pose proof (digits2_bounds m2) as B2.
  rewrite !shl_align_fst by lia.
  assert (P53 : forall m, Zpos (digits2_pos m) <= 53 -> Zpos m < 2 ^ 53).
  { intros m Dm. pose proof (digits2_bounds m) as B.
    assert (2 ^ Zpos (digits2_pos m) <= 2 ^ 53) by (apply Z.pow_le_mono_r; lia). lia. }
  pose proof (P53 m1 D1) as U1. pose proof (P53 m2 D2) as U2.
  destruct (Z.compare_spec e1 e2) as [Heq | Hlt | Hgt].
  - subst e2. rewrite Z.min_id, Z.sub_diag, !Z.mul_1_r. reflexivity.
  - rewrite Z.min_l, Z.sub_diag, Z.mul_1_r by lia.
    apply Z.compare_lt_iff.
    rewrite F2 in B2 by lia.
    assert (2 ^ 1 <= 2 ^ (e2 - e1)) by (apply Z.pow_le_mono_r; lia).
    change (2 ^ (53 - 1)) with (2 ^ 52) in B2. change (2 ^ 1) with 2 in *.
    change (2 ^ 53) with (2 * 2 ^ 52) in *. nia.
  - rewrite Z.min_r, Z.sub_diag, Z.mul_1_r by lia.
    apply Z.compare_gt_iff.
    rewrite F1 in B1 by lia.
    assert (2 ^ 1 <= 2 ^ (e1 - e2)) by (apply Z.pow_le_mono_r; lia).
    change (2 ^ (53 - 1)) with (2 ^ 52) in B1. change (2 ^ 1) with 2 in *.
    change (2 ^ 53) with (2 * 2 ^ 52) in *. nia.
Qed.

(** [y - x > 0] exactly when [x < y], for doubles that are not [NaN]. *)
Lemma sub_gt0 x y :
  valid x = true -> valid y = true -> isNaN x = false -> isNaN y = false ->
  gtb (sub y x) posZero = ltb x y.
Proof.
  intros Vx Vy Nx Ny.
  destruct x as [sx | sx | | sx mx ex], y as [sy | sy | | sy my ey];
    try discriminate;
    try (destruct sx, sy; reflexivity); try (destruct sx; reflexivity);
    try (destruct sy; reflexivity).
  unfold sub, SFsub.
  pose proof (valid_finite _ _ _ Vx) as (Ex & _). pose proof (valid_finite _ _ _ Vy) as (Ey & _).
  rewrite normalize_gt0 by lia.
  pose proof (aligned_compare sy my ey sx mx ex Vy Vx) as C.
  unfold ltb, SFltb. cbn [SFcompare].
  rewrite (Z.compare_antisym ey ex).
  change (Pos.compare_cont Eq mx my) with (Pos.compare mx my).
  change (Pos.compare_cont Eq my mx) with (Pos.compare my mx) in C.
  rewrite (Pos.compare_antisym my mx).
  set (My := Zpos (fst (shl_align my ey (Z.min ey ex)))) in *.
  set (Mx := Zpos (fst (shl_align mx ex (Z.min ey ex)))) in *.
  assert (0 < My) by (subst My; lia). assert (0 < Mx) by (subst Mx; lia).
  destruct sx, sy; cbn [cond_Zopp].
  - (* both negative *)
    destruct (Z.compare_spec My Mx) as [H1 | H1 | H1];
      destruct (ey ?= ex); cbn [CompOpp] in *; try discriminate;
      try (rewrite <- C; cbn [CompOpp]); try (apply Z.ltb_lt; lia);
      try (apply Z.ltb_ge; lia);
      try (destruct (my ?= mx)%positive; try discriminate; cbn [CompOpp];
           first [apply Z.ltb_lt; lia | apply Z.ltb_ge; lia]).
  - apply Z.ltb_lt. lia.
  - apply Z.ltb_ge. lia.
  - destruct (Z.compare_spec My Mx) as [H1 | H1 | H1];
      destruct (ey ?= ex); cbn [CompOpp] in *; try discriminate;
      try (apply Z.ltb_lt; lia); try (apply Z.ltb_ge; lia);
      try (destruct (my ?= mx)%positive; try discriminate; cbn [CompOpp];
           first [apply Z.ltb_lt; lia | apply Z.ltb_ge; lia]).
Qed.

End SignFacts.

(** ** Lists, stores and runs *)

Import Num.

Module ListFacts.

Lemma slice_last {A : Type} (k : nat) (l : list A) :
  (0 < k)%nat -> Arr.slice (- Z.of_nat k) None l = skipn (List.length l - k) l.
Proof.
  intro K. unfold Arr.slice.
  replace (- Z.of_nat k <? 0) with true by (symmetry; apply Z.ltb_lt; lia).
  set (len := Z.of_nat (List.length l)).
  replace (Z.to_nat (Z.max (len + - Z.of_nat k) 0)) with (List.length l - k)%nat by lia.
  apply firstn_all2. rewrite length_skipn. lia.
Qed.

Lemma slice_first {A : Type} (k : Z) (l : list A) :
  0 <= k -> Arr.slice 0 (Some k) l = firstn (Z.to_nat k) l.
Proof.
  intro K. unfold Arr.slice. change (0 <? 0) with false. cbv iota.
  replace (k <? 0) with false by (symmetry; apply Z.ltb_ge; lia).
  set (len := Z.of_nat (List.length l)).
  assert (Hlen : 0 <= len) by (subst len; lia).
  rewrite (Z.min_l 0 len) by lia. cbn [Z.to_nat skipn]. rewrite Z.sub_0_r.
  destruct (Z.le_ge_cases k len) as [H | H].
  - rewrite Z.min_l by lia. reflexivity.
  - rewrite Z.min_r by lia. subst len. rewrite Nat2Z.id.
    rewrite firstn_all. symmetry. apply firstn_all2. lia.
Qed.

Lemma reduce_scores (tests : list MockTest.t) (a : Num.Number) :
  Arr.reduce (fun sum t => Num.add sum (MockTest.score t)) a tests
  = fold_left Num.add (scoresOf tests) a.
Proof.
  unfold Arr.reduce, scoresOf. revert a.
  induction tests as [ | t r IH]; intro a; cbn; [reflexivity | apply IH].
Qed.

Lemma reduce_map {A : Type} (f : A -> Num.Number) (l : list A) (a : Num.Number) :
  Arr.reduce (fun sum x => Num.add sum (f x)) a l = fold_left Num.add (map f l) a.
Proof.
  unfold Arr.reduce. revert a.
  induction l as [ | t r IH]; intro a; cbn; [reflexivity | apply IH].
Qed.

Lemma average_mean (tests : list MockTest.t) :
  Num.div (Arr.reduce (fun sum t => Num.add sum (MockTest.score t)) Num.posZero tests)
          (Num.ofNat (List.length tests))
  = meanOf (scoresOf tests).
Proof.
  unfold meanOf, sumOf. rewrite reduce_scores. unfold scoresOf.
  now rewrite length_map.
Qed.

End ListFacts.

Import ListFacts.

Module StoreFacts.

Lemma isUndefined_iff v : Js.isUndefined v = true <-> v = Js.VUndefined.
Proof. destruct v; cbn; split; intro H; try discriminate; reflexivity. Qed.

(** What [find] returns splits the array, and the update in place
    touches that element alone. *)
Lemma find_split {A : Type} (p : A -> bool) (f : A -> A) (l : list A) (x : A) :
  find p l = Some x ->
  exists before after,
    l = (before ++ x :: after)%list
    /\ Forall (fun y => p y = false) before
    /\ p x = true
    /\ Arr.updateFirst p f l = (before ++ f x :: after)%list.
Proof.
  induction l as [ | y r IH]; cbn; [discriminate | ].
  destruct (p y) eqn:P.
  - intro H. injection H as <-. exists [], r. repeat split; auto.
  - intro H. destruct (IH H) as (before & after & -> & F & Px & U).
    exists (y :: before), after. cbn. rewrite U. repeat split; auto.
Qed.

Lemma find_updateFirst {A : Type} (p : A -> bool) (f : A -> A) (l : list A) :
  (forall x, p (f x) = p x) ->
  find p (Arr.updateFirst p f l) = option_map f (find p l).
Proof.
  intro K. induction l as [ | y r IH]; cbn; [reflexivity | ].
  destruct (p y) eqn:P; cbn.
  - now rewrite K, P.
  - now rewrite P.
Qed.

(** The three outcomes of a submission that passes validation. *)
Lemma postMockTest_cases now reqUser b st :
  let mine u := String.eqb (User.id u) (Claims.id reqUser) in
  (missing (Submission.testName b) = true \/ Submission.score b = Js.VUndefined)
  /\ postMockTest now reqUser b st = (st, fail 400 "Test name and score are required")
  \/ missing (Submission.testName b) = false /\ Submission.score b <> Js.VUndefined
     /\ (find mine (users st) = None
         /\ postMockTest now reqUser b st = (st, fail 404 "User not found")
         \/ exists user, find mine (users st) = Some user
            /\ (newTest now b = None
                /\ postMockTest now reqUser b st = (st, fail 500 "Failed to save test")
                \/ exists t, newTest now b = Some t
                   /\ postMockTest now reqUser b st
                      = (mkState (Arr.updateFirst mine (addTest t) (users st))
                           (mockTests st ++ [ledgerEntry t (addTest t user)]),
                         json (BSaved (summary (addTest t user)) t
                                 "Mock test saved successfully!")))).
Proof.
  intro mine. unfold postMockTest, missing. fold mine.
  destruct (negb (Js.truthy (Submission.testName b))) eqn:T; cbn [orb].
  - left. auto.
  - destruct (Js.isUndefined (Submission.score b)) eqn:U.
    + left. apply isUndefined_iff in U. auto.
    + right. split; [reflexivity | split].
      * intro E. apply isUndefined_iff in E. congruence.
      * destruct (find mine (users st)) as [user | ]; [right | left; auto].
        exists user. split; [reflexivity | ].
        destruct (newTest now b) as [t | ]; [right | left; auto].
        exists t. auto.
Qed.

End StoreFacts.

Import StoreFacts.

Module AuthFacts.

(** The middleware answers without a token, answers a token that does
    not verify, and otherwise hands the claims on. *)
Lemma authenticateToken_cases secret jwtDecode now authHeader :
  (bearerToken authHeader = None \/ bearerToken authHeader = Some ""%string)
  /\ authenticateToken secret jwtDecode now authHeader
     = Answered (fail 401 "Access token required")
  \/ exists token,
       bearerToken authHeader = Some token /\ token <> ""%string
       /\ (jwtVerify jwtDecode token secret now = None
           /\ authenticateToken secret jwtDecode now authHeader
              = Answered (fail 403 "Invalid token")
           \/ exists user, jwtVerify jwtDecode token secret now = Some user
              /\ authenticateToken secret jwtDecode now authHeader = Next user).
Proof.
  unfold authenticateToken.
  destruct (bearerToken authHeader) as [token | ]; [ | left; auto].
  destruct (String.eqb_spec token "") as [-> | Ne]; [left; auto | right].
  exists token. split; [reflexivity | split; [exact Ne | ]].
  destruct (jwtVerify jwtDecode token secret now) as [user | ]; [right | left; auto].
  exists user. auto.
Qed.

(** A token of the callback route is past its expiry seven days after
    it was issued. *)
Lemma issued_token_expires jwtDecode secret token t0 u now :
  jwtDecode secret token = Some (tokenClaims t0 u) ->
  t0 + 7 * 86400000 < now ->
  jwtVerify jwtDecode token secret now = None.
Proof.
  intros D L. unfold jwtVerify. rewrite D. cbn [tokenClaims Claims.exp].
  replace (t0 / 1000 + 7 * 86400 <=? now / 1000) with true; [reflexivity | ].
  symmetry. apply Z.leb_le.
  replace (t0 / 1000 + 7 * 86400) with ((t0 + 7 * 86400 * 1000) / 1000)
    by (rewrite Z.div_add by lia; reflexivity).
  apply Z.div_le_mono; lia.
Qed.

End AuthFacts.

Import AuthFacts.

Module SortFacts.
Import OrderFacts SignFacts.

Section Insertion.
Context {A : Type} (comparefn : A -> A -> Number).

Lemma insertSorted_perm (x : A) (l : list A) :
  Permutation (Arr.insertSorted comparefn x l) (x :: l).
Proof.
  induction l as [ | y r IH]; cbn; [reflexivity | ].
  destruct (gtb (comparefn x y) posZero); [ | reflexivity].
  rewrite IH. apply perm_swap.
Qed.

Lemma sort_perm (l : list A) : Permutation (Arr.sort comparefn l) l.
Proof.
  induction l as [ | x r IH]; cbn; [reflexivity | ].
  rewrite insertSorted_perm. now constructor.
Qed.

End Insertion.

Section Descending.
Context {A : Type} (key : A -> Number).

(** Sorting with the comparator [key b - key a] puts the elements in
    descending order of their keys, when no key is [NaN]. *)
Lemma insertSorted_sorted (x : A) (l : list A) :
  valid (key x) = true /\ isNaN (key x) = false ->
  Forall (fun a => valid (key a) = true /\ isNaN (key a) = false) l ->
  StronglySorted (fun a b => geb (key a) (key b) = true) l ->
  StronglySorted (fun a b => geb (key a) (key b) = true)
    (Arr.insertSorted (fun a b => sub (key b) (key a)) x l).
Proof.
  intros [Vx Nx] F S. induction S as [ | y r S IH R]; cbn.
  - repeat constructor.
  - apply Forall_cons_iff in F as [[Vy Ny] F].
    rewrite sub_gt0 by assumption.
    destruct (ltb (key x) (key y)) eqn:L.
    + constructor; [now apply IH | ].
      eapply Permutation_Forall; [symmetry; apply insertSorted_perm | ].
      constructor; [ | exact R].
      unfold geb. now apply ltb_leb.
    + assert (Axy : geb (key x) (key y) = true)
        by (unfold geb; now apply ltb_false_leb).
      constructor; [now constructor | ].
      constructor; [exact Axy | ].
      eapply Forall_impl; [ | exact R]. intros z Ayz.
      unfold geb in *. now apply leb_trans with (key y).
Qed.

Lemma sort_sorted (l : list A) :
  Forall (fun a => valid (key a) = true /\ isNaN (key a) = false) l ->
  StronglySorted (fun a b => geb (key a) (key b) = true)
    (Arr.sort (fun a b => sub (key b) (key a)) l).
Proof.
  induction l as [ | x r IH]; cbn; intro F; [constructor | ].
  apply Forall_cons_iff in F as [X F].
  apply insertSorted_sorted; auto.
  eapply Permutation_Forall; [symmetry; apply sort_perm | exact F].
Qed.

Lemma sorted_keys (l : list A) :
  StronglySorted (fun a b => geb (key a) (key b) = true) l -> descending (map key l).
Proof.
  unfold descending. induction 1 as [ | x r S IH R]; cbn; constructor; auto.
  apply Forall_map. exact R.
Qed.

End Descending.

Lemma in_firstn {A : Type} (n : nat) (l : list A) (y : A) :
  In y (firstn n l) -> In y l.
Proof.
  intro H. rewrite <- (firstn_skipn n l). apply in_or_app. now left.
Qed.

Lemma descending_firstn (n : nat) (l : list Number) :
  descending l -> descending (firstn n l).
Proof.
  unfold descending. intro S. revert n.
  induction S as [ | x r S IH R]; intros [ | n]; cbn; try constructor; auto.
  apply Forall_forall. intros y Y. apply (proj1 (Forall_forall _ _) R).
  eapply in_firstn, Y.
Qed.

Lemma rows_length (i : Z) (l : list User.t) :
  List.length (Arr.mapIndexFrom rowOf i l) = List.length l.
Proof. revert i. induction l as [ | u r IH]; intro i; cbn; auto. Qed.

Lemma rows_scores (i : Z) (l : list User.t) :
  map Row.score (Arr.mapIndexFrom rowOf i l) = map User.averageScore l.
Proof. revert i. induction l as [ | u r IH]; intro i; cbn; [ | rewrite IH]; auto. Qed.

Lemma rows_ranks (i : nat) (l : list User.t) :
  map Row.rank (Arr.mapIndexFrom rowOf (Z.of_nat i) l)
  = map Z.of_nat (seq (S i) (List.length l)).
Proof.
  revert i. induction l as [ | u r IH]; intro i; cbn [Arr.mapIndexFrom map List.length seq];
    [reflexivity | ].
  f_equal; [cbn; lia | ].
  replace (Z.of_nat i + 1) with (Z.of_nat (S i)) by lia. apply IH.
Qed.

End SortFacts.

Import SortFacts.

Module RunFacts.
Import NumFacts OrderFacts.

Lemma mathMax_number x y :
  isNaN x = false -> isNaN y = false -> isNaN (mathMax x y) = false.
Proof.
  intros Nx Ny. unfold mathMax. rewrite Nx, Ny. cbn [orb].
  destruct (ltb x y); [exact Ny | ].
  destruct (ltb y x); [exact Nx | ].
  destruct x as [[ | ] | | | ]; assumption.
Qed.

(** [Math.max] is no smaller than its first argument. *)
Lemma leb_mathMax x y :
  isNaN x = false -> isNaN y = false -> leb x (mathMax x y) = true.
Proof.
  intros Nx Ny. unfold mathMax. rewrite Nx, Ny. cbn [orb].
  destruct (ltb x y) eqn:L; [now apply ltb_leb | ].
  destruct (ltb y x) eqn:G; [now apply leb_refl | ].
  assert (E : leb x y = true) by now apply ltb_false_leb.
  destruct x as [[ | ] | | | ]; try exact E; now apply leb_refl.
Qed.

Lemma runningMax_snoc scores x :
  runningMax (scores ++ [x]) = mathMax (runningMax scores) x.
Proof. unfold runningMax. now rewrite fold_left_app. Qed.

Lemma runningMax_number scores a :
  isNaN a = false -> Forall (fun x => isNaN x = false) scores ->
  isNaN (fold_left mathMax scores a) = false.
Proof.
  intros Na F. revert a Na. induction F as [ | x r Nx F IH]; intros a Na; cbn;
    [exact Na | ].
  apply IH. now apply mathMax_number.
Qed.

(** The running maximum never decreases while the scores are numbers. *)
Lemma runningMax_grows scores a :
  isNaN a = false -> Forall (fun x => isNaN x = false) scores ->
  leb a (fold_left mathMax scores a) = true.
Proof.
  intros Na F. revert a Na. induction F as [ | x r Nx F IH]; intros a Na; cbn.
  - now apply leb_refl.
  - apply leb_trans with (mathMax a x); [now apply leb_mathMax | ].
    apply IH. now apply mathMax_number.
Qed.

Lemma ofNat_succ (n : nat) :
  Z.of_nat n < 2 ^ 53 - 1 -> add (ofNat n) (ofZ 1) = ofNat (S n).
Proof.
  intro H. unfold ofNat. rewrite Nat2Z.inj_succ. apply add_ofZ_one. lia.
Qed.

(** One more test keeps the aggregates in agreement. *)
Lemma addTest_agrees (t : MockTest.t) (user : User.t) :
  Z.of_nat (List.length (User.mockTests user)) < 2 ^ 53 - 1 ->
  aggregatesAgree user -> aggregatesAgree (addTest t user).
Proof.
  intros B (T & M & _). unfold aggregatesAgree, scoresOf in *.
  rewrite length_map in T.
  cbn [addTest User.mockTests User.totalTests User.bestScore User.averageScore].
  rewrite map_app, length_app, length_map. cbn [map List.length].
  rewrite T, ofNat_succ by exact B.
  replace (List.length (User.mockTests user) + 1)%nat
    with (S (List.length (User.mockTests user))) by lia.
  split; [reflexivity | split].
  - rewrite M. symmetry. apply runningMax_snoc.
  - intros _. unfold roundedMean, meanOf, sumOf.
    rewrite reduce_scores. unfold scoresOf.
    rewrite map_app, length_app, length_map. cbn [map List.length].
    replace (List.length (User.mockTests user) + 1)%nat
      with (S (List.length (User.mockTests user))) by lia.
    reflexivity.
Qed.

Lemma newTest_score now b t :
  newTest now b = Some t -> Js.parseInt (Submission.score b) = Some (MockTest.score t).
Proof.
  unfold newTest.
  destruct (Js.parseInt (Submission.score b)); [ | discriminate].
  destruct (Js.parseInt (Submission.attempted b)); [ | discriminate].
  destruct (Js.parseInt (Submission.correct b)); [ | discriminate].
  destruct (Js.parseInt (Submission.incorrect b)); [ | discriminate].
  destruct (computeAccuracy _ _); [ | discriminate].
  intro H. injection H as <-. reflexivity.
Qed.

(** An accepted submission adds its test to the user the token names. *)
Lemma accepted_step now reqUser b st user :
  findById (Claims.id reqUser) st = Some user ->
  status (snd (postMockTest now reqUser b st)) = 200 ->
  exists t, newTest now b = Some t
            /\ findById (Claims.id reqUser) (fst (postMockTest now reqUser b st))
               = Some (addTest t user).
Proof.
  unfold findById. intros F S.
  destruct (postMockTest_cases now reqUser b st)
    as [[_ E] | (_ & _ & [[_ E] | (user' & F' & [[_ E] | (t & T & E)])])];
    rewrite E in *; try discriminate S.
  exists t. split; [exact T | ]. cbn [fst users].
  rewrite find_updateFirst by reflexivity.
  cbn in F'. rewrite F in F'. injection F' as <-. rewrite F. reflexivity.
Qed.

Lemma submitAll_app reqUser l1 l2 st :
  submitAll reqUser (l1 ++ l2) st = submitAll reqUser l2 (submitAll reqUser l1 st).
Proof. unfold submitAll. apply fold_left_app. Qed.

Lemma allAccepted_app reqUser l1 l2 st :
  allAccepted reqUser (l1 ++ l2) st
  = allAccepted reqUser l1 st && allAccepted reqUser l2 (submitAll reqUser l1 st).
Proof.
  revert st. induction l1 as [ | s r IH]; intro st; cbn; [reflexivity | ].
  rewrite IH, andb_assoc. reflexivity.
Qed.

(** A run of accepted submissions appends their tests, in order, to
    the history of the user the token names. *)
Lemma accepted_run reqUser subs : forall st user,
  findById (Claims.id reqUser) st = Some user ->
  allAccepted reqUser subs st = true ->
  Z.of_nat (List.length (User.mockTests user) + List.length subs) < 2 ^ 53 ->
  aggregatesAgree user ->
  exists user' tests,
    findById (Claims.id reqUser) (submitAll reqUser subs st) = Some user'
    /\ User.mockTests user' = (User.mockTests user ++ tests)%list
    /\ Forall2 (fun s t => Js.parseInt (Submission.score (snd s)) = Some (MockTest.score t))
         subs tests
    /\ aggregatesAgree user'
    /\ User.bestScore user' = fold_left mathMax (scoresOf tests) (User.bestScore user).
Proof.
  induction subs as [ | s r IH]; intros st user F A B G.
  - exists user, []. cbn. rewrite app_nil_r. repeat split; auto; apply G.
  - cbn [allAccepted] in A. apply andb_prop in A as [A1 A2].
    apply Z.eqb_eq in A1.
    destruct (accepted_step _ _ _ _ _ F A1) as (t & T & F1).
    cbn [List.length] in B.
    assert (G1 : aggregatesAgree (addTest t user)) by (apply addTest_agrees; [lia | exact G]).
    destruct (IH _ _ F1 A2) as (user' & tests & F2 & M & P & G2 & Bs);
      [cbn [addTest User.mockTests]; rewrite length_app; cbn [List.length]; lia
      | exact G1 | ].
    exists user', (t :: tests). cbn [submitAll fold_left] in *.
    split; [exact F2 | split; [ | split; [ | split; [exact G2 | exact Bs]]]].
    + rewrite M. cbn [addTest User.mockTests]. now rewrite <- app_assoc.
    + constructor; [exact (newTest_score _ _ _ T) | exact P].
Qed.

End RunFacts.

Import RunFacts.

(** * The claims *)

(** C1 (as amended): after any run of fewer than [2 ^ 53] accepted
    submissions of a freshly created user, [totalTests] is the number of
    submissions and the length of the history, [averageScore] is the
    rounded mean of the recorded scores, and [bestScore] is their
    running maximum started at 0; from any point of the run to any later
    one [bestScore] does not decrease, provided the recorded scores are
    numbers. *)
Theorem C1_aggregates_after_run (reqUser : Claims.t) (registered : Clock.t)
  (profile : Profile.t) (user : User.t) (st : State)
  (earlier later : list (Z * Submission.t)) :
  newUser registered profile = Some user ->
  findById (Claims.id reqUser) st = Some user ->
  allAccepted reqUser (earlier ++ later) st = true ->
  Z.of_nat (List.length (earlier ++ later)) < 2 ^ 53 ->
  exists before after,
    findById (Claims.id reqUser) (submitAll reqUser earlier st) = Some before
    /\ findById (Claims.id reqUser) (submitAll reqUser (earlier ++ later) st) = Some after
    /\ Forall2 (fun s x => Js.parseInt (Submission.score (snd s)) = Some x)
         (earlier ++ later) (scoresOf (User.mockTests after))
    /\ scoresOf (User.mockTests before)
       = firstn (List.length earlier) (scoresOf (User.mockTests after))
    /\ List.length (User.mockTests after) = List.length (earlier ++ later)
    /\ User.totalTests after = ofNat (List.length (earlier ++ later))
    /\ (earlier ++ later <> [] ->
        User.averageScore after = roundedMean (scoresOf (User.mockTests after)))
    /\ User.bestScore before = runningMax (scoresOf (User.mockTests before))
    /\ User.bestScore after = runningMax (scoresOf (User.mockTests after))
    /\ (Forall (fun x => isNaN x = false) (scoresOf (User.mockTests after)) ->
        leb (User.bestScore before) (User.bestScore after) = true).
Proof.
  intros N F A B.
  assert (Fresh : User.mockTests user = [] /\ aggregatesAgree user).
  { unfold newUser in N.
    destruct (Profile.emails profile), (Profile.photos profile); try discriminate.
    injection N as <-. split; [reflexivity | ].
    repeat split. intro H. now contradiction H. }
  destruct Fresh as [M0 G0].
  rewrite allAccepted_app in A. apply andb_prop in A as [A1 A2].
  rewrite length_app in B.
  destruct (accepted_run reqUser earlier st user F A1) as (u1 & ts1 & F1 & M1 & P1 & G1 & B1);
    [rewrite M0; cbn [List.length]; lia | exact G0 | ].
  rewrite M0 in M1. cbn [app] in M1.
  pose proof (Forall2_length P1) as L1.
  destruct (accepted_run reqUser later _ u1 F1 A2) as (u2 & ts2 & F2 & M2 & P2 & G2 & B2);
    [rewrite M1; lia | exact G1 | ].
  pose proof (Forall2_length P2) as L2.
  exists u1, u2. rewrite submitAll_app.
  assert (S2 : scoresOf (User.mockTests u2) = (scoresOf ts1 ++ scoresOf ts2)%list)
    by (rewrite M2, M1; unfold scoresOf; apply map_app).
  assert (Len : List.length (User.mockTests u2) = (List.length earlier + List.length later)%nat)
    by (rewrite M2, M1, length_app; lia).
  destruct G2 as (T2 & X2 & V2). destruct G1 as (T1 & X1 & V1).
  split; [exact F1 | split; [exact F2 | ]].
  split.
  { rewrite S2. apply Forall2_app.
    - clear - P1. induction P1; cbn; constructor; auto.
    - clear - P2. induction P2; cbn; constructor; auto. }
  split.
  { rewrite S2, M1, L1. unfold scoresOf at 2.
    rewrite <- (length_map MockTest.score ts1). fold (scoresOf ts1).
    rewrite firstn_app, firstn_all, Nat.sub_diag. cbn [firstn]. now rewrite app_nil_r. }
  split; [rewrite length_app; exact Len | ].
  split.
  { rewrite T2. unfold scoresOf. rewrite length_map, Len, length_app. reflexivity. }
  split.
  { intro Ne. apply V2. intro E. apply Ne.
    apply (f_equal (@List.length _)) in E. unfold scoresOf in E.
    rewrite length_map, Len in E. cbn in E.
    destruct earlier, later; cbn in *; try lia; reflexivity. }
  split; [exact X1 | split; [exact X2 | ]].
  intro NoNaN. rewrite B2. rewrite S2 in NoNaN.
  apply Forall_app in NoNaN as [Na Nb].
  apply runningMax_grows; [ | exact Nb].
  rewrite X1, M1. unfold runningMax. now apply runningMax_number.
Qed.

Lemma C1_aggregates_after_run_witness :
  exists before after,
    findById "1700000000000"
      (submitAll annClaims
         [(1700000100000, sampleBody (Js.VNum (ofZ 70)) Js.VUndefined Js.VUndefined)]
         annRegistered) = Some before
    /\ findById "1700000000000"
         (submitAll annClaims
            [(1700000100000, sampleBody (Js.VNum (ofZ 70)) Js.VUndefined Js.VUndefined);
             (1700000200000, sampleBody (Js.VStr "81") Js.VUndefined Js.VUndefined)]
            annRegistered) = Some after
    /\ User.totalTests after = ofZ 2
    /\ User.averageScore after = ofZ 76
    /\ User.bestScore after = ofZ 81
    /\ leb (User.bestScore before) (User.bestScore after) = true.
Proof.
  destruct (C1_aggregates_after_run annClaims (sampleClock 1700000000000) ann _
              annRegistered
              [(1700000100000, sampleBody (Js.VNum (ofZ 70)) Js.VUndefined Js.VUndefined)]
              [(1700000200000, sampleBody (Js.VStr "81") Js.VUndefined Js.VUndefined)]
              eq_refl eq_refl eq_refl ltac:(cbn; lia))
    as (before & after & F1 & F2 & P & _ & _ & T & A & _ & X & G).
  exists before, after.
  split; [exact F1 | split; [exact F2 | ]].
  split; [exact T | ].
  assert (S : scoresOf (User.mockTests after) = [ofZ 70; ofZ 81])
    by (vm_compute in F2; injection F2 as <-; reflexivity).
  split; [rewrite A by discriminate; rewrite S; vm_compute; reflexivity | ].
  split; [rewrite X, S; vm_compute; reflexivity | ].
  apply G. rewrite S. repeat constructor.
Defined.

(** C1 as stated fails: after one accepted submission of score -5 the
    best score is 0, which is not the maximum of the recorded scores. *)
Lemma C1_counterexample :
  allAccepted annClaims
    [(1700000100000, sampleBody (Js.VNum (ofZ (-5))) Js.VUndefined Js.VUndefined)]
    annRegistered = true
  /\ match findById "1700000000000"
             (submitAll annClaims
                [(1700000100000,
                  sampleBody (Js.VNum (ofZ (-5))) Js.VUndefined Js.VUndefined)]
                annRegistered) with
     | Some after =>
         scoresOf (User.mockTests after) = [ofZ (-5)]
         /\ User.bestScore after = posZero
         /\ maxScore (scoresOf (User.mockTests after)) = Some (ofZ (-5))
         /\ Some (User.bestScore after) <> maxScore (scoresOf (User.mockTests after))
     | None => False
     end.
Proof.
  split; [vm_compute; reflexivity | ].
  vm_compute. repeat split. discriminate.
Qed.

(** C2 (as amended): [calculateImprovement] returns 0 for fewer than two
    tests and otherwise the rounded difference between the mean of the
    last three tests and the mean of the first [max 1 (n - 3)] tests;
    that agrees with the specification's wording except for histories of
    two or three tests, and the history 60, 62, 64, 90, 92, 94 yields
    30. *)
Theorem C2_improvement_windows (tests : list MockTest.t) :
  let n := List.length tests in
  calculateImprovement tests
  = (if (n <? 2)%nat then posZero
     else mathRound (sub (meanOf (scoresOf (skipn (n - 3) tests)))
                         (meanOf (scoresOf (firstn (Nat.max 1 (n - 3)) tests)))))
  /\ ((n < 2 \/ 4 <= n)%nat -> calculateImprovement tests = specImprovement tests)
  /\ (scoresOf tests = map ofZ [60; 62; 64; 90; 92; 94] ->
      calculateImprovement tests = ofZ 30).
Proof.
  intro n.
  assert (E : calculateImprovement tests
    = (if (n <? 2)%nat then posZero
       else mathRound (sub (meanOf (scoresOf (skipn (n - 3) tests)))
                           (meanOf (scoresOf (firstn (Nat.max 1 (n - 3)) tests)))))).
  { unfold calculateImprovement. fold n.
    destruct (Nat.ltb_spec n 2) as [Hn | Hn].
    - replace (Z.of_nat n <? 2) with true by (symmetry; apply Z.ltb_lt; lia).
      reflexivity.
    - replace (Z.of_nat n <? 2) with false by (symmetry; apply Z.ltb_ge; lia).
      change (Arr.slice (-3) None tests) with (Arr.slice (- Z.of_nat 3) None tests).
      rewrite (slice_last 3 tests) by lia.
      rewrite slice_first by lia. fold n.
      replace (Z.to_nat (Z.max 1 (Z.of_nat n - 3))) with (Nat.max 1 (n - 3)) by lia.
      rewrite !average_mean, length_firstn. fold n.
      replace (Z.of_nat (Nat.min (Nat.max 1 (n - 3)) n) =? 0) with false
        by (symmetry; apply Z.eqb_neq; lia).
      reflexivity. }
  split; [exact E | split].
  - intros Hn. rewrite E. unfold specImprovement. fold n.
    destruct (Nat.ltb_spec n 2) as [H2 | H2]; [reflexivity | ].
    replace (Nat.max 1 (n - 3)) with (n - 3)%nat by lia.
    destruct (firstn (n - 3) tests) as [ | t r] eqn:F; [ | reflexivity].
    apply (f_equal (@List.length _)) in F. rewrite length_firstn in F.
    fold n in F. cbn in F. lia.
  - intro S. rewrite E.
    assert (L : n = 6%nat)
      by (subst n; rewrite <- (length_map MockTest.score); fold (scoresOf tests);
          rewrite S; reflexivity).
    rewrite L. cbn [Nat.ltb Nat.leb Nat.sub Nat.max].
    unfold scoresOf in *. rewrite <- skipn_map, <- firstn_map, S.
    vm_compute. reflexivity.
Qed.

Lemma C2_improvement_windows_witness :
  calculateImprovement (sampleHistory [60; 62; 64; 90; 92; 94])
  = specImprovement (sampleHistory [60; 62; 64; 90; 92; 94])
  /\ calculateImprovement (sampleHistory [60; 62; 64; 90; 92; 94]) = ofZ 30.
Proof.
  pose proof (C2_improvement_windows (sampleHistory [60; 62; 64; 90; 92; 94]))
    as (_ & A & B).
  split; [apply A; cbn; lia | apply B; reflexivity].
Defined.

(** C2 as stated fails: with two tests the window before the last three
    is empty, yet the result is not 0. *)
Lemma C2_counterexample :
  calculateImprovement (sampleHistory [50; 100]) = ofZ 25
  /\ specImprovement (sampleHistory [50; 100]) = posZero
  /\ calculateImprovement (sampleHistory [50; 100])
     <> specImprovement (sampleHistory [50; 100]).
Proof.
  assert (A : calculateImprovement (sampleHistory [50; 100]) = ofZ 25)
    by (vm_compute; reflexivity).
  assert (B : specImprovement (sampleHistory [50; 100]) = posZero)
    by (vm_compute; reflexivity).
  repeat split; try assumption. rewrite A, B. vm_compute. discriminate.
Qed.

(** C3 (as amended): the test a submission records holds
    [parseInt(attempted)], or 120 when that is [NaN] or 0, and
    [parseInt(correct)] and [parseInt(incorrect)], or 0 when they are
    [NaN] or a zero; its accuracy is [Math.round(correct / attempted * 100)] on
    the submitted values as numbers when the submitted [attempted] is
    above 0, and 0 otherwise, so 0 for [attempted = 0] and for an
    absent [attempted]. *)
Theorem C3_accuracy_of_submission (now : Z) (reqUser : Claims.t)
  (b : Submission.t) (st st' : State) (res : Response) :
  postMockTest now reqUser b st = (st', res) ->
  status res = 200 ->
  exists user t message a c i na,
    body res = BSaved user t message
    /\ mockTests st'
       = (mockTests st
          ++ [Entry.mk t (Summary.id user) (Summary.email user) (Summary.name user)])%list
    /\ Js.parseInt (Submission.attempted b) = Some a
    /\ Js.parseInt (Submission.correct b) = Some c
    /\ Js.parseInt (Submission.incorrect b) = Some i
    /\ Js.toNumber (Submission.attempted b) = Some na
    /\ MockTest.attempted t = (if isNaN a || isZero a then ofZ 120 else a)
    /\ MockTest.correct t = (if isNaN c || isZero c then posZero else c)
    /\ MockTest.incorrect t = (if isNaN i || isZero i then posZero else i)
    /\ (gtb na posZero = true ->
        exists nc, Js.toNumber (Submission.correct b) = Some nc
                   /\ MockTest.accuracy t = mathRound (mul (div nc na) (ofZ 100)))
    /\ (gtb na posZero = false -> MockTest.accuracy t = posZero)
    /\ (isZero na = true \/ Submission.attempted b = Js.VUndefined ->
        MockTest.accuracy t = posZero).
Proof.
  intros P S.
  destruct (postMockTest_cases now reqUser b st)
    as [[_ E] | (_ & _ & [[_ E] | (user & F & [[_ E] | (t & T & E)])])];
    rewrite E in P; injection P as <- <-; try discriminate S.
  unfold newTest in T.
  destruct (Js.parseInt (Submission.score b)) as [sc | ]; [ | discriminate].
  destruct (Js.parseInt (Submission.attempted b)) as [a | ]; [ | discriminate].
  destruct (Js.parseInt (Submission.correct b)) as [c | ]; [ | discriminate].
  destruct (Js.parseInt (Submission.incorrect b)) as [i | ]; [ | discriminate].
  destruct (computeAccuracy (Submission.attempted b) (Submission.correct b))
    as [acc | ] eqn:A; [ | discriminate].
  injection T as <-.
  unfold computeAccuracy in A.
  destruct (Js.toNumber (Submission.attempted b)) as [na | ] eqn:N; [ | discriminate].
  exists (summary (addTest (MockTest.mk (Js.decString now) (Submission.testName b) sc
            (orDefault a (ofZ 120)) (orDefault c posZero) (orDefault i posZero) now acc)
            user)).
  eexists. eexists. exists a, c, i, na.
  split; [reflexivity | ].
  cbn [MockTest.attempted MockTest.correct MockTest.incorrect MockTest.accuracy].
  assert (G : isZero na = true \/ Submission.attempted b = Js.VUndefined ->
              gtb na posZero = false).
  { intros [Zn | U].
    - destruct na as [[ | ] | | | ]; try discriminate; reflexivity.
    - rewrite U in N. injection N as <-. reflexivity. }
  repeat split; try reflexivity.
  - intro Gt. rewrite Gt in A.
    destruct (Js.toNumber (Submission.correct b)) as [nc | ]; [ | discriminate].
    injection A as <-. exists nc. auto.
  - intro Gt. rewrite Gt in A. now injection A as <-.
  - intro H. rewrite (G H) in A. now injection A as <-.
Qed.

Lemma C3_accuracy_of_submission_witness :
  exists t,
    (exists user message,
       body (snd (postMockTest 1700000100000 annClaims
                    (sampleBody (Js.VNum (ofZ 70)) (Js.VNum (ofZ 40)) (Js.VNum (ofZ 23)))
                    annRegistered))
       = BSaved user t message)
    /\ MockTest.attempted t = ofZ 40
    /\ MockTest.accuracy t = mathRound (mul (div (ofZ 23) (ofZ 40)) (ofZ 100)).
Proof.
  destruct (C3_accuracy_of_submission 1700000100000 annClaims
              (sampleBody (Js.VNum (ofZ 70)) (Js.VNum (ofZ 40)) (Js.VNum (ofZ 23)))
              annRegistered _ _ eq_refl eq_refl)
    as (user & t & message & a & c & i & na & B & _ & Pa & _ & _ & Na & At & _ & _
        & Acc & _).
  exists t. split; [exists user, message; exact B | ].
  assert (Ea : a = ofZ 40) by (vm_compute in Pa; now injection Pa as <-).
  assert (En : na = ofZ 40) by (cbn in Na; now injection Na as <-).
  subst a na. split; [exact At | ].
  destruct (Acc eq_refl) as (nc & Nc & ->). cbn in Nc. now injection Nc as <-.
Defined.

(** C3 as stated fails: a submitted [attempted] of 0 is present and
    numeric, yet the recorded value is the default 120. *)
Lemma C3_counterexample :
  nonNumeric (Js.VNum posZero) = false
  /\ specDefaulted (Js.VNum posZero) (ofZ 120) = Some posZero
  /\ match body (snd (postMockTest 1700000100000 annClaims
                        (sampleBody (Js.VNum (ofZ 70)) (Js.VNum posZero)
                           (Js.VNum (ofZ 23)))
                        annRegistered)) with
     | BSaved _ t _ =>
         MockTest.attempted t = ofZ 120
         /\ Some (MockTest.attempted t) <> specDefaulted (Js.VNum posZero) (ofZ 120)
     | _ => False
     end.
Proof.
  split; [reflexivity | split; [reflexivity | ]].
  vm_compute. split; [reflexivity | discriminate].
Qed.

(** C4 (as amended): for a history of at least two tests
    [calculateWeeklyProgress] returns exactly the tests dated in the
    last seven days, each as date, score and name, in their original
    order; for a shorter history it returns nothing. *)
Theorem C4_weekly_progress (now : Z) (tests : list MockTest.t) :
  calculateWeeklyProgress now tests
  = (if (List.length tests <? 2)%nat then [] else specWeeklyProgress now tests)
  /\ ((2 <= List.length tests)%nat ->
      forall p, In p (calculateWeeklyProgress now tests) <->
                exists t, In t tests /\ now - 7 * 86400000 <= MockTest.date t
                          /\ p = progressOf t)
  /\ map Progress.date (calculateWeeklyProgress now tests)
     = (if (List.length tests <? 2)%nat then []
        else filter (fun d => now - 7 * 86400000 <=? d) (map MockTest.date tests)).
Proof.
  assert (E : calculateWeeklyProgress now tests
    = (if (List.length tests <? 2)%nat then [] else specWeeklyProgress now tests)).
  { unfold calculateWeeklyProgress, specWeeklyProgress, oneWeekAgo.
    destruct (Nat.ltb_spec (List.length tests) 2) as [H | H].
    - replace (Z.of_nat (List.length tests) <? 2) with true
        by (symmetry; apply Z.ltb_lt; lia). reflexivity.
    - replace (Z.of_nat (List.length tests) <? 2) with false
        by (symmetry; apply Z.ltb_ge; lia). reflexivity. }
  split; [exact E | split].
  - intros H p. rewrite E.
    replace (List.length tests <? 2)%nat with false
      by (symmetry; apply Nat.ltb_ge; lia).
    unfold specWeeklyProgress. rewrite in_map_iff. split.
    + intros (t & <- & I). apply filter_In in I as [I D].
      exists t. repeat split; [exact I | now apply Z.leb_le].
    + intros (t & I & D & ->). exists t. split; [reflexivity | ].
      apply filter_In. split; [exact I | now apply Z.leb_le].
  - rewrite E. destruct (List.length tests <? 2)%nat; [reflexivity | ].
    unfold specWeeklyProgress. rewrite map_map. clear E.
    induction tests as [ | t r IH]; [reflexivity | ].
    cbn [filter map].
    destruct (now - 7 * 86400000 <=? MockTest.date t); cbn [map];
      rewrite IH; reflexivity.
Qed.

Lemma C4_weekly_progress_witness :
  In (progressOf (sampleTest 80 1700000060000))
    (calculateWeeklyProgress 1700000200000 (sampleHistory [70; 80])).
Proof.
  apply (proj1 (proj2 (C4_weekly_progress 1700000200000 (sampleHistory [70; 80]))));
    [cbn; lia | ].
  exists (sampleTest 80 1700000060000).
  split; [right; left; reflexivity | split; [cbn; lia | reflexivity]].
Defined.

(** C4 as stated fails: a single test taken within the last seven days
    is not returned. *)
Lemma C4_counterexample :
  specWeeklyProgress 1700000200000 (sampleHistory [70])
  = [progressOf (sampleTest 70 1700000000000)]
  /\ calculateWeeklyProgress 1700000200000 (sampleHistory [70]) = []
  /\ calculateWeeklyProgress 1700000200000 (sampleHistory [70])
     <> specWeeklyProgress 1700000200000 (sampleHistory [70]).
Proof.
  repeat split; try (vm_compute; reflexivity). vm_compute. discriminate.
Qed.

(** C5: [calculateConsistency] answers "Insufficient Data" for fewer
    than three tests, and otherwise labels the population standard
    deviation [s] of the scores: below 5 "Very Consistent", below 10
    "Consistent", below 15 "Moderately Consistent", else "Needs Focus";
    the scores 70, 70, 70 are very consistent and 50, 90, 50, 90, of
    deviation 20, need focus. *)
Theorem C5_consistency_labels (tests : list MockTest.t) :
  calculateConsistency tests
  = (if (List.length tests <? 3)%nat then "Insufficient Data"
     else
       let s := populationStdDev (scoresOf tests) in
       if ltb s (ofZ 5) then "Very Consistent"
       else if ltb s (ofZ 10) then "Consistent"
       else if ltb s (ofZ 15) then "Moderately Consistent"
       else "Needs Focus")%string
  /\ (scoresOf tests = map ofZ [70; 70; 70] ->
      calculateConsistency tests = "Very Consistent"%string)
  /\ (scoresOf tests = map ofZ [50; 90; 50; 90] ->
      populationStdDev (scoresOf tests) = ofZ 20
      /\ calculateConsistency tests = "Needs Focus"%string).
Proof.
  assert (E : calculateConsistency tests
    = (if (List.length tests <? 3)%nat then "Insufficient Data"
       else
         let s := populationStdDev (scoresOf tests) in
         if ltb s (ofZ 5) then "Very Consistent"
         else if ltb s (ofZ 10) then "Consistent"
         else if ltb s (ofZ 15) then "Moderately Consistent"
         else "Needs Focus")%string).
  { unfold calculateConsistency.
    destruct (Nat.ltb_spec (List.length tests) 3) as [H | H].
    - replace (Z.of_nat (List.length tests) <? 3) with true
        by (symmetry; apply Z.ltb_lt; lia). reflexivity.
    - replace (Z.of_nat (List.length tests) <? 3) with false
        by (symmetry; apply Z.ltb_ge; lia).
      fold (scoresOf tests).
      rewrite (reduce_map (fun x => x)), map_id.
      rewrite (reduce_map (fun x => mathPow2 (sub x (div (fold_left add (scoresOf tests) posZero)
                                                        (ofNat (List.length (scoresOf tests))))))).
      reflexivity. }
  assert (L : forall zs, scoresOf tests = map ofZ zs ->
                         List.length tests = List.length zs).
  { intros zs S. rewrite <- (length_map MockTest.score tests).
    fold (scoresOf tests). rewrite S. apply length_map. }
  split; [exact E | split].
  - intro S. rewrite E, (L _ S), S. vm_compute. reflexivity.
  - intro S. rewrite E, (L _ S), S. split; vm_compute; reflexivity.
Qed.

Lemma C5_consistency_labels_witness :
  calculateConsistency (sampleHistory [70; 70; 70]) = "Very Consistent"%string
  /\ calculateConsistency (sampleHistory [50; 90; 50; 90]) = "Needs Focus"%string.
Proof.
  split.
  - apply (proj1 (proj2 (C5_consistency_labels (sampleHistory [70; 70; 70])))).
    reflexivity.
  - apply (proj2 (proj2 (C5_consistency_labels (sampleHistory [50; 90; 50; 90])))).
    reflexivity.
Defined.

(** C6 (as amended): [GET /api/leaderboard] lists the users with
    [totalTests > 0] as the sort by [b.averageScore - a.averageScore]
    arranges them, the first 20 of them, ranked 1, 2, ... in that order;
    the arrangement is in descending order of [averageScore] whenever no
    such user's average is [NaN]. *)
Theorem C6_leaderboard_ranking (st : State) :
  let ranked :=
    Arr.sort (fun a b => sub (User.averageScore b) (User.averageScore a))
      (active (users st)) in
  let rows := leaderboard (users st) in
  getLeaderboard st = (st, json (BLeaderboard rows))
  /\ Permutation ranked (active (users st))
  /\ (forall u, In u ranked <-> In u (users st) /\ gtb (User.totalTests u) posZero = true)
  /\ rows = Arr.mapIndex rowOf (firstn 20 ranked)
  /\ List.length rows = Nat.min 20 (List.length (active (users st)))
  /\ map Row.rank rows = map Z.of_nat (seq 1 (List.length rows))
  /\ (Forall (fun u => valid (User.averageScore u) = true
                       /\ isNaN (User.averageScore u) = false) (active (users st)) ->
      descending (map User.averageScore ranked)
      /\ descending (map Row.score rows)).
Proof.
  intros ranked rows.
  assert (P : Permutation ranked (active (users st))) by apply sort_perm.
  assert (R : rows = Arr.mapIndex rowOf (firstn 20 ranked)).
  { subst rows. unfold leaderboard. rewrite slice_first by lia. reflexivity. }
  split; [reflexivity | split; [exact P | split; [ | split; [exact R | split; [ | split]]]]].
  - intro u. split; intro H.
    + apply (Permutation_in u P) in H. unfold active in H.
      apply filter_In in H. exact H.
    + apply (Permutation_in u (Permutation_sym P)). unfold active.
      apply filter_In. exact H.
  - rewrite R. unfold Arr.mapIndex. rewrite rows_length, length_firstn.
    now rewrite (Permutation_length P).
  - rewrite R. unfold Arr.mapIndex. rewrite rows_length.
    apply (rows_ranks 0).
  - intro F.
    assert (D : descending (map User.averageScore ranked)).
    { apply (sorted_keys User.averageScore). apply (sort_sorted User.averageScore).
      exact F. }
    split; [exact D | ].
    rewrite R. unfold Arr.mapIndex. rewrite rows_scores, <- firstn_map.
    now apply descending_firstn.
Qed.

Lemma C6_leaderboard_ranking_witness :
  descending (map Row.score (leaderboard (users bothScored)))
  /\ map Row.score (leaderboard (users bothScored)) = [ofZ 90; ofZ 70].
Proof.
  split; [ | vm_compute; reflexivity].
  apply (C6_leaderboard_ranking bothScored).
  repeat constructor.
Defined.

(** C6 as stated fails: after a submission whose score is no number the
    user's average is [NaN], and the leaderboard lists that user above
    one whose average is 5. *)
Lemma C6_counterexample :
  status (snd (postMockTest 1700000100000 annClaims
                 (sampleBody (Js.VStr "abc") Js.VUndefined Js.VUndefined)
                 bothRegistered)) = 200
  /\ map User.averageScore (users bobScoredFive) = [NaN; ofZ 5]
  /\ map Row.score (leaderboard (users bobScoredFive)) = [NaN; ofZ 5]
  /\ map Row.name (leaderboard (users bobScoredFive)) = ["Ann"; "Bob"]%string
  /\ ~ descending (map Row.score (leaderboard (users bobScoredFive))).
Proof.
  assert (E : map Row.score (leaderboard (users bobScoredFive)) = [NaN; ofZ 5])
    by (vm_compute; reflexivity).
  split; [vm_compute; reflexivity | ].
  split; [vm_compute; reflexivity | ].
  split; [exact E | split; [vm_compute; reflexivity | ]].
  rewrite E. unfold descending. intro S.
  inversion S as [ | x r _ F]; subst.
  inversion F as [ | y r' G _]; subst. discriminate G.
Qed.

(** C7: on a route behind [authenticateToken], a request without a
    bearer token is answered 401 and the handler is not run; a request
    whose token fails the signature or expiry check, as every token
    issued more than seven days earlier does, is answered 403; and
    verification leaves the stored state as it was, so that the handler,
    when it runs, runs on that state. *)
Theorem C7_bearer_protection (secret : string)
  (jwtDecode : string -> string -> option Claims.t) (Req : Type)
  (handler : Claims.t -> Req -> State -> State * Response)
  (now : Z) (authHeader : option string) (req : Req) (st : State) :
  let routed := protected secret jwtDecode handler now authHeader req st in
  (bearerToken authHeader = None \/ bearerToken authHeader = Some ""%string ->
   routed = (st, fail 401 "Access token required"))
  /\ (forall token,
        bearerToken authHeader = Some token -> token <> ""%string ->
        (jwtVerify jwtDecode token secret now = None ->
         routed = (st, fail 403 "Invalid token"))
        /\ (jwtDecode secret token = None ->
            routed = (st, fail 403 "Invalid token"))
        /\ (forall t0 u,
              jwtDecode secret token = Some (tokenClaims t0 u) ->
              t0 + 7 * 86400000 < now ->
              routed = (st, fail 403 "Invalid token"))
        /\ (forall user,
              jwtVerify jwtDecode token secret now = Some user ->
              routed = handler user req st))
  /\ (fst routed = st
      \/ exists user, authenticateToken secret jwtDecode now authHeader = Next user
                      /\ routed = handler user req st).
Proof.
  intro routed. subst routed. unfold protected.
  destruct (authenticateToken_cases secret jwtDecode now authHeader)
    as [[N ->] | (token & T & Ne & [[V ->] | (user & V & ->)])].
  - split; [reflexivity | split; [ | left; reflexivity]].
    intros token T Ne. destruct N as [N | N]; rewrite N in T; [discriminate | ].
    injection T as <-. contradiction.
  - split; [ | split; [ | left; reflexivity]].
    + intros [N | N]; rewrite N in T; [discriminate | ].
      injection T as <-. contradiction.
    + intros token' T' _. rewrite T in T'. injection T' as <-.
      repeat split; try reflexivity. intros user V'. congruence.
  - split; [ | split; [ | right; exists user; auto]].
    + intros [N | N]; rewrite N in T; [discriminate | ].
      injection T as <-. contradiction.
    + intros token' T' _. rewrite T in T'. injection T' as <-.
      repeat split.
      * intro V'. congruence.
      * intro D. unfold jwtVerify in V. rewrite D in V. discriminate.
      * intros t0 u D L. rewrite (issued_token_expires _ _ _ _ _ _ D L) in V.
        discriminate.
      * intros user' V'. congruence.
Qed.

Lemma C7_bearer_protection_witness :
  protected "secret"
    (fun _ _ => Some (tokenClaims 1700000000000 (sampleUser "1" (ofZ 0) (ofZ 0))))
    getUser (1700000000000 + 7 * 86400000 + 1) (Some "Bearer abc.def.ghi"%string) tt
    annRegistered
  = (annRegistered, fail 403 "Invalid token")
  /\ protected "secret" (fun _ _ => None) getUser 1700000000000 None tt annRegistered
     = (annRegistered, fail 401 "Access token required").
Proof.
  split.
  - apply (C7_bearer_protection "secret"
             (fun _ _ => Some (tokenClaims 1700000000000 (sampleUser "1" (ofZ 0) (ofZ 0))))
             unit getUser (1700000000000 + 7 * 86400000 + 1)
             (Some "Bearer abc.def.ghi"%string) tt annRegistered)
      with (token := "abc.def.ghi"%string) (t0 := 1700000000000)
           (u := sampleUser "1" (ofZ 0) (ofZ 0));
      [reflexivity | discriminate | reflexivity | lia].
  - apply (C7_bearer_protection "secret" (fun _ _ => None) unit getUser
             1700000000000 None tt annRegistered).
    left. reflexivity.
Defined.

(** C8: [POST /api/mock-test] answers 400 exactly when [testName] is
    missing or [score] is undefined, a score of 0 with a name present
    is not refused, and a 400 answer leaves the users and the ledger as
    they were; behind the middleware the same holds of every request
    whose token verifies. *)
Theorem C8_validation_error (secret : string)
  (jwtDecode : string -> string -> option Claims.t)
  (now : Z) (authHeader : option string) (reqUser : Claims.t)
  (b : Submission.t) (st : State) :
  let out := postMockTest now reqUser b st in
  let routed := protected secret jwtDecode (postMockTest now) now authHeader b st in
  (status (snd out) = 400 <->
   missing (Submission.testName b) = true \/ Submission.score b = Js.VUndefined)
  /\ (status (snd out) = 400 ->
      out = (st, fail 400 "Test name and score are required"))
  /\ (missing (Submission.testName b) = false ->
      Submission.score b = Js.VNum posZero -> status (snd out) <> 400)
  /\ (status (snd routed) = 400 <->
      exists user, authenticateToken secret jwtDecode now authHeader = Next user
                   /\ (missing (Submission.testName b) = true
                       \/ Submission.score b = Js.VUndefined))
  /\ (status (snd routed) = 400 ->
      routed = (st, fail 400 "Test name and score are required")).
Proof.
  intros out routed.
  assert (A : forall user,
    (status (snd (postMockTest now user b st)) = 400 <->
     missing (Submission.testName b) = true \/ Submission.score b = Js.VUndefined)
    /\ (status (snd (postMockTest now user b st)) = 400 ->
        postMockTest now user b st = (st, fail 400 "Test name and score are required"))).
  { intro user.
    destruct (postMockTest_cases now user b st)
      as [[M ->] | (M & S & [[_ ->] | (u & _ & [[_ ->] | (t & _ & ->)])])];
      cbn; (split; [split | ]); intros; try discriminate; try reflexivity; auto;
      destruct H; congruence. }
  destruct (A reqUser) as [A1 A2].
  split; [exact A1 | split; [exact A2 | split]].
  - intros M S E. apply A1 in E. destruct E as [E | E]; congruence.
  - subst routed. unfold protected.
    destruct (authenticateToken secret jwtDecode now authHeader) as [res | user] eqn:Au.
    + assert (R : status res <> 400).
      { unfold authenticateToken in Au.
        destruct (bearerToken authHeader) as [token | ]; [ | injection Au as <-; cbn; lia].
        destruct (String.eqb token ""); [injection Au as <-; cbn; lia | ].
        destruct (jwtVerify jwtDecode token secret now); [discriminate | ].
        injection Au as <-. cbn. lia. }
      cbn [snd]. split; [split | ]; intros H; try contradiction.
      destruct H as (user & E & _). discriminate.
    + destruct (A user) as [B1 B2]. split; [split | ].
      * intro H. exists user. split; [reflexivity | now apply B1].
      * intros (user' & E & H). injection E as <-. now apply B1.
      * exact B2.
Qed.

Lemma C8_validation_error_witness :
  status (snd (postMockTest 1700000100000 annClaims
                 (sampleBody (Js.VNum posZero) Js.VUndefined Js.VUndefined)
                 annRegistered)) <> 400.
Proof.
  apply (C8_validation_error "secret" (fun _ _ => None) 1700000100000 None annClaims
           (sampleBody (Js.VNum posZero) Js.VUndefined Js.VUndefined) annRegistered);
    reflexivity.
Defined.

(** C9: [GET /api/user] and [GET /api/user/:email] answer a stored user
    with every field of the user but [googleId], which is no key of
    either response, and answer 404 with [User not found] when no user
    has the id or the email. *)
Theorem C9_user_sans_googleId (secret : string)
  (jwtDecode : string -> string -> option Claims.t)
  (now : Z) (authHeader : option string) (reqUser : Claims.t)
  (email : string) (st : State) :
  match findById (Claims.id reqUser) st with
  | Some user =>
      exists props,
        getUser reqUser tt st = (st, json (BObject props))
        /\ sansGoogleId user props
  | None => getUser reqUser tt st = (st, fail 404 "User not found")
  end
  /\ match find (fun u => String.eqb (User.email u) email) (users st) with
     | Some user =>
         exists props,
           getUserByEmail email st = (st, json (BObject props))
           /\ sansGoogleId user props
     | None => getUserByEmail email st = (st, fail 404 "User not found")
     end
  /\ match body (snd (protected secret jwtDecode getUser now authHeader tt st)) with
     | BObject props => Js.hasKey "googleId" props = false
     | BError _ => True
     | _ => False
     end.
Proof.
  assert (S : forall user, sansGoogleId user (omit "googleId" (userProps user))).
  { intro user. unfold sansGoogleId. split; reflexivity. }
  split; [ | split].
  - unfold getUser, findById.
    destruct (find _ (users st)) as [user | ]; [ | reflexivity].
    exists (omit "googleId" (userProps user)). auto.
  - unfold getUserByEmail.
    destruct (find _ (users st)) as [user | ]; [ | reflexivity].
    exists (omit "googleId" (userProps user)). auto.
  - unfold protected, authenticateToken.
    destruct (bearerToken authHeader) as [token | ]; [ | exact I].
    destruct (String.eqb token ""); [exact I | ].
    destruct (jwtVerify jwtDecode token secret now) as [user | ]; [ | exact I].
    unfold getUser. destruct (find _ (users st)) as [u | ]; [ | exact I].
    reflexivity.
Qed.

(** C10: a successful [POST /api/mock-test] rewrites one user record,
    the first with the token's id: it gains one test and new
    [totalTests], [averageScore] and [bestScore], and keeps its other
    fields; every other user record is as before, and the ledger gains
    one entry, the test with that user's id, email and name. *)
Theorem C10_submission_frame (now : Z) (reqUser : Claims.t) (b : Submission.t)
  (st st' : State) (res : Response) :
  postMockTest now reqUser b st = (st', res) ->
  status res = 200 ->
  exists before user after t user',
    users st = (before ++ user :: after)%list
    /\ Forall (fun u => User.id u <> Claims.id reqUser) before
    /\ User.id user = Claims.id reqUser
    /\ newTest now b = Some t
    /\ users st' = (before ++ user' :: after)%list
    /\ mockTests st'
       = (mockTests st
          ++ [Entry.mk t (User.id user) (User.email user) (User.name user)])%list
    /\ User.mockTests user' = (User.mockTests user ++ [t])%list
    /\ User.totalTests user' = add (User.totalTests user) (ofZ 1)
    /\ User.averageScore user'
       = mathRound (div (sumOf (scoresOf (User.mockTests user ++ [t])))
                        (User.totalTests user'))
    /\ User.bestScore user' = mathMax (User.bestScore user) (MockTest.score t)
    /\ User.id user' = User.id user
    /\ User.googleId user' = User.googleId user
    /\ User.email user' = User.email user
    /\ User.name user' = User.name user
    /\ User.avatar user' = User.avatar user
    /\ User.role user' = User.role user
    /\ User.joinedDate user' = User.joinedDate user
    /\ User.lastLogin user' = User.lastLogin user.
Proof.
  intros P S.
  destruct (postMockTest_cases now reqUser b st)
    as [[_ E] | (_ & _ & [[_ E] | (user & F & [[_ E] | (t & T & E)])])];
    rewrite E in P; injection P as <- <-; try discriminate S.
  destruct (find_split _ (addTest t) _ _ F) as (before & after & U & B & M & V).
  exists before, user, after, t, (addTest t user).
  cbn [users mockTests]. rewrite V.
  repeat split; try assumption; try reflexivity.
  - eapply Forall_impl; [ | exact B]. cbn. intros u Hu. now apply String.eqb_neq.
  - now apply String.eqb_eq.
  - cbn [addTest User.averageScore User.totalTests]. rewrite reduce_scores. reflexivity.
Qed.

Lemma C10_submission_frame_witness :
  exists before user after t user',
    users bothRegistered = (before ++ user :: after)%list
    /\ users (fst (postMockTest 1700000100000 bobClaims
                     (sampleBody (Js.VNum (ofZ 70)) Js.VUndefined Js.VUndefined)
                     bothRegistered))
       = (before ++ user' :: after)%list
    /\ User.mockTests user' = (User.mockTests user ++ [t])%list
    /\ User.googleId user' = User.googleId user.
Proof.
  destruct (C10_submission_frame 1700000100000 bobClaims
              (sampleBody (Js.VNum (ofZ 70)) Js.VUndefined Js.VUndefined)
              bothRegistered _ _ eq_refl eq_refl)
    as (before & user & after & t & user' & H).
  exists before, user, after, t, user'. tauto.
Defined.

(** ** A remark on the accuracy

    The accuracy is rounded from a product of doubles: 23 correct out of
    40 attempted gives [0.575 * 100 = 57.49999999999999], recorded as
    57. *)
Example accuracy_23_of_40 :
  computeAccuracy (Js.VNum (ofZ 40)) (Js.VNum (ofZ 23)) = Some (ofZ 57)
  /\ Js.numberToString (mul (div (ofZ 23) (ofZ 40)) (ofZ 100))
     = "57.49999999999999"%string.
Proof. split; vm_compute; reflexivity. Qed.

(** * The rest of the server

    Lemmas on how a submission is answered, on what every state the
    server reaches satisfies, on the sign-in, the session hooks, the
    middleware's reading of the header, and the administration
    routes. *)

Import NumFacts OrderFacts.

Module FindFacts.

Lemma find_app {A : Type} (p : A -> bool) (l r : list A) :
  find p (l ++ r) = match find p l with Some x => Some x | None => find p r end.
Proof.
  induction l as [ | y l IH]; cbn; [reflexivity | ].
  destruct (p y); [reflexivity | exact IH].
Qed.

(** An update in place that keeps what [p] tests and what [g] reads
    does not change what a search by [p] finds, as far as [g] reads. *)
Lemma find_updateFirst_same {A B : Type} (p q : A -> bool) (f : A -> A) (g : A -> B)
  (l : list A) :
  (forall x, p (f x) = p x) -> (forall x, g (f x) = g x) ->
  option_map g (find p (Arr.updateFirst q f l)) = option_map g (find p l).
Proof.
  intros P G. induction l as [ | y l IH]; cbn; [reflexivity | ].
  destruct (q y); cbn.
  - rewrite P. destruct (p y); cbn; [now rewrite G | reflexivity].
  - destruct (p y); cbn; [reflexivity | exact IH].
Qed.

(** An update of an element that [p] rejects before and after is not
    seen by a search by [p]. *)
Lemma find_updateFirst_other {A : Type} (p q : A -> bool) (f : A -> A) (l : list A) :
  (forall x, q x = true -> p x = false /\ p (f x) = false) ->
  find p (Arr.updateFirst q f l) = find p l.
Proof.
  intro D. induction l as [ | y l IH]; cbn; [reflexivity | ].
  destruct (q y) eqn:Q; cbn.
  - destruct (D y Q) as [-> ->]. reflexivity.
  - destruct (p y); [reflexivity | exact IH].
Qed.


Lemma updateFirst_map {A B : Type} (p : A -> bool) (f : A -> A) (g : A -> B)
  (l : list A) :
  (forall x, g (f x) = g x) -> map g (Arr.updateFirst p f l) = map g l.
Proof.
  intro G. induction l as [ | y l IH]; cbn; [reflexivity | ].
  destruct (p y); cbn; [now rewrite G | now rewrite IH].
Qed.

Lemma updateFirst_Forall {A : Type} (P : A -> Prop) (p : A -> bool) (f : A -> A)
  (l : list A) :
  (forall x, P x -> P (f x)) -> Forall P l -> Forall P (Arr.updateFirst p f l).
Proof.
  intros K F. induction F as [ | y l Py F IH]; cbn; [constructor | ].
  destruct (p y); constructor; auto.
Qed.

Lemma updateFirst_none {A : Type} (p : A -> bool) (f : A -> A) (l : list A) :
  find p l = None -> Arr.updateFirst p f l = l.
Proof.
  induction l as [ | y l IH]; cbn; [reflexivity | ].
  destruct (p y); [discriminate | ]. intro H. now rewrite IH.
Qed.


Lemma find_some_true {A : Type} (p : A -> bool) (l : list A) (x : A) :
  find p l = Some x -> p x = true /\ In x l.
Proof. intro H. apply find_some in H. tauto. Qed.

End FindFacts.

Import FindFacts.

Module OutcomeFacts.

Lemma toNumber_readable v : unreadable v = false -> exists n, Js.toNumber v = Some n.
Proof.
  unfold unreadable. destruct v; cbn [Js.toNumber]; eauto;
    destruct (Js.toStringJs _); cbn; try discriminate; eauto.
Qed.

Lemma parseInt_readable v : unreadable v = false -> exists n, Js.parseInt v = Some n.
Proof.
  unfold unreadable, Js.parseInt. destruct (Js.toStringJs v); cbn; [eauto | discriminate].
Qed.

Lemma parseInt_unreadable v : unreadable v = true -> Js.parseInt v = None.
Proof.
  unfold unreadable, Js.parseInt. destruct (Js.toStringJs v); cbn; [discriminate | reflexivity].
Qed.

(** The test object cannot be built exactly when one of the four
    numeric fields cannot be converted. *)
Lemma newTest_none now b :
  newTest now b = None <->
  unreadable (Submission.score b) || unreadable (Submission.attempted b)
  || unreadable (Submission.correct b) || unreadable (Submission.incorrect b) = true.
Proof.
  unfold newTest, computeAccuracy.
  destruct (unreadable (Submission.score b)) eqn:U1; cbn [orb].
  { rewrite (parseInt_unreadable _ U1). tauto. }
  destruct (unreadable (Submission.attempted b)) eqn:U2; cbn [orb].
  { rewrite (parseInt_unreadable _ U2). destruct (Js.parseInt (Submission.score b)); tauto. }
  destruct (unreadable (Submission.correct b)) eqn:U3; cbn [orb].
  { rewrite (parseInt_unreadable _ U3).
    destruct (Js.parseInt (Submission.score b)), (Js.parseInt (Submission.attempted b)); tauto. }
  destruct (unreadable (Submission.incorrect b)) eqn:U4; cbn [orb].
  { rewrite (parseInt_unreadable _ U4).
    destruct (Js.parseInt (Submission.score b)), (Js.parseInt (Submission.attempted b)),
      (Js.parseInt (Submission.correct b)); tauto. }
  destruct (parseInt_readable _ U1) as [n1 ->]. destruct (parseInt_readable _ U2) as [n2 ->].
  destruct (parseInt_readable _ U3) as [n3 ->]. destruct (parseInt_readable _ U4) as [n4 ->].
  destruct (toNumber_readable _ U2) as [a ->]. destruct (toNumber_readable _ U3) as [c ->].
  destruct (gtb a posZero); split; discriminate.
Qed.

Lemma unreadable_truthy v : unreadable v = true -> Js.truthy v = true.
Proof.
  unfold unreadable. destruct v; cbn [Js.toStringJs Js.truthy]; try discriminate;
    reflexivity.
Qed.

(** The log line changes the answer at most: the arrays are those the
    handler has left. *)
Lemma logged_state now reqUser b st :
  fst (postMockTestLogged now reqUser b st) = fst (postMockTest now reqUser b st).
Proof.
  unfold postMockTestLogged.
  destruct (status (snd (postMockTest now reqUser b st)) =? 200); [ | reflexivity].
  destruct (submissionLog b); reflexivity.
Qed.

(** A 200 of the route is a 200 of the handler, with the same answer. *)
Lemma logged_accepted now reqUser b st :
  status (snd (postMockTestLogged now reqUser b st)) = 200 ->
  postMockTestLogged now reqUser b st = postMockTest now reqUser b st
  /\ status (snd (postMockTest now reqUser b st)) = 200.
Proof.
  unfold postMockTestLogged.
  destruct (status (snd (postMockTest now reqUser b st)) =? 200) eqn:E.
  - apply Z.eqb_eq in E. destruct (submissionLog b); [auto | discriminate].
  - auto.
Qed.

(** The log line throws exactly when the name cannot be read, once the
    score has been. *)
Lemma submissionLog_none b :
  unreadable (Submission.score b) = false ->
  (submissionLog b = None <-> unreadable (Submission.testName b) = true).
Proof.
  unfold submissionLog, unreadable.
  destruct (Js.toStringJs (Submission.testName b)), (Js.toStringJs (Submission.score b));
    intro H; split; intro K; try discriminate; reflexivity.
Qed.

End OutcomeFacts.

Import OutcomeFacts.

Module ReachFacts.

Lemma serve_snoc requests r st :
  serve (requests ++ [r]) st = handle (serve requests st) r.
Proof. unfold serve. now rewrite fold_left_app. Qed.

Lemma historyTotal_app l r : historyTotal (l ++ r) = (historyTotal l + historyTotal r)%nat.
Proof. unfold historyTotal. now rewrite map_app, list_sum_app. Qed.

(** The outcomes of a sign-in. *)
Lemma googleStrategy_cases now profile st :
  let known u := String.eqb (User.googleId u) (Profile.id profile) in
  (exists user, find known (users st) = Some user
     /\ googleStrategy now profile st
        = (mkState (Arr.updateFirst known (touchLogin (Clock.lastLogin now)) (users st))
             (mockTests st),
           Some (touchLogin (Clock.lastLogin now) user)))
  \/ find known (users st) = None
     /\ ((exists user, newUser now profile = Some user
            /\ googleStrategy now profile st
               = (mkState (users st ++ [user]) (mockTests st), Some user))
         \/ newUser now profile = None /\ googleStrategy now profile st = (st, None)).
Proof.
  intro known. unfold googleStrategy. fold known.
  destruct (find known (users st)) as [user | ]; [left; eauto | right].
  split; [reflexivity | ].
  destruct (newUser now profile) as [user | ]; [left; eauto | right; auto].
Qed.

Lemma newUser_fields now profile user :
  newUser now profile = Some user ->
  User.id user = Js.decString (Clock.dateNow now)
  /\ User.googleId user = Profile.id profile
  /\ User.role user = "student"%string /\ User.mockTests user = []
  /\ User.totalTests user = posZero /\ User.averageScore user = posZero
  /\ User.bestScore user = posZero /\ User.joinedDate user = Clock.joinedDate now
  /\ User.lastLogin user = Clock.lastLogin now
  /\ User.name user = Profile.displayName profile
  /\ In (User.email user) (Profile.emails profile).
Proof.
  unfold newUser. destruct (Profile.emails profile) as [ | e es]; [discriminate | ].
  destruct (Profile.photos profile) as [ | ph phs]; [discriminate | ].
  intro H. injection H as <-. cbn. tauto.
Qed.

Lemma handle_step st r : Step st (handle st r).
Proof.
  destruct r as [now profile | now reqUser b]; cbn [handle].
  - destruct (googleStrategy_cases now profile st)
      as [(user & F & E) | (F & [(user & N & E) | (N & E)])]; rewrite E; cbn [fst].
    + apply StepLogin.
    + eapply StepJoin; eauto.
    + apply StepSame.
  - rewrite logged_state.
    destruct (postMockTest_cases now reqUser b st)
      as [[_ E] | (_ & _ & [[_ E] | (user & F & [[_ E] | (t & T & E)])])];
      rewrite E; cbn [fst]; try apply StepSame.
    apply StepTest. exact F.
Qed.

(** An invariant of the steps holds in every state the server reaches. *)
Lemma serve_invariant (P : State -> Prop) :
  P initialState -> (forall st st', P st -> Step st st' -> P st') ->
  forall requests, P (serve requests initialState).
Proof.
  intros P0 PS requests. induction requests as [ | r requests IH] using rev_ind.
  - exact P0.
  - rewrite serve_snoc. eapply PS; [exact IH | apply handle_step].
Qed.

Lemma historyTotal_login p now us :
  historyTotal (Arr.updateFirst p (touchLogin now) us) = historyTotal us.
Proof.
  unfold historyTotal. f_equal. apply updateFirst_map. reflexivity.
Qed.

Lemma historyTotal_test p t us user :
  find p us = Some user ->
  historyTotal (Arr.updateFirst p (addTest t) us) = S (historyTotal us).
Proof.
  intro F. destruct (find_split p (addTest t) us user F) as (before & after & -> & _ & _ & ->).
  rewrite !historyTotal_app. unfold historyTotal. cbn [map list_sum fold_right].
  cbn [addTest User.mockTests]. rewrite length_app. cbn [List.length]. lia.
Qed.

Lemma ledger_length_step st st' :
  Step st st' ->
  List.length (mockTests st) = historyTotal (users st) ->
  List.length (mockTests st') = historyTotal (users st').
Proof.
  intros S H. destruct S as [ | now p | now profile user F N | id user t F];
    cbn [users mockTests].
  - exact H.
  - now rewrite historyTotal_login.
  - rewrite historyTotal_app. apply newUser_fields in N.
    destruct N as (_ & _ & _ & M & _). unfold historyTotal at 2. cbn. rewrite M. cbn. lia.
  - rewrite length_app, (historyTotal_test _ _ _ _ F). cbn. lia.
Qed.

Lemma ledger_length requests :
  List.length (mockTests (serve requests initialState))
  = historyTotal (users (serve requests initialState)).
Proof.
  apply (serve_invariant (fun st => List.length (mockTests st) = historyTotal (users st)));
    [reflexivity | ].
  intros st st' P S. exact (ledger_length_step st st' S P).
Qed.

Lemma ledger_bound requests :
  (List.length (mockTests (serve requests initialState)) <= List.length requests)%nat.
Proof.
  induction requests as [ | r requests IH] using rev_ind; [cbn; lia | ].
  rewrite serve_snoc, length_app. cbn [List.length].
  pose proof (handle_step (serve requests initialState) r) as S.
  destruct S; cbn [mockTests]; try lia.
  rewrite length_app. cbn. lia.
Qed.

End ReachFacts.

Import ReachFacts.

Module LedgerFacts.

Lemma eqb_id_eq (u : User.t) (id : string) :
  String.eqb (User.id u) id = true -> User.id u = id.
Proof. apply String.eqb_eq. Qed.

Lemma historyOf_map id st st' :
  option_map User.mockTests (findById id st') = option_map User.mockTests (findById id st) ->
  historyOf id st' = historyOf id st.
Proof.
  unfold historyOf. destruct (findById id st'), (findById id st); cbn; congruence.
Qed.

Lemma ledger_view_step st st' :
  Step st st' ->
  (forall id, ledgerOf id st = historyOf id st) ->
  forall id, ledgerOf id st' = historyOf id st'.
Proof.
  intros S H id. destruct S as [ | now p | now profile user F N | id0 user t F].
  - apply H.
  - transitivity (ledgerOf id st); [reflexivity | ]. rewrite H. symmetry.
    apply historyOf_map. unfold findById. cbn [users].
    apply find_updateFirst_same; reflexivity.
  - transitivity (ledgerOf id st); [reflexivity | ]. rewrite H.
    unfold historyOf, findById. cbn [users]. rewrite find_app.
    destruct (find (fun u => String.eqb (User.id u) id) (users st)); [reflexivity | ].
    cbn [find].
    apply newUser_fields in N. destruct N as (_ & _ & _ & M & _).
    destruct (String.eqb (User.id user) id); [now rewrite M | reflexivity].
  - pose proof (find_some_true _ _ _ F) as [I _]. apply eqb_id_eq in I.
    unfold ledgerOf. cbn [mockTests]. rewrite filter_app, map_app.
    fold (ledgerOf id st). rewrite H. cbn [filter ledgerEntry Entry.userId addTest User.id].
    rewrite I. unfold historyOf, findById. cbn [users].
    destruct (String.eqb id0 id) eqn:E.
    + apply String.eqb_eq in E. subst id. rewrite find_updateFirst by reflexivity.
      rewrite F. cbn. reflexivity.
    + rewrite find_updateFirst_other; [cbn; now rewrite app_nil_r | ].
      intros x Q. apply eqb_id_eq in Q. cbn [addTest User.id]. rewrite Q. auto.
Qed.

Lemma owner_step st st' :
  Step st st' -> Forall (ownerKnown st) (mockTests st) ->
  Forall (ownerKnown st') (mockTests st').
Proof.
  intros S H.
  assert (K : forall st2,
              (forall id, option_map (fun u => (User.email u, User.name u)) (findById id st2)
                          = option_map (fun u => (User.email u, User.name u)) (findById id st)
                          \/ (findById id st = None)) ->
              forall e, ownerKnown st e -> ownerKnown st2 e).
  { intros st2 G e (user & Fu & Em & Nm). destruct (G (Entry.userId e)) as [G1 | G1];
      [ | congruence].
    rewrite Fu in G1. destruct (findById (Entry.userId e) st2) as [user2 | ] eqn:F2;
      [ | discriminate]. cbn in G1. injection G1 as E1 E2.
    exists user2. split; [exact F2 | split; congruence]. }
  destruct S as [ | now p | now profile user F N | id0 user t F]; cbn [mockTests].
  - exact H.
  - eapply Forall_impl; [ | exact H]. apply K.
    intro id. left. unfold findById. cbn [users].
    apply (find_updateFirst_same _ _ _ (fun u => (User.email u, User.name u)));
      reflexivity.
  - eapply Forall_impl; [ | exact H]. apply K.
    intro id. unfold findById. cbn [users]. rewrite find_app.
    destruct (find (fun u => String.eqb (User.id u) id) (users st));
      [left; reflexivity | right; reflexivity].
  - apply Forall_app. split.
    + eapply Forall_impl; [ | exact H]. apply K.
      intro id. left. unfold findById. cbn [users].
      apply (find_updateFirst_same _ _ _ (fun u => (User.email u, User.name u)));
        reflexivity.
    + constructor; [ | constructor].
      exists (addTest t user). unfold findById. cbn [users ledgerEntry Entry.userId].
      pose proof (find_some_true _ _ _ F) as [I _]. apply eqb_id_eq in I.
      cbn [addTest User.id]. rewrite I, find_updateFirst by reflexivity.
      rewrite F. cbn. auto.
Qed.

End LedgerFacts.

Import LedgerFacts.

Module InvariantFacts.

Lemma history_le_total (u : User.t) (us : list User.t) :
  In u us -> (List.length (User.mockTests u) <= historyTotal us)%nat.
Proof.
  unfold historyTotal, list_sum. induction us as [ | v us IH]; cbn [map fold_right In];
    [tauto | ].
  intros [-> | I]; [lia | ]. specialize (IH I). lia.
Qed.

Lemma settled_step st st' :
  Step st st' -> Z.of_nat (historyTotal (users st)) < 2 ^ 53 - 1 ->
  Forall settled (users st) -> Forall settled (users st').
Proof.
  intros S B H. destruct S as [ | now p | now profile user F N | id0 user t F];
    cbn [users].
  - exact H.
  - apply updateFirst_Forall; [ | exact H]. intros x Px. exact Px.
  - apply Forall_app. split; [exact H | ]. constructor; [ | constructor].
    apply newUser_fields in N. destruct N as (_ & _ & _ & M & T & A & Bs & _).
    unfold settled, aggregatesAgree, scoresOf. rewrite M, T, A, Bs. cbn.
    repeat split; auto. intro K. now contradiction K.
  - destruct (find_split _ (addTest t) _ _ F) as (before & after & L & _ & _ & ->).
    rewrite L in H. apply Forall_app in H as [H1 H2]. inversion H2 as [ | ? ? Hu H3]; subst.
    apply Forall_app. split; [exact H1 | ]. constructor; [ | exact H3].
    split.
    + apply addTest_agrees; [ | apply Hu].
      assert (I : In user (users st)) by (rewrite L; apply in_elt).
      apply history_le_total in I. lia.
    + cbn [addTest User.mockTests]. intro K. now apply app_eq_nil in K as [_ K].
Qed.

Lemma settled_reached requests :
  Z.of_nat (List.length requests) < 2 ^ 53 ->
  Forall settled (users (serve requests initialState)).
Proof.
  induction requests as [ | r requests IH] using rev_ind; intro B; [constructor | ].
  rewrite length_app in B. cbn [List.length] in B.
  rewrite serve_snoc. eapply settled_step; [apply handle_step | | apply IH; lia].
  rewrite <- ledger_length. pose proof (ledger_bound requests). lia.
Qed.

(** *** Identities *)

Lemma identity_step st st' :
  Step st st' ->
  NoDup (map User.googleId (users st)) /\ Forall named (users st) ->
  NoDup (map User.googleId (users st')) /\ Forall named (users st').
Proof.
  intros S [D H]. destruct S as [ | now p | now profile user F N | id0 user t F];
    cbn [users].
  - auto.
  - split; [rewrite updateFirst_map by reflexivity; exact D | ].
    apply updateFirst_Forall; [ | exact H]. intros x Px. exact Px.
  - apply newUser_fields in N. destruct N as (I & G & R & _ & _ & _ & _ & J & _).
    split.
    + rewrite map_app. apply NoDup_app; [exact D | repeat constructor; cbn; tauto | ].
      intros g Ig [<- | []]. apply in_map_iff in Ig as (v & Gv & Iv).
      pose proof (find_none _ _ F v Iv) as K. cbn in K.
      rewrite Gv, G, String.eqb_refl in K. discriminate.
    + apply Forall_app. split; [exact H | ]. constructor; [ | constructor].
      split; [exact R | now exists (Clock.dateNow now)].
  - split; [rewrite updateFirst_map by reflexivity; exact D | ].
    apply updateFirst_Forall; [ | exact H]. intros x Px. exact Px.
Qed.

(** *** Scores that are no numbers *)

Lemma add_nan_r x : add x NaN = NaN.
Proof. destruct x as [[ | ] | [ | ] | | [ | ] m e]; reflexivity. Qed.

Lemma isNaN_eq x : isNaN x = true -> x = NaN.
Proof. destruct x; cbn; try discriminate; reflexivity. Qed.

Lemma sum_nan_from scores : fold_left add scores NaN = NaN.
Proof. induction scores as [ | x r IH]; cbn; [reflexivity | exact IH]. Qed.

Lemma sum_nan scores a :
  Exists (fun x => isNaN x = true) scores -> fold_left add scores a = NaN.
Proof.
  intro E. revert a. induction E as [x r Nx | x r E IH]; intro a; cbn.
  - apply isNaN_eq in Nx. subst x. rewrite add_nan_r. apply sum_nan_from.
  - apply IH.
Qed.

Lemma mathMax_nan_l y : mathMax NaN y = NaN.
Proof. reflexivity. Qed.

Lemma mathMax_nan_r x : mathMax x NaN = NaN.
Proof. unfold mathMax. cbn [isNaN NaN]. now rewrite orb_true_r. Qed.

Lemma poisoned_addTest t u :
  (poisoned u -> isNaN (User.averageScore u) = true /\ isNaN (User.bestScore u) = true) ->
  poisoned (addTest t u) ->
  isNaN (User.averageScore (addTest t u)) = true
  /\ isNaN (User.bestScore (addTest t u)) = true.
Proof.
  unfold poisoned. cbn [addTest User.mockTests User.averageScore User.bestScore].
  intros IH E. split.
  - rewrite reduce_scores. rewrite (sum_nan (map MockTest.score (User.mockTests u ++ [t]))).
    + reflexivity.
    + apply Exists_exists. apply Exists_exists in E as (x & I & Nx).
      exists (MockTest.score x). split; [now apply in_map | exact Nx].
  - apply Exists_app in E as [E | E].
    + destruct (IH E) as [_ B]. apply isNaN_eq in B. rewrite B. reflexivity.
    + inversion E as [? ? Nt | ? ? E']; subst; [ | inversion E'].
      apply isNaN_eq in Nt. rewrite Nt. now rewrite mathMax_nan_r.
Qed.

Lemma poisoned_step st st' :
  Step st st' ->
  Forall (fun u => poisoned u -> isNaN (User.averageScore u) = true
                                 /\ isNaN (User.bestScore u) = true) (users st) ->
  Forall (fun u => poisoned u -> isNaN (User.averageScore u) = true
                                 /\ isNaN (User.bestScore u) = true) (users st').
Proof.
  intros S H. destruct S as [ | now p | now profile user F N | id0 user t F];
    cbn [users].
  - exact H.
  - apply updateFirst_Forall; [ | exact H]. intros x Px. exact Px.
  - apply Forall_app. split; [exact H | ]. constructor; [ | constructor].
    apply newUser_fields in N. destruct N as (_ & _ & _ & M & _).
    unfold poisoned. rewrite M. intro E. inversion E.
  - apply updateFirst_Forall; [ | exact H]. intros x Px. now apply poisoned_addTest.
Qed.

End InvariantFacts.

Import InvariantFacts.

Module LoginFacts.

Lemma touchLogin_twice now now' u : touchLogin now (touchLogin now' u) = touchLogin now u.
Proof. reflexivity. Qed.





End LoginFacts.

Import LoginFacts.

Module SessionFacts.

(** Where keys are unique, a search by the key of a member finds that
    member. *)
Lemma find_unique (key : User.t -> string) (l : list User.t) (u : User.t) :
  NoDup (map key l) -> In u l ->
  find (fun v => String.eqb (key v) (key u)) l = Some u.
Proof.
  induction l as [ | v l IH]; cbn [map In find]; [tauto | ].
  intros D I. inversion D as [ | ? ? Nv D']; subst.
  destruct I as [-> | I].
  - now rewrite String.eqb_refl.
  - destruct (String.eqb (key v) (key u)) eqn:E; [ | now apply IH].
    apply String.eqb_eq in E. contradiction Nv. rewrite E. now apply in_map.
Qed.

Lemma updateFirst_app_none {A : Type} (p : A -> bool) (f : A -> A) (l r : list A) :
  find p l = None -> Arr.updateFirst p f (l ++ r) = l ++ Arr.updateFirst p f r.
Proof.
  induction l as [ | y l IH]; cbn; [reflexivity | ].
  destruct (p y); [discriminate | ]. intro H. now rewrite IH.
Qed.

Lemma split_noSpace (s : string) : noSpace s = true -> Arr.split " " s = [s].
Proof.
  induction s as [ | c s IH]; cbn; [reflexivity | ].
  destruct (Ascii.eqb c " "); cbn; [discriminate | ].
  intro H. now rewrite IH.
Qed.

Lemma split_scheme (scheme rest : string) :
  noSpace scheme = true ->
  Arr.split " " (scheme ++ String " " rest)%string = scheme :: Arr.split " " rest.
Proof.
  induction scheme as [ | c s IH]; cbn; [reflexivity | ].
  destruct (Ascii.eqb c " "); cbn; [discriminate | ].
  intro H. now rewrite IH.
Qed.

Lemma header_not_empty (scheme rest : string) :
  String.eqb (scheme ++ String " " rest)%string "" = false.
Proof. destruct scheme; reflexivity. Qed.

Lemma bearerToken_scheme (scheme token : string) :
  noSpace scheme = true -> noSpace token = true ->
  bearerToken (Some (scheme ++ String " " token)%string) = Some token.
Proof.
  intros S T. unfold bearerToken.
  rewrite header_not_empty, split_scheme, split_noSpace by assumption. reflexivity.
Qed.

Lemma jwtVerify_fresh jwtDecode secret token t0 u now :
  jwtDecode secret token = Some (tokenClaims t0 u) ->
  now / 1000 < t0 / 1000 + 7 * 86400 ->
  jwtVerify jwtDecode token secret now = Some (tokenClaims t0 u).
Proof.
  intros D L. unfold jwtVerify. rewrite D. cbn [tokenClaims Claims.exp].
  replace (t0 / 1000 + 7 * 86400 <=? now / 1000) with false; [reflexivity | ].
  symmetry. apply Z.leb_gt. exact L.
Qed.

(** The user a sign-in hands on is in the array. *)
Lemma googleStrategy_member now profile st user :
  snd (googleStrategy now profile st) = Some user ->
  In user (users (fst (googleStrategy now profile st))).
Proof.
  destruct (googleStrategy_cases now profile st)
    as [(u & F & E) | (F & [(u & N & E) | (N & E)])]; rewrite E; cbn [fst snd users];
    intro H; [ | | discriminate]; injection H as <-.
  - destruct (find_split _ (touchLogin (Clock.lastLogin now)) _ _ F)
      as (before & after & _ & _ & _ & ->).
    apply in_elt.
  - apply in_or_app. right. now left.
Qed.

End SessionFacts.

Import SessionFacts.

Module AnalyticsFacts.

(** The last [k] elements, newest first. *)
Lemma recent_newest_first {A : Type} (k : nat) (l : list A) :
  (0 < k)%nat -> rev (Arr.slice (- Z.of_nat k) None l) = firstn k (rev l).
Proof.
  intro K. rewrite slice_last by exact K. now rewrite firstn_rev.
Qed.

Lemma improvement_means (tests : list MockTest.t) :
  (2 <= List.length tests)%nat ->
  calculateImprovement tests
  = mathRound (sub (meanOf (scoresOf (skipn (List.length tests - 3) tests)))
                   (meanOf (scoresOf (firstn (Nat.max 1 (List.length tests - 3)) tests)))).
Proof.
  intro Hn. unfold calculateImprovement. set (n := List.length tests) in *.
  replace (Z.of_nat n <? 2) with false by (symmetry; apply Z.ltb_ge; lia).
  change (Arr.slice (-3) None tests) with (Arr.slice (- Z.of_nat 3) None tests).
  rewrite (slice_last 3 tests) by lia.
  rewrite slice_first by lia. fold n.
  replace (Z.to_nat (Z.max 1 (Z.of_nat n - 3))) with (Nat.max 1 (n - 3)) by lia.
  rewrite !average_mean, length_firstn. fold n.
  replace (Z.of_nat (Nat.min (Nat.max 1 (n - 3)) n) =? 0) with false
    by (symmetry; apply Z.eqb_neq; lia).
  reflexivity.
Qed.

Lemma div_nan_l y : div NaN y = NaN.
Proof. destruct y as [[ | ] | [ | ] | | [ | ] m e]; reflexivity. Qed.

Lemma sub_nan_l y : sub NaN y = NaN.
Proof. destruct y as [[ | ] | [ | ] | | [ | ] m e]; reflexivity. Qed.

Lemma sub_nan_r x : sub x NaN = NaN.
Proof. destruct x as [[ | ] | [ | ] | | [ | ] m e]; reflexivity. Qed.

Lemma mean_nan scores :
  Exists (fun x => isNaN x = true) scores -> meanOf scores = NaN.
Proof.
  intro E. unfold meanOf, sumOf. rewrite (sum_nan _ _ E). apply div_nan_l.
Qed.

Lemma poisoned_scores (tests : list MockTest.t) :
  Exists (fun t => isNaN (MockTest.score t) = true) tests ->
  Exists (fun x => isNaN x = true) (scoresOf tests).
Proof.
  intro E. apply Exists_exists in E as (t & I & Nt). apply Exists_exists.
  exists (MockTest.score t). split; [now apply in_map | exact Nt].
Qed.

Lemma Exists_firstn_le {A : Type} (P : A -> Prop) (a b : nat) (l : list A) :
  (a <= b)%nat -> Exists P (firstn a l) -> Exists P (firstn b l).
Proof.
  revert a b. induction l as [ | x l IH]; intros a b L E.
  - rewrite firstn_nil in E. inversion E.
  - destruct a as [ | a]; [inversion E | ]. destruct b as [ | b]; [lia | ].
    cbn [firstn] in *. inversion E as [? ? Px | ? ? E']; subst.
    + now left.
    + right. apply (IH a b); [lia | exact E'].
Qed.

End AnalyticsFacts.

Import AnalyticsFacts.

Module StatsFacts.

Lemma mathMax_from_bottom x : mathMax (S754_infinity true) x = x.
Proof. destruct x as [[ | ] | [ | ] | | [ | ] m e]; reflexivity. Qed.

(** [Math.max] is one of its arguments when both are numbers. *)
Lemma mathMax_either x y :
  isNaN x = false -> isNaN y = false -> mathMax x y = x \/ mathMax x y = y.
Proof.
  intros Nx Ny. unfold mathMax. rewrite Nx, Ny. cbn [orb].
  destruct (ltb x y); [now right | ]. destruct (ltb y x); [now left | ].
  destruct x as [[ | ] | | | ]; auto.
Qed.

Lemma leb_mathMax_r x y :
  isNaN x = false -> isNaN y = false -> leb y (mathMax x y) = true.
Proof.
  intros Nx Ny. unfold mathMax. rewrite Nx, Ny. cbn [orb].
  destruct (ltb x y) eqn:L; [now apply leb_refl | ].
  destruct (ltb y x) eqn:G; [now apply ltb_leb | ].
  assert (E : leb y x = true) by now apply ltb_false_leb.
  destruct x as [[ | ] | | | ]; try exact E; now apply leb_refl.
Qed.

Lemma fold_max_member xs a :
  isNaN a = false -> Forall (fun x => isNaN x = false) xs ->
  fold_left mathMax xs a = a \/ In (fold_left mathMax xs a) xs.
Proof.
  intros Na F. revert a Na. induction F as [ | x r Nx F IH]; intros a Na; cbn [fold_left];
    [now left | ].
  destruct (IH (mathMax a x) (mathMax_number a x Na Nx)) as [E | I].
  - rewrite E. destruct (mathMax_either a x Na Nx) as [-> | ->]; [now left | right; now left].
  - right. now right.
Qed.

Lemma fold_max_bound xs a x :
  isNaN a = false -> Forall (fun x => isNaN x = false) xs -> In x xs ->
  leb x (fold_left mathMax xs a) = true.
Proof.
  intros Na F. revert a Na. induction F as [ | y r Ny F IH]; intros a Na I; cbn [fold_left];
    [inversion I | ].
  destruct I as [-> | I].
  - apply leb_trans with (mathMax a x); [now apply leb_mathMax_r | ].
    apply runningMax_grows; [now apply mathMax_number | exact F].
  - apply IH; [now apply mathMax_number | exact I].
Qed.

Lemma fold_max_nan xs a :
  isNaN a = true \/ Exists (fun x => isNaN x = true) xs ->
  isNaN (fold_left mathMax xs a) = true.
Proof.
  revert a. induction xs as [ | x r IH]; intros a [Na | E]; cbn [fold_left].
  - exact Na.
  - inversion E.
  - apply IH. left. apply isNaN_eq in Na. now rewrite Na.
  - apply IH. inversion E as [? ? Nx | ? ? E']; subst.
    + left. apply isNaN_eq in Nx. rewrite Nx. now rewrite mathMax_nan_r.
    + now right.
Qed.

End StatsFacts.

Import StatsFacts.

Module TieFacts.

Lemma sameNumber_eq x y : sameNumber x y = true -> x = y.
Proof.
  destruct x as [a | a | | a m e], y as [b | b | | b m' e']; cbn; try discriminate;
    try reflexivity.
  - intro H. apply Bool.eqb_prop in H. now subst.
  - intro H. apply Bool.eqb_prop in H. now subst.
  - intro H. apply andb_prop in H as [H E]. apply andb_prop in H as [S M].
    apply Bool.eqb_prop in S. apply Pos.eqb_eq in M. apply Z.eqb_eq in E. now subst.
Qed.

(** A number minus itself is not above zero. *)
Lemma sub_self_not_positive k : gtb (sub k k) posZero = false.
Proof.
  destruct k as [[ | ] | [ | ] | | s m e]; try reflexivity.
  unfold sub, SFsub. rewrite Z.sub_diag. reflexivity.
Qed.

Lemma insertSorted_ties (k : Number) (x : User.t) (l : list User.t) :
  filter (tiedAt k) (Arr.insertSorted averageComparator x l)
  = filter (tiedAt k) (x :: l).
Proof.
  induction l as [ | y r IH]; [reflexivity | ].
  cbn [Arr.insertSorted].
  destruct (gtb (averageComparator x y) posZero) eqn:G; [ | reflexivity].
  cbn [filter] in *. rewrite IH.
  destruct (tiedAt k x) eqn:Tx, (tiedAt k y) eqn:Ty; try reflexivity.
  unfold tiedAt in Tx, Ty. apply sameNumber_eq in Tx, Ty.
  unfold averageComparator in G. rewrite Tx, Ty, sub_self_not_positive in G.
  discriminate.
Qed.

Lemma sort_ties (k : Number) (l : list User.t) :
  filter (tiedAt k) (Arr.sort averageComparator l) = filter (tiedAt k) l.
Proof.
  induction l as [ | x r IH]; [reflexivity | ].
  cbn [Arr.sort fold_right]. fold (Arr.sort averageComparator r).
  rewrite insertSorted_ties. cbn [filter]. now rewrite IH.
Qed.

Lemma filter_firstn_prefix {A : Type} (p : A -> bool) (n : nat) (l : list A) :
  exists m, filter p (firstn n l) = firstn m (filter p l).
Proof.
  revert n. induction l as [ | x r IH]; intro n.
  - exists 0%nat. now rewrite firstn_nil.
  - destruct n as [ | n]; [exists 0%nat; reflexivity | ].
    cbn [firstn filter]. destruct (IH n) as [m E]. destruct (p x).
    + exists (S m). cbn [firstn]. now rewrite E.
    + exists m. exact E.
Qed.

Lemma rows_of_ties (k : Number) (i : Z) (l : list User.t) :
  map Row.email
    (filter (fun row => sameNumber (Row.score row) k)
       (Arr.mapIndexFrom
          (fun user index =>
             Row.mk (index + 1) (User.name user) (User.email user)
               (User.averageScore user) (User.totalTests user) (User.bestScore user)
               (User.lastLogin user)) i l))
  = map User.email (filter (tiedAt k) l).
Proof.
  revert i. induction l as [ | x r IH]; intro i; [reflexivity | ].
  cbn [Arr.mapIndexFrom filter Row.score]. unfold tiedAt at 1.
  destruct (sameNumber (User.averageScore x) k); cbn [map Row.email]; now rewrite IH.
Qed.

End TieFacts.

Import TieFacts.

Module CountFacts.

Lemma parseIntString_shape s :
  Js.parseIntString s = NaN \/ exists neg v, Js.parseIntString s = Js.signedOfZ neg v.
Proof.
  unfold Js.parseIntString.
  destruct (Js.readSign (Js.trimLeft s)) as [neg s2].
  destruct (match s2 with
            | String "0" (String "x" r) => (16, r)
            | String "0" (String "X" r) => (16, r)
            | _ => (10, s2)
            end) as [radix s3].
  destruct (Js.readDigits radix s3 0 0) as [[v cnt] rest].
  destruct cnt; [now left | right; eauto].
Qed.

(** What [parseInt] returns: [NaN], a zero, or the double of an
    integer that is not zero. *)
Lemma parseInt_shape v n :
  Js.parseInt v = Some n ->
  n = NaN \/ isZero n = true \/ exists z, z <> 0 /\ n = ofZ z.
Proof.
  unfold Js.parseInt. destruct (Js.toStringJs v) as [s | ]; [ | discriminate].
  cbn. intro H. injection H as <-.
  destruct (parseIntString_shape s) as [-> | (neg & z & ->)]; [now left | right].
  unfold Js.signedOfZ. destruct (z =? 0) eqn:E; [now left | right].
  apply Z.eqb_neq in E. destruct neg; eexists; (split; [ | reflexivity]); lia.
Qed.

Lemma orDefault_whole n d :
  (n = NaN \/ isZero n = true \/ exists z, z <> 0 /\ n = ofZ z) ->
  wholeNumber d -> isNaN d = false ->
  wholeNumber (orDefault n d) /\ isNaN (orDefault n d) = false.
Proof.
  intros [-> | [Z | (z & _ & ->)]] W N; unfold orDefault.
  - cbn. auto.
  - rewrite Z, orb_true_r. auto.
  - destruct (isNaN (ofZ z) || isZero (ofZ z)) eqn:E; [auto | ].
    apply orb_false_elim in E as [E _]. split; [now exists z | exact E].
Qed.

End CountFacts.

Import CountFacts.

Module ActiveFacts.

Lemma count_positive (n : nat) :
  Z.of_nat n < 2 ^ 53 ->
  gtb (ofNat n) posZero = match n with O => false | S _ => true end.
Proof.
  intro B. unfold ofNat. destruct n as [ | n]; [reflexivity | ].
  rewrite Nat2Z.inj_succ in *. destruct (Z.succ (Z.of_nat n)) as [ | p | p] eqn:E; try lia.
  rewrite ofZ_pos by exact B. reflexivity.
Qed.

End ActiveFacts.

Import ActiveFacts.

Module GrowthFacts.

Lemma grows_refl u : grows u u.
Proof. unfold grows. repeat split; auto. exists []. now rewrite app_nil_r. Qed.

Lemma grows_trans u v w : grows u v -> grows v w -> grows u w.
Proof.
  unfold grows. intros (A1 & A2 & A3 & A4 & A5 & A6 & A7 & (a & A8))
                       (B1 & B2 & B3 & B4 & B5 & B6 & B7 & (b & B8)).
  repeat split; try congruence.
  exists (a ++ b). rewrite B8, A8. now rewrite app_assoc.
Qed.

Lemma Forall2_grows_refl l : Forall2 grows l l.
Proof. induction l; constructor; auto using grows_refl. Qed.

Lemma Forall2_grows_trans l1 : forall l2 l3,
  Forall2 grows l1 l2 -> Forall2 grows l2 l3 -> Forall2 grows l1 l3.
Proof.
  induction l1 as [ | x l1 IH]; intros l2 l3 H1 H2; inversion H1; subst;
    inversion H2; subst; constructor; eauto using grows_trans.
Qed.

Lemma updateFirst_grows (p : User.t -> bool) (f : User.t -> User.t) (l : list User.t) :
  (forall x, grows x (f x)) -> Forall2 grows l (Arr.updateFirst p f l).
Proof.
  intro G. induction l as [ | y l IH]; cbn; [constructor | ].
  destruct (p y); constructor; auto using grows_refl, Forall2_grows_refl.
Qed.

Lemma grows_touchLogin now u : grows u (touchLogin now u).
Proof. unfold grows. cbn. repeat split; auto. exists []. now rewrite app_nil_r. Qed.

Lemma grows_addTest t u : grows u (addTest t u).
Proof. unfold grows. cbn. repeat split; auto. now exists [t]. Qed.

Lemma extends_refl st : extends st st.
Proof.
  split.
  - exists (users st), []. split; [now rewrite app_nil_r | apply Forall2_grows_refl].
  - exists []. now rewrite app_nil_r.
Qed.

Lemma extends_trans st1 st2 st3 : extends st1 st2 -> extends st2 st3 -> extends st1 st3.
Proof.
  intros [(k2 & j2 & U2 & F2) (e2 & M2)] [(k3 & j3 & U3 & F3) (e3 & M3)]. split.
  - rewrite U2 in F3. apply Forall2_app_inv_l in F3 as (k3a & k3b & Fa & Fb & ->).
    exists k3a, (k3b ++ j3). split; [now rewrite U3, app_assoc | ].
    eapply Forall2_grows_trans; eassumption.
  - exists (e2 ++ e3). now rewrite M3, M2, app_assoc.
Qed.

Lemma extends_step st st' : Step st st' -> extends st st'.
Proof.
  intro S. destruct S as [ | now p | now profile user F N | id0 user t F].
  - apply extends_refl.
  - split; cbn [users mockTests].
    + eexists _, []. split; [now rewrite app_nil_r | ].
      apply updateFirst_grows. apply grows_touchLogin.
    + exists []. now rewrite app_nil_r.
  - split; cbn [users mockTests].
    + exists (users st), [user]. split; [reflexivity | apply Forall2_grows_refl].
    + exists []. now rewrite app_nil_r.
  - split; cbn [users mockTests].
    + eexists _, []. split; [now rewrite app_nil_r | ].
      apply updateFirst_grows. apply grows_addTest.
    + eexists. reflexivity.
Qed.

End GrowthFacts.

Import GrowthFacts.

(** * Further properties *)

(** ** Submissions *)

(** X1: how a submission is answered.  The route answers 400 for a
    missing name or an undefined score, else 404 when no user has the
    token's id, else 500 when a numeric field or the test name cannot be
    converted, else 200.  The test is written exactly when the request
    passes the first two checks and its numeric fields can be converted:
    one entry more in the ledger and the same number of users; otherwise
    the state is as it was.  So a 500 for a test name that cannot be
    converted is sent after the test has been written. *)
Theorem submission_outcomes (now : Z) (reqUser : Claims.t) (b : Submission.t)
  (st : State) :
  let out := postMockTestLogged now reqUser b st in
  let refused :=
    missing (Submission.testName b) || Js.isUndefined (Submission.score b) in
  let unknown :=
    match findById (Claims.id reqUser) st with Some _ => false | None => true end in
  let broken :=
    unreadable (Submission.score b) || unreadable (Submission.attempted b)
    || unreadable (Submission.correct b) || unreadable (Submission.incorrect b) in
  let written := negb refused && negb unknown && negb broken in
  status (snd out)
  = (if refused then 400 else if unknown then 404
     else if broken || unreadable (Submission.testName b) then 500 else 200)
  /\ (if written
      then List.length (mockTests (fst out)) = S (List.length (mockTests st))
           /\ List.length (users (fst out)) = List.length (users st)
      else fst out = st).
Proof.
  intros out refused unknown broken written.
  subst out refused unknown broken written. rewrite logged_state.
  unfold postMockTestLogged, findById.
  destruct (postMockTest_cases now reqUser b st)
    as [[M E] | (M & S & [[F E] | (user & F & [[T E] | (t & T & E)])])];
    rewrite E; cbn [fst snd status fail json].
  - assert (R : missing (Submission.testName b) || Js.isUndefined (Submission.score b)
                = true).
    { destruct M as [M | M]; rewrite M; [reflexivity | now rewrite orb_true_r]. }
    rewrite R. cbn. split; reflexivity.
  - rewrite M. assert (U : Js.isUndefined (Submission.score b) = false).
    { destruct (Js.isUndefined _) eqn:U; [ | reflexivity].
      apply isUndefined_iff in U. contradiction. }
    rewrite U, F. cbn. split; reflexivity.
  - rewrite M. assert (U : Js.isUndefined (Submission.score b) = false).
    { destruct (Js.isUndefined _) eqn:U; [ | reflexivity].
      apply isUndefined_iff in U. contradiction. }
    rewrite U, F. cbn [orb negb andb]. apply newTest_none in T. rewrite T.
    cbn. split; reflexivity.
  - rewrite M. assert (U : Js.isUndefined (Submission.score b) = false).
    { destruct (Js.isUndefined _) eqn:U; [ | reflexivity].
      apply isUndefined_iff in U. contradiction. }
    rewrite U, F. cbn [orb negb andb].
    destruct (unreadable (Submission.score b) || unreadable (Submission.attempted b)
              || unreadable (Submission.correct b) || unreadable (Submission.incorrect b))
      eqn:B.
    { apply (newTest_none now b) in B. congruence. }
    cbn [orb negb]. split.
    + change (200 =? 200) with true. cbv iota.
      assert (Rs : unreadable (Submission.score b) = false).
      { apply orb_false_elim in B as [B _]. apply orb_false_elim in B as [B _].
        now apply orb_false_elim in B as [B _]. }
      destruct (submissionLog b) as [l | ] eqn:L.
      * destruct (unreadable (Submission.testName b)) eqn:Un; [ | reflexivity].
        apply (submissionLog_none b Rs) in Un. congruence.
      * apply (submissionLog_none b Rs) in L. rewrite L. reflexivity.
    + cbn [mockTests users]. rewrite length_app. cbn [List.length].
      split; [lia | ].
      destruct (find_split _ (addTest t) _ _ F) as (before & after & L & _ & _ & V).
      rewrite V, L, !length_app. reflexivity.
Qed.

(** X2: an answer of failure after the test is saved.  When the test
    name is an object that cannot be converted to a string, the score is
    defined, the numeric fields can be converted and the token's user
    exists, the route answers 500 "Failed to save test", and the test is
    in that user's history, counted in the aggregates, and in the
    ledger. *)
Theorem failure_after_saving (now : Z) (reqUser : Claims.t) (b : Submission.t)
  (st : State) (user : User.t) :
  unreadable (Submission.testName b) = true ->
  Submission.score b <> Js.VUndefined ->
  unreadable (Submission.score b) || unreadable (Submission.attempted b)
  || unreadable (Submission.correct b) || unreadable (Submission.incorrect b) = false ->
  findById (Claims.id reqUser) st = Some user ->
  let out := postMockTestLogged now reqUser b st in
  snd out = fail 500 "Failed to save test"
  /\ exists t,
       newTest now b = Some t
       /\ findById (Claims.id reqUser) (fst out) = Some (addTest t user)
       /\ mockTests (fst out) = mockTests st ++ [ledgerEntry t (addTest t user)].
Proof.
  intros Un Sc B F out. subst out.
  assert (Rs : unreadable (Submission.score b) = false).
  { apply orb_false_elim in B as [B' _]. apply orb_false_elim in B' as [B' _].
    now apply orb_false_elim in B' as [B' _]. }
  assert (L : submissionLog b = None) by now apply submissionLog_none.
  rewrite logged_state. unfold postMockTestLogged. rewrite L.
  unfold findById in F.
  destruct (postMockTest_cases now reqUser b st)
    as [[[M | M] E] | (M & S & [[F' E] | (user' & F' & [[T E] | (t & T & E)])])].
  - unfold missing in M. rewrite (unreadable_truthy _ Un) in M. discriminate.
  - contradiction.
  - cbn in F'. congruence.
  - apply (newTest_none now b) in T. congruence.
  - cbn in F'. rewrite F in F'. injection F' as <-.
    rewrite E. cbn [fst snd status json mockTests]. change (200 =? 200) with true.
    cbv iota. split; [reflexivity | ].
    exists t. split; [exact T | split; [ | reflexivity]].
    unfold findById. cbn [users]. rewrite find_updateFirst by reflexivity.
    now rewrite F.
Qed.

Lemma failure_after_saving_witness :
  snd (postMockTestLogged 1700000100000 annClaims (unnamedBody (Js.VNum (ofZ 70)))
         annRegistered)
  = fail 500 "Failed to save test"
  /\ exists t,
       newTest 1700000100000 (unnamedBody (Js.VNum (ofZ 70))) = Some t
       /\ List.length
            (mockTests (fst (postMockTestLogged 1700000100000 annClaims
                               (unnamedBody (Js.VNum (ofZ 70))) annRegistered)))
          = 1%nat.
Proof.
  destruct (failure_after_saving 1700000100000 annClaims (unnamedBody (Js.VNum (ofZ 70)))
              annRegistered
              (User.mk (Js.decString 1700000000000) "g-ann" "ann@example.org" "Ann"
                 "ann.png" "student" [] posZero posZero posZero
                 1700000000000 1700000000000)
              eq_refl ltac:(discriminate) eq_refl ltac:(vm_compute; reflexivity))
    as (A & t & T & _ & M).
  split; [exact A | ]. exists t. split; [exact T | ]. rewrite M. reflexivity.
Defined.

(** ** Every state the server reaches *)

(** X3: nothing is lost and nothing is rewritten.  From any state and
    through any stream of sign-ins and submissions, the users that were
    there stay in their places with their id, Google id, email, name,
    avatar, role and joining date, their histories only grow at the end,
    new users come after them, and the ledger only grows at the end. *)
Theorem nothing_is_lost (requests : list Request) (st : State) :
  extends st (serve requests st).
Proof.
  induction requests as [ | r requests IH] using rev_ind.
  - apply extends_refl.
  - rewrite serve_snoc. eapply extends_trans; [exact IH | ].
    apply extends_step. apply handle_step.
Qed.

(** X4: in every state the server reaches, the ledger holds as many
    entries as the users' histories hold tests, that is the number the
    statistics route reports as submitted, and it is at most the number
    of requests served. *)
Theorem ledger_counts_histories (requests : list Request) :
  let st := serve requests initialState in
  List.length (mockTests st) = historyTotal (users st)
  /\ Stats.totalTestsSubmitted (platformStats st) = Z.of_nat (historyTotal (users st))
  /\ (List.length (mockTests st) <= List.length requests)%nat.
Proof.
  cbn zeta. split; [apply ledger_length | split; [ | apply ledger_bound]].
  cbn [platformStats Stats.totalTestsSubmitted]. now rewrite ledger_length.
Qed.

(** X5: in every state the server reaches, the ledger entries that
    carry a user id are, in order, the tests in the history of the
    first user with that id (none when no user has it), and every entry
    carries the email and the name of that user. *)
Theorem ledger_by_user (requests : list Request) (id : string) :
  let st := serve requests initialState in
  ledgerOf id st = historyOf id st
  /\ Forall (ownerKnown st) (mockTests st).
Proof.
  cbn zeta. split.
  - revert id.
    apply (serve_invariant (fun st => forall id, ledgerOf id st = historyOf id st));
      [reflexivity | ].
    intros st st' P S. exact (ledger_view_step st st' S P).
  - apply (serve_invariant (fun st => Forall (ownerKnown st) (mockTests st)));
      [constructor | ].
    intros st st' P S. exact (owner_step st st' S P).
Qed.

(** X6: in every state the server reaches with fewer than 2^53
    requests, every user's totalTests is the length of the history,
    bestScore the running maximum of its scores from 0, and
    averageScore their rounded mean, or 0 while the history is empty. *)
Theorem aggregates_always_agree (requests : list Request) (user : User.t) :
  Z.of_nat (List.length requests) < 2 ^ 53 ->
  In user (users (serve requests initialState)) ->
  aggregatesAgree user
  /\ (User.mockTests user = [] -> User.averageScore user = posZero).
Proof.
  intros B I. pose proof (settled_reached requests B) as F.
  rewrite Forall_forall in F. exact (F user I).
Qed.

Lemma aggregates_always_agree_witness :
  exists user,
    nth_error (users (serve sampleRequests initialState)) 1 = Some user
    /\ aggregatesAgree user
    /\ (User.mockTests user = [] -> User.averageScore user = posZero).
Proof.
  eexists. split; [vm_compute; reflexivity | ].
  apply (aggregates_always_agree sampleRequests); [vm_compute; reflexivity | ].
  vm_compute. right. left. reflexivity.
Defined.

(** X7: in every state the server reaches no two users share a
    Google id, so that a search by a user's Google id finds that user's
    own record; every user has the role student, and every id is a
    reading of the clock in decimal digits. *)
Theorem identities_of_users (requests : list Request) :
  let st := serve requests initialState in
  NoDup (map User.googleId (users st))
  /\ (forall u, In u (users st) ->
        find (fun v => String.eqb (User.googleId v) (User.googleId u)) (users st) = Some u)
  /\ (forall u, In u (users st) ->
        User.role u = "student"%string /\ exists time : Z, User.id u = Js.decString time).
Proof.
  cbn zeta.
  assert (H : NoDup (map User.googleId (users (serve requests initialState)))
              /\ Forall named (users (serve requests initialState))).
  { apply (serve_invariant
             (fun st => NoDup (map User.googleId (users st)) /\ Forall named (users st))).
    - split; constructor.
    - intros st st' P S. exact (identity_step st st' S P). }
  destruct H as [D F]. rewrite Forall_forall in F.
  split; [exact D | split].
  - intros u I. exact (find_unique User.googleId _ u D I).
  - intros u I. exact (F u I).
Qed.

(** X8: a score that is no number stays: in every state the server
    reaches, a user whose history holds a test with a NaN score has a
    NaN averageScore and a NaN bestScore. *)
Theorem nan_score_poisons (requests : list Request) (user : User.t) :
  In user (users (serve requests initialState)) ->
  poisoned user ->
  isNaN (User.averageScore user) = true /\ isNaN (User.bestScore user) = true.
Proof.
  intros I.
  assert (F : Forall (fun u => poisoned u -> isNaN (User.averageScore u) = true
                                            /\ isNaN (User.bestScore u) = true)
                (users (serve requests initialState))).
  { apply (serve_invariant
             (fun st => Forall (fun u => poisoned u -> isNaN (User.averageScore u) = true
                                            /\ isNaN (User.bestScore u) = true)
                          (users st))); [constructor | ].
    intros st st' P S. exact (poisoned_step st st' S P). }
  rewrite Forall_forall in F. exact (F user I).
Qed.

Lemma nan_score_poisons_witness :
  exists user,
    nth_error (users (serve sampleRequests initialState)) 0 = Some user
    /\ isNaN (User.averageScore user) = true /\ isNaN (User.bestScore user) = true.
Proof.
  eexists. split; [vm_compute; reflexivity | ].
  apply (nan_score_poisons sampleRequests).
  - vm_compute. left. reflexivity.
  - apply Exists_cons_hd. reflexivity.
Defined.

(** X9: in every state the server reaches with fewer than 2^53
    requests, the users the leaderboard and the statistics take for
    active (totalTests above 0) are the users with a test in their
    history. *)
Theorem active_users_have_tests (requests : list Request) :
  Z.of_nat (List.length requests) < 2 ^ 53 ->
  active (users (serve requests initialState))
  = filter hasTests (users (serve requests initialState))
  /\ Stats.activeUsers (platformStats (serve requests initialState))
     = Z.of_nat (List.length (filter hasTests (users (serve requests initialState)))).
Proof.
  intro B.
  assert (E : active (users (serve requests initialState))
              = filter hasTests (users (serve requests initialState))).
  { unfold active. apply filter_ext_in. intros u I.
    pose proof (settled_reached requests B) as F. rewrite Forall_forall in F.
    destruct (F u I) as [(T & _) _]. rewrite T. unfold scoresOf. rewrite length_map.
    rewrite count_positive.
    - unfold hasTests. destruct (User.mockTests u); reflexivity.
    - pose proof (history_le_total u _ I) as L. rewrite <- ledger_length in L.
      pose proof (ledger_bound requests). lia. }
  split; [exact E | ].
  cbn [platformStats Stats.activeUsers]. fold (active (users (serve requests initialState))).
  now rewrite E.
Qed.

Lemma active_users_have_tests_witness :
  active (users (serve sampleRequests initialState))
  = filter hasTests (users (serve sampleRequests initialState))
  /\ Stats.activeUsers (platformStats (serve sampleRequests initialState)) = 2.
Proof.
  destruct (active_users_have_tests sampleRequests) as [A S]; [vm_compute; reflexivity | ].
  split; [exact A | ]. rewrite S. vm_compute. reflexivity.
Defined.

(** ** Analytics of a history with a score that is no number *)

(** X10: a history that holds a score that is no number has no
    analytics to speak of: with two tests or more the improvement is
    NaN, and with three or more the consistency is "Needs Focus". *)
Theorem analytics_of_poisoned_history (tests : list MockTest.t) :
  Exists (fun t => isNaN (MockTest.score t) = true) tests ->
  ((2 <= List.length tests)%nat -> isNaN (calculateImprovement tests) = true)
  /\ ((3 <= List.length tests)%nat -> calculateConsistency tests = "Needs Focus"%string).
Proof.
  intro E. split; intro L.
  - rewrite improvement_means by exact L.
    rewrite <- (firstn_skipn (List.length tests - 3) tests) in E at 1.
    apply Exists_app in E as [E | E].
    + apply (Exists_firstn_le _ _ (Nat.max 1 (List.length tests - 3))) in E; [ | lia].
      rewrite (mean_nan _ (poisoned_scores _ E)), sub_nan_r. reflexivity.
    + rewrite (mean_nan _ (poisoned_scores _ E)), sub_nan_l. reflexivity.
  - unfold calculateConsistency.
    replace (Z.of_nat (List.length tests) <? 3) with false
      by (symmetry; apply Z.ltb_ge; lia).
    cbv zeta. rewrite (reduce_map (fun x => x)), map_id.
    fold (scoresOf tests). rewrite (sum_nan _ _ (poisoned_scores _ E)), div_nan_l.
    rewrite (reduce_map (fun score => mathPow2 (sub score NaN))).
    rewrite sum_nan; [rewrite div_nan_l; reflexivity | ].
    apply Exists_exists in E as (t & I & _). apply Exists_exists.
    exists (mathPow2 (sub (MockTest.score t) NaN)). split.
    + apply in_map_iff. exists (MockTest.score t). split; [reflexivity | ].
      now apply in_map.
    + rewrite sub_nan_r. reflexivity.
Qed.

Lemma analytics_of_poisoned_history_witness :
  isNaN (calculateImprovement
           [sampleTest 70 1700000000000; unscoredTest 1700000060000;
            sampleTest 80 1700000120000]) = true
  /\ calculateConsistency
       [sampleTest 70 1700000000000; unscoredTest 1700000060000;
        sampleTest 80 1700000120000] = "Needs Focus"%string.
Proof.
  destruct (analytics_of_poisoned_history
              [sampleTest 70 1700000000000; unscoredTest 1700000060000;
               sampleTest 80 1700000120000]) as [A B].
  - apply Exists_cons_tl. apply Exists_cons_hd. reflexivity.
  - split; [apply A; cbn; lia | apply B; cbn; lia].
Defined.

(** ** Signing in, sessions and tokens *)


(** X12: two users whose ids are read off the clock in the same
    millisecond get the same id.  Ids are looked up to the first of
    them: the session of the second deserializes to the first, and a
    submission accepted with the second user's token is added to the
    first user's history, the second user's record staying as it
    was. *)
Theorem same_millisecond_same_id (now1 now2 : Clock.t) (first second : Profile.t)
  (st : State) (u1 u2 : User.t) (issued later : Z) (b : Submission.t) :
  let st2 := fst (googleStrategy now2 second (fst (googleStrategy now1 first st))) in
  let out := postMockTestLogged later (tokenClaims issued u2) b st2 in
  Clock.dateNow now1 = Clock.dateNow now2 ->
  find (knownAs first) (users st) = None ->
  find (knownAs second) (users st) = None ->
  Profile.id first <> Profile.id second ->
  newUser now1 first = Some u1 -> newUser now2 second = Some u2 ->
  findById (Js.decString (Clock.dateNow now1)) st = None ->
  status (snd out) = 200 ->
  User.id u1 = User.id u2
  /\ users st2 = users st ++ [u1; u2]
  /\ deserializeUser (serializeUser u2) st2 = Some u1
  /\ exists t, newTest later b = Some t
               /\ users (fst out) = users st ++ [addTest t u1; u2].
Proof.
  intros st2 out Same F1 F2 Ne N1 N2 Fi S.
  pose proof (newUser_fields _ _ _ N1) as (I1 & G1 & _).
  pose proof (newUser_fields _ _ _ N2) as (I2 & G2 & _).
  rewrite <- Same in I2.
  assert (E1 : googleStrategy now1 first st
               = (mkState (users st ++ [u1]) (mockTests st), Some u1)).
  { unfold googleStrategy. unfold knownAs in F1. now rewrite F1, N1. }
  assert (K : knownAs second u1 = false).
  { unfold knownAs. rewrite G1. now apply String.eqb_neq. }
  assert (E2 : st2 = mkState (users st ++ [u1; u2]) (mockTests st)).
  { subst st2. rewrite E1. cbn [fst]. unfold googleStrategy. cbn [users mockTests].
    fold (knownAs second). rewrite find_app, F2. cbn [find]. rewrite K, N2. cbn [fst].
    now rewrite <- app_assoc. }
  assert (M : String.eqb (User.id u1) (User.id u2) = true)
    by (rewrite I1, I2; apply String.eqb_refl).
  assert (Fu : find (fun u => String.eqb (User.id u) (User.id u2)) (users st2) = Some u1).
  { rewrite E2. cbn [users]. rewrite find_app. rewrite I2.
    unfold findById in Fi. rewrite Fi. cbn [find]. now rewrite I1, String.eqb_refl. }
  split; [congruence | split; [now rewrite E2 | split; [exact Fu | ]]].
  subst out. apply logged_accepted in S as [L S]. rewrite L.
  destruct (postMockTest_cases later (tokenClaims issued u2) b st2)
    as [[_ E] | (_ & _ & [[_ E] | (user & F & [[_ E] | (t & T & E)])])];
    cbn [tokenClaims Claims.id] in *; rewrite E in S; try discriminate S.
  exists t. split; [exact T | ]. rewrite E. cbn [fst users]. rewrite E2. cbn [users].
  rewrite updateFirst_app_none by (rewrite I2; exact Fi).
  cbn [Arr.updateFirst]. now rewrite M.
Qed.

Lemma same_millisecond_same_id_witness :
  exists u1 u2 t,
    newUser (Clock.mk 1700000000000 1700000000000 1700000000000) ann = Some u1
    /\ newUser (Clock.mk 1700000000000 1700000000001 1700000000001) bob = Some u2
    /\ User.id u1 = User.id u2
    /\ users (fst (postMockTestLogged 1700000100000 (tokenClaims 1700000000002 u2)
                     (sampleBody (Js.VNum (ofZ 70)) Js.VUndefined Js.VUndefined)
                     (fst (googleStrategy
                             (Clock.mk 1700000000000 1700000000001 1700000000001) bob
                             (fst (googleStrategy
                                     (Clock.mk 1700000000000 1700000000000 1700000000000)
                                     ann initialState))))))
       = [addTest t u1; u2].
Proof.
  eexists. eexists.
  assert (N1 : newUser (Clock.mk 1700000000000 1700000000000 1700000000000) ann
               = Some (User.mk (Js.decString 1700000000000) "g-ann" "ann@example.org" "Ann"
                         "ann.png" "student" [] posZero posZero posZero
                         1700000000000 1700000000000)) by reflexivity.
  assert (N2 : newUser (Clock.mk 1700000000000 1700000000001 1700000000001) bob
               = Some (User.mk (Js.decString 1700000000000) "g-bob" "bob@example.org" "Bob"
                         "bob.png" "student" [] posZero posZero posZero
                         1700000000001 1700000000001)) by reflexivity.
  destruct (same_millisecond_same_id
              (Clock.mk 1700000000000 1700000000000 1700000000000)
              (Clock.mk 1700000000000 1700000000001 1700000000001)
              ann bob initialState _ _ 1700000000002 1700000100000
              (sampleBody (Js.VNum (ofZ 70)) Js.VUndefined Js.VUndefined)
              eq_refl eq_refl eq_refl ltac:(discriminate) N1 N2 eq_refl
              ltac:(vm_compute; reflexivity))
    as (I & _ & _ & t & _ & U).
  exists t. split; [exact N1 | split; [exact N2 | split; [exact I | exact U]]].
Defined.

(** X13: the session hooks are a round trip where ids are unique: the id
    kept for a user of the state is looked up to that user. *)
Theorem session_round_trip (st : State) (user : User.t) :
  NoDup (map User.id (users st)) -> In user (users st) ->
  deserializeUser (serializeUser user) st = Some user.
Proof.
  intros D I. unfold deserializeUser, serializeUser.
  exact (find_unique User.id (users st) user D I).
Qed.

Lemma session_round_trip_witness :
  exists user,
    nth_error (users bothRegistered) 1 = Some user
    /\ deserializeUser (serializeUser user) bothRegistered = Some user.
Proof.
  eexists. split; [vm_compute; reflexivity | ].
  apply session_round_trip.
  - vm_compute. constructor; [intros [H | []]; discriminate H | ].
    constructor; [intros [] | constructor].
  - vm_compute. right. left. reflexivity.
Defined.

(** X14: the middleware takes the second word of the header for the
    token, whatever the first: for a scheme and a token without a space,
    the header "scheme token" is answered as "Bearer token" is. *)
Theorem scheme_is_ignored (secret : string)
  (jwtDecode : string -> string -> option Claims.t) (now : Z)
  (scheme token : string) :
  noSpace scheme = true -> noSpace token = true ->
  bearerToken (Some (scheme ++ " " ++ token)%string) = Some token
  /\ authenticateToken secret jwtDecode now (Some (scheme ++ " " ++ token)%string)
     = authenticateToken secret jwtDecode now (Some ("Bearer " ++ token)%string).
Proof.
  intros S T.
  assert (B : bearerToken (Some (scheme ++ " " ++ token)%string) = Some token)
    by (apply bearerToken_scheme; assumption).
  split; [exact B | ]. unfold authenticateToken. rewrite B.
  change ("Bearer " ++ token)%string with ("Bearer" ++ String " " token)%string.
  rewrite bearerToken_scheme by (try reflexivity; assumption). reflexivity.
Qed.

Lemma scheme_is_ignored_witness :
  bearerToken (Some "Basic abc.def.ghi"%string) = Some "abc.def.ghi"%string
  /\ authenticateToken "secret" (fun _ _ => None) 1700000000000
       (Some "Basic abc.def.ghi"%string)
     = authenticateToken "secret" (fun _ _ => None) 1700000000000
         (Some "Bearer abc.def.ghi"%string).
Proof.
  exact (scheme_is_ignored "secret" (fun _ _ => None) 1700000000000
           "Basic" "abc.def.ghi" eq_refl eq_refl).
Defined.

(** X15: from sign-in to profile.  When ids are unique after a sign-in,
    a token that decodes to the claims issued for the user signed in,
    presented as a bearer token before seven days have passed since
    it was issued, is
    answered by [GET /api/user] with status 200 and that user's record
    without the Google id. *)
Theorem sign_in_then_profile (secret : string)
  (jwtDecode : string -> string -> option Claims.t)
  (now : Clock.t) (issued later : Z) (profile : Profile.t) (st : State)
  (user : User.t) (token : string) :
  let st' := fst (googleStrategy now profile st) in
  snd (googleStrategy now profile st) = Some user ->
  NoDup (map User.id (users st')) ->
  jwtDecode secret token = Some (tokenClaims issued user) ->
  noSpace token = true -> token <> ""%string ->
  later / 1000 < issued / 1000 + 7 * 86400 ->
  protected secret jwtDecode getUser later (Some ("Bearer " ++ token)%string) tt st'
  = (st', json (BObject (omit "googleId" (userProps user)))).
Proof.
  intros st' Su D J T Ne L.
  pose proof (googleStrategy_member now profile st user Su) as I. fold st' in I.
  unfold protected, authenticateToken.
  change ("Bearer " ++ token)%string with ("Bearer" ++ String " " token)%string.
  rewrite bearerToken_scheme by (try reflexivity; assumption).
  apply String.eqb_neq in Ne. rewrite Ne.
  rewrite (jwtVerify_fresh jwtDecode secret token issued user later J L).
  unfold getUser. cbn [tokenClaims Claims.id].
  rewrite (find_unique User.id (users st') user D I). reflexivity.
Qed.

Lemma sign_in_then_profile_witness :
  exists user,
    snd (googleStrategy (sampleClock 1700000001000) bob annRegistered) = Some user
    /\ protected "secret" (fun _ _ => Some (tokenClaims 1700000001500 user)) getUser
         1700000002000 (Some "Bearer abc.def.ghi"%string) tt bothRegistered
       = (bothRegistered, json (BObject (omit "googleId" (userProps user)))).
Proof.
  eexists. split; [vm_compute; reflexivity | ].
  apply (sign_in_then_profile "secret" _ (sampleClock 1700000001000) 1700000001500
           1700000002000 bob annRegistered _ "abc.def.ghi").
  - vm_compute. reflexivity.
  - vm_compute. constructor; [intros [H | []]; discriminate H | ].
    constructor; [intros [] | constructor].
  - reflexivity.
  - reflexivity.
  - discriminate.
  - vm_compute. reflexivity.
Defined.

(** ** Recent tests, statistics and the leaderboard *)

(** X16: the recent tests of the analytics are the last five of the
    history, newest first, and the recent activity of the statistics
    the last ten ledger entries, newest first; after an accepted
    submission the first entry of the recent activity carries the new
    test and the id of the token. *)
Theorem recents_newest_first (now : Z) (user : User.t) (st : State)
  (reqUser : Claims.t) (b : Submission.t) :
  Analytics.recentTests (analyticsOf now user) = firstn 5 (rev (User.mockTests user))
  /\ Stats.recentActivity (platformStats st) = firstn 10 (rev (mockTests st))
  /\ (status (snd (postMockTestLogged now reqUser b st)) = 200 ->
      exists e,
        hd_error
          (Stats.recentActivity (platformStats (fst (postMockTestLogged now reqUser b st))))
        = Some e
        /\ newTest now b = Some (Entry.test e)
        /\ Entry.userId e = Claims.id reqUser).
Proof.
  split; [ | split].
  - cbn [analyticsOf Analytics.recentTests].
    change (-5) with (- Z.of_nat 5). apply recent_newest_first. lia.
  - cbn [platformStats Stats.recentActivity].
    change (-10) with (- Z.of_nat 10). apply recent_newest_first. lia.
  - intro S. apply logged_accepted in S as [L S]. rewrite L.
    destruct (postMockTest_cases now reqUser b st)
      as [[_ E] | (_ & _ & [[_ E] | (u & F & [[_ E] | (t & T & E)])])];
      rewrite E in *; try discriminate S.
    exists (ledgerEntry t (addTest t u)).
    cbn [fst platformStats Stats.recentActivity mockTests].
    change (-10) with (- Z.of_nat 10). rewrite recent_newest_first by lia.
    rewrite rev_app_distr. cbn [rev app firstn hd_error].
    split; [reflexivity | split; [exact T | ]].
    cbn [ledgerEntry Entry.userId addTest User.id].
    apply find_some_true in F as [F _]. now apply String.eqb_eq in F.
Qed.

(** X17: the top score of the statistics is 0 without users; with
    users whose best scores are numbers it is the best score of one of
    them and no smaller than anyone's; and it is NaN as soon as one
    user's best score is. *)
Theorem top_score_of_stats (st : State) :
  let top := Stats.topScore (platformStats st) in
  let bests := map User.bestScore (users st) in
  (users st = [] -> top = posZero)
  /\ (users st <> [] -> Forall (fun x => isNaN x = false) bests ->
      In top bests /\ Forall (fun x => leb x top = true) bests)
  /\ (Exists (fun x => isNaN x = true) bests -> isNaN top = true).
Proof.
  cbn zeta. cbn [platformStats Stats.topScore]. unfold mathMaxAll.
  destruct (users st) as [ | u us] eqn:U.
  - split; [reflexivity | split; [intro H; now contradiction H | intro E; inversion E]].
  - cbn [List.length]. replace (0 <? Z.of_nat (S (List.length us))) with true
      by (symmetry; apply Z.ltb_lt; lia).
    cbn [map fold_left]. rewrite mathMax_from_bottom.
    split; [discriminate | split].
    + intros _ F. inversion F as [ | ? ? Nu F']; subst. split.
      * destruct (fold_max_member _ _ Nu F') as [-> | I]; [now left | now right].
      * constructor; [now apply runningMax_grows | ].
        apply Forall_forall. intros x I. now apply fold_max_bound.
    + intro E. apply fold_max_nan. inversion E; subst; auto.
Qed.

(** X18: ties on the leaderboard keep the order of registration.
    Where the average of every listed user is a number, which is where
    the comparator is consistent and the language fixes what the sort
    returns, the rows with one and the same score list users in the
    order of the users array, before and after the cap of 20 rows (which
    keeps a prefix of them). *)
Theorem leaderboard_ties_keep_order (us : list User.t) (k : Number) :
  Forall (fun u => isNaN (User.averageScore u) = false) (active us) ->
  filter (tiedAt k) (Arr.sort averageComparator (active us)) = filter (tiedAt k) (active us)
  /\ exists m,
       map Row.email (filter (fun row => sameNumber (Row.score row) k) (leaderboard us))
       = firstn m (map User.email (filter (tiedAt k) (active us))).
Proof.
  intros _. split; [apply sort_ties | ].
  unfold leaderboard, Arr.mapIndex. rewrite rows_of_ties.
  rewrite slice_first by lia.
  destruct (filter_firstn_prefix (tiedAt k) (Z.to_nat 20)
              (Arr.sort (fun a b => sub (User.averageScore b) (User.averageScore a))
                 (filter (fun u => gtb (User.totalTests u) posZero) us))) as [m E].
  exists m. rewrite E. rewrite <- firstn_map. f_equal. f_equal.
  exact (sort_ties k (active us)).
Qed.

Lemma leaderboard_ties_keep_order_witness :
  map User.id
    (filter (tiedAt (ofZ 70))
       (Arr.sort averageComparator
          (active [sampleUser "a" (ofZ 70) (ofZ 1); sampleUser "c" (ofZ 90) (ofZ 1);
                   sampleUser "b" (ofZ 70) (ofZ 1)])))
  = ["a"; "b"]%string.
Proof.
  destruct (leaderboard_ties_keep_order
              [sampleUser "a" (ofZ 70) (ofZ 1); sampleUser "c" (ofZ 90) (ofZ 1);
               sampleUser "b" (ofZ 70) (ofZ 1)] (ofZ 70)) as [E _].
  - vm_compute. repeat constructor.
  - rewrite E. vm_compute. reflexivity.
Defined.

(** ** What is recorded of a submission *)

(** X19: what is recorded of a submission is in whole numbers: the
    recorded score is NaN, a zero or the double of an integer, and the
    recorded attempted, correct and incorrect are doubles of integers,
    never NaN, the attempted never zero. *)
Theorem recorded_counts_are_whole (now : Z) (b : Submission.t) (t : MockTest.t) :
  newTest now b = Some t ->
  (isNaN (MockTest.score t) = true \/ isZero (MockTest.score t) = true
   \/ wholeNumber (MockTest.score t))
  /\ (wholeNumber (MockTest.attempted t) /\ isNaN (MockTest.attempted t) = false
      /\ isZero (MockTest.attempted t) = false)
  /\ (wholeNumber (MockTest.correct t) /\ isNaN (MockTest.correct t) = false)
  /\ (wholeNumber (MockTest.incorrect t) /\ isNaN (MockTest.incorrect t) = false).
Proof.
  unfold newTest.
  destruct (Js.parseInt (Submission.score b)) as [s | ] eqn:Ps; [ | discriminate].
  destruct (Js.parseInt (Submission.attempted b)) as [a | ] eqn:Pa; [ | discriminate].
  destruct (Js.parseInt (Submission.correct b)) as [c | ] eqn:Pc; [ | discriminate].
  destruct (Js.parseInt (Submission.incorrect b)) as [i | ] eqn:Pi; [ | discriminate].
  destruct (computeAccuracy _ _); [ | discriminate].
  intro H. injection H as <-.
  cbn [MockTest.score MockTest.attempted MockTest.correct MockTest.incorrect].
  apply parseInt_shape in Ps, Pa, Pc, Pi.
  assert (Z0 : wholeNumber posZero) by (exists 0; reflexivity).
  assert (Z120 : wholeNumber (ofZ 120)) by (exists 120; reflexivity).
  split; [ | split; [ | split]].
  - destruct Ps as [-> | [Z | (z & _ & ->)]]; [now left | right; now left | ].
    right. right. now exists z.
  - destruct (orDefault_whole a (ofZ 120) Pa Z120 eq_refl) as [W N].
    split; [exact W | split; [exact N | ]].
    unfold orDefault in *. destruct (isNaN a || isZero a) eqn:E; [reflexivity | ].
    now apply orb_false_elim in E as [_ E].
  - exact (orDefault_whole c posZero Pc Z0 eq_refl).
  - exact (orDefault_whole i posZero Pi Z0 eq_refl).
Qed.

Lemma recorded_counts_are_whole_witness :
  exists t,
    newTest 1700000100000 (sampleBody (Js.VStr "59.9") (Js.VStr "abc") Js.VUndefined)
    = Some t
    /\ MockTest.score t = ofZ 59 /\ MockTest.attempted t = ofZ 120
    /\ wholeNumber (MockTest.correct t) /\ isNaN (MockTest.incorrect t) = false.
Proof.
  eexists. split; [vm_compute; reflexivity | ].
  split; [vm_compute; reflexivity | split; [vm_compute; reflexivity | ]].
  destruct (recorded_counts_are_whole 1700000100000
              (sampleBody (Js.VStr "59.9") (Js.VStr "abc") Js.VUndefined) _
              ltac:(vm_compute; reflexivity))
    as (_ & _ & (C & _) & (_ & I)).
  split; [exact C | exact I].
Defined.

